(** * The merge engine of charging_stations.connectors._merger

    A shallow embedding of [Merger] (src/charging_stations/connectors/_merger.py):
    the pandas working table [stations_gdf] is an association list of labelled
    rows kept in positional order, Python floats are idealised as exact
    rationals ([Q]), and the third-party routines the module calls (numpy,
    shapely, difflib, pandas' [sample], libpysal's [KNN], which may raise) are
    the fields of one interface, [Libs]. *)

From Stdlib Require Import List String Ascii Bool Arith ZArith QArith Lia Lqa Permutation.
From Stdlib Require Import DecimalString.
Import ListNotations.
Open Scope string_scope.
Open Scope list_scope.

(** ** Python-level vocabulary *)

Module Py.

Inductive exn : Type :=
| RuntimeError (msg : string)
| KeyError (msg : string)
| IndexError (msg : string)
| OSError (msg : string)
| JSONDecodeError (msg : string).

Inductive result (A : Type) : Type :=
| Ok (a : A)
| Raise (e : exn).
Arguments Ok {A} a.
Arguments Raise {A} e.

Definition bind {A B : Type} (r : result A) (k : A -> result B) : result B :=
  match r with
  | Ok a => k a
  | Raise e => Raise e
  end.

(** [str(x)] / f-string interpolation of a value that may be [None]. *)
Definition str (x : option string) : string :=
  match x with
  | Some s => s
  | None => "None"
  end.

Definition startswith (s p : string) : bool := String.prefix p s.

Definition endswith (s p : string) : bool :=
  (String.length p <=? String.length s)%nat
  && String.eqb (substring (String.length s - String.length p) (String.length p) s) p.

(** Comparison [a < b] on idealised floats. *)
Definition ltb (a b : Q) : bool := negb (Qle_bool b a).

Definition hex_digit (n : nat) : ascii :=
  nth n ["0"; "1"; "2"; "3"; "4"; "5"; "6"; "7"; "8"; "9";
         "a"; "b"; "c"; "d"; "e"; "f"]%char "0"%char.

(** One character as [repr] shows it between the quotes [quote]; characters
    outside ASCII are taken as printable. *)
Definition repr_char (quote c : ascii) : string :=
  let n := nat_of_ascii c in
  if Ascii.eqb c (ascii_of_nat 92) then String c (String c EmptyString)
  else if Ascii.eqb c quote then String (ascii_of_nat 92) (String c EmptyString)
  else if Nat.eqb n 9 then String (ascii_of_nat 92) "t"
  else if Nat.eqb n 10 then String (ascii_of_nat 92) "n"
  else if Nat.eqb n 13 then String (ascii_of_nat 92) "r"
  else if (n <? 32)%nat || Nat.eqb n 127
       then String (ascii_of_nat 92)
                   (String "x" (String (hex_digit (n / 16))
                                       (String (hex_digit (n mod 16)) EmptyString)))
       else String c EmptyString.

(** [repr(s)] of a text: in single quotes, unless the text holds a single
    quote and no double quote. *)
Definition repr (s : string) : string :=
  let chars := list_ascii_of_string s in
  let single := ascii_of_nat 39 in
  let double := ascii_of_nat 34 in
  let quote :=
    if existsb (Ascii.eqb single) chars && negb (existsb (Ascii.eqb double) chars)
    then double else single in
  String quote (String.concat EmptyString (map (repr_char quote) chars)
                ++ String quote EmptyString)%string.

(** [str(e)], as an f-string interpolates an exception: the payload of an
    exception is its message, which a [KeyError] shows as [repr] does. *)
Definition exn_str (e : exn) : string :=
  match e with
  | KeyError msg => repr msg
  | RuntimeError msg | IndexError msg | OSError msg | JSONDecodeError msg => msg
  end.

End Py.

Notation "x <- r ;; k" := (Py.bind r (fun x => k))
  (at level 61, r at next level, right associativity).

(** ** Data model *)

Record Point : Type := mkPoint { px : Q; py : Q }.

(** [Point.bounds] is [(minx, miny, maxx, maxy)]. *)
Definition bounds (p : Point) : Q * Q * Q * Q := (px p, py p, px p, py p).

Record Address : Type := mkAddress {
  street : option string;
  town : option string;
  postcode : option string;
  district : option string;
  state : option string;
  country : option string
}.

Record Charging : Type := mkCharging {
  capacity : option Z;
  kw_list : option (list Q);
  ampere_list : option (list Q);
  volt_list : option (list Q);
  socket_type_list : option (list string);
  dc_support : bool;
  total_kw : option Q;
  max_kw : option Q
}.

(** A processed station as the connectors write it ([_create_station]):
    the element type of [Merger.data_sources]. *)
Record StationDict : Type := mkStationDict {
  sd_id : string;
  sd_data_source : string;
  sd_address : Address;
  sd_charging : Charging;
  sd_operator : option string;
  sd_payment : option string;
  sd_authentication : option string;
  sd_coordinates : string;
  sd_raw_data : string
}.

(** A row of [stations_gdf]: the flattened station with [coordinates] parsed
    into [geometry] and the two flags added by [_prepare_geodataframe]. *)
Record Station : Type := mkStation {
  id : string;
  data_source : string;
  address : Address;
  charging : Charging;
  operator : option string;
  payment : option string;
  authentication : option string;
  geometry : Point;
  raw_data : string;
  is_duplicate : bool;
  merged_attributes : bool
}.

(** The data frame: rows in positional order, each with its index label. *)
Definition Row : Type := (nat * Station)%type.
Definition GeoDataFrame : Type := list Row.

Definition name (r : Row) : nat := fst r.
Definition index (gdf : GeoDataFrame) : list nat := map fst gdf.

Definition set_flags (s : Station) (dup merged : bool) : Station :=
  mkStation (id s) (data_source s) (address s) (charging s) (operator s)
            (payment s) (authentication s) (geometry s) (raw_data s) dup merged.

Definition set_is_duplicate (s : Station) (dup : bool) : Station :=
  set_flags s dup (merged_attributes s).

(** [gdf.iloc[idx]]: positional access, [IndexError] out of range. *)
Definition iloc (gdf : GeoDataFrame) (idx : nat) : Py.result Row :=
  match nth_error gdf idx with
  | Some r => Py.Ok r
  | None => Py.Raise (Py.IndexError "single positional indexer is out-of-bounds")
  end.

(** [gdf.loc[label] = row]: every row carrying [label] is overwritten; a label
    that is absent enlarges the frame by one row. *)
Definition loc_set (gdf : GeoDataFrame) (label : nat) (s : Station) : GeoDataFrame :=
  if existsb (Nat.eqb label) (index gdf)
  then map (fun r => if Nat.eqb (fst r) label then (label, s) else r) gdf
  else gdf ++ [(label, s)].

(** [gdf.loc[gdf.index.isin(labels), "is_duplicate"] = True]. *)
Definition mark_duplicates (gdf : GeoDataFrame) (labels : list nat) : GeoDataFrame :=
  map (fun r => if existsb (Nat.eqb (fst r)) labels
                then (fst r, set_is_duplicate (snd r) true)
                else r) gdf.

(** ** Third-party routines *)

Class Libs : Type := mkLibs {
  np_radians : Q -> Q;
  np_sin : Q -> Q;
  np_cos : Q -> Q;
  np_arcsin : Q -> Q;
  np_sqrt : Q -> Q;
  (** [shapely.wkt.loads], [None] standing for a raised exception *)
  wkt_loads : string -> option Point;
  (** [difflib.SequenceMatcher(None, a, b).ratio()] *)
  SequenceMatcher_ratio : string -> string -> Q;
  (** [DataFrame.sample(frac=1.0)] *)
  sample : GeoDataFrame -> GeoDataFrame;
  (** [libpysal.weights.KNN.from_dataframe(gdf, k)], which may raise, and the
      [neighbors] table of the weights it returns *)
  KNN_from_dataframe : GeoDataFrame -> nat -> Py.result (nat -> list nat)
}.

(** Candidate rows, i.e. the frame [pd.merge(distance_meter, stations_gdf)]
    returned by [_get_duplicate_candidates]. *)
Record Candidate : Type := mkCandidate {
  cand_name : nat;
  distance_meter : Q;
  cand_station : Station
}.

(** The same rows once [_determine_duplicates] has added its columns. *)
Record ScoredCandidate : Type := mkScored {
  sc_name : nat;
  sc_distance_meter : Q;
  sc_station : Station;
  operator_match : Q;
  sc_address : string;
  address_match : Q;
  matching_score : Q
}.

Record ScoreWeights : Type := mkWeights {
  w_operator : Q;
  w_address : Q;
  w_distance : Q
}.

(** [dict(operator=0.2, address=0.1, distance=0.7)] *)
Definition default_score_weights : ScoreWeights :=
  mkWeights (2 # 10) (1 # 10) (7 # 10).

(** What [os.listdir] and [open] + [json.load] answer for a run. *)
Record FileSystem : Type := mkFileSystem {
  listdir : string -> Py.result (list string);
  json_load : string -> Py.result (list StationDict)
}.

Record Merger : Type := mkMerger {
  base_path : string;
  data_sources : list StationDict;
  stations_gdf : option GeoDataFrame;
  knn3 : option (nat -> list nat);
  merged_stations_gdf : option GeoDataFrame
}.

Section MergerMethods.

Context {L : Libs}.

(** *** [_load_data] *)

(** The loop over the directory listing: [data_sources] grows in place, so
    whatever was read before a failing file stays on the object. *)
Fixpoint load_files (fs : FileSystem) (base : string) (is_test : bool)
         (files : list string) (acc : list StationDict)
  : list StationDict * Py.result unit :=
  match files with
  | [] => (acc, Py.Ok tt)
  | file :: rest =>
      let startswith := Py.startswith file "test_" in
      let endswith := Py.endswith file "__processed.json" in
      let file_path := (base ++ "/" ++ file)%string in
      let skip :=
        if is_test then negb startswith || negb endswith
        else negb (Py.endswith file "__processed.json") || Py.startswith file "test_" in
      if skip then load_files fs base is_test rest acc
      else match json_load fs file_path with
           | Py.Ok content => load_files fs base is_test rest (acc ++ content)
           | Py.Raise e => (acc, Py.Raise e)
           end
  end.

Definition with_data_sources (self : Merger) (l : list StationDict) : Merger :=
  mkMerger (base_path self) l (stations_gdf self) (knn3 self) (merged_stations_gdf self).

Definition _load_data (fs : FileSystem) (self : Merger) (is_test : bool)
  : Merger * Py.result unit :=
  match listdir fs (base_path self) with
  | Py.Raise e => (self, Py.Raise e)
  | Py.Ok files =>
      let '(ds, r) := load_files fs (base_path self) is_test files (data_sources self) in
      let self := with_data_sources self ds in
      match r with
      | Py.Raise e => (self, Py.Raise e)
      | Py.Ok _ =>
          if (List.length ds <? 1)%nat
          then (self, Py.Raise (Py.RuntimeError "Could not read any json files!"))
          else (self, Py.Ok tt)
      end
  end.

(** *** [haversine_distance] *)

Definition haversine_distance (lon1 lat1 lon2 lat2 : Q)
           (to_radians : bool) (earth_radius : Q) : Q :=
  let conv := fun x => if to_radians then np_radians x else x in
  let lon1 := conv lon1 in
  let lat1 := conv lat1 in
  let lon2 := conv lon2 in
  let lat2 := conv lat2 in
  let delta_lat_sin_squared := (np_sin ((lat2 - lat1) / 2) ^ 2)%Q in
  let delta_lon_sin_squared := (np_sin ((lon2 - lon1) / 2) ^ 2)%Q in
  let a := (delta_lat_sin_squared
            + np_cos lat1 * np_cos lat2 * delta_lon_sin_squared)%Q in
  (earth_radius * 2 * np_arcsin (np_sqrt a) * 1000)%Q.

(** *** [_prepare_geodataframe] *)

Definition get_wkt (x : string) : option Point := wkt_loads x.

(** [drop_duplicates(subset=["id"])], keeping the first row of each id. *)
Fixpoint drop_duplicates (seen : list string) (rows : list Station) : list Station :=
  match rows with
  | [] => []
  | s :: rest =>
      if existsb (String.eqb (id s)) seen
      then drop_duplicates seen rest
      else s :: drop_duplicates (id s :: seen) rest
  end.

Definition notna {A : Type} (x : option A) : bool :=
  match x with Some _ => true | None => false end.

(** One record of [data_sources] flattened, its coordinates parsed; records
    whose coordinates do not parse are dropped ([dropna]). *)
Definition normalize_row (sd : StationDict) : list Station :=
  match get_wkt (sd_coordinates sd) with
  | Some g =>
      [mkStation (sd_id sd) (sd_data_source sd) (sd_address sd) (sd_charging sd)
                 (sd_operator sd) (sd_payment sd) (sd_authentication sd)
                 g (sd_raw_data sd) false false]
  | None => []
  end.

Definition reset_index (rows : list Station) : GeoDataFrame :=
  combine (seq 0 (List.length rows)) rows.

(** With no record at all [pd.json_normalize] yields a frame without
    columns and the [drop] of the two [station_id] columns raises. *)
Definition _prepare_geodataframe (self : Merger) : Py.result GeoDataFrame :=
  match data_sources self with
  | [] => Py.Raise (Py.KeyError
            "['address.station_id' 'charging.station_id'] not found in axis")
  | _ =>
      let stations_df := flat_map normalize_row (data_sources self) in
      let stations_gdf := drop_duplicates [] stations_df in
      Py.Ok (sample (reset_index
               (filter (fun s => notna (operator s)
                                 && notna (socket_type_list (charging s)))
                       stations_gdf)))
  end.

(** *** [_get_duplicate_candidates] *)

Definition isin (labels : list nat) (l : nat) : bool := existsb (Nat.eqb l) labels.

Definition _get_duplicate_candidates (gdf : GeoDataFrame) (knn : nat -> list nat)
           (current_station : Row) (max_distance : Q) : list Candidate :=
  let current_station_id := name current_station in
  let knn_neighbors := knn current_station_id in
  let neighbors :=
    filter (fun r => isin knn_neighbors (fst r) && negb (is_duplicate (snd r))) gdf in
  let '(lon2, lat2, _, _) := bounds (geometry (snd current_station)) in
  let neighbor_distances :=
    map (fun r =>
           let '(lon1, lat1, _, _) := bounds (geometry (snd r)) in
           (fst r, haversine_distance lon1 lat1 lon2 lat2 true 6371))
        neighbors in
  let relevant_neighbors :=
    filter (fun nd => Py.ltb (snd nd) max_distance) neighbor_distances in
  match relevant_neighbors with
  | [] => []
  | _ =>
      flat_map (fun nd =>
                  map (fun r => mkCandidate (fst nd) (snd nd) (snd r))
                      (filter (fun r => Nat.eqb (fst r) (fst nd)) gdf))
               relevant_neighbors
  end.

(** *** [_determine_duplicates] *)

Definition address_string (s : Station) : string :=
  (Py.str (street (address s)) ++ Py.str (postcode (address s))
   ++ Py.str (town (address s)))%string.

(** The columns added to one candidate row.  The arithmetic is exact, so a
    score that the program's floats round onto the threshold may fall on
    either side of it here, and [max_distance = 0], for which pandas yields
    [inf] or [nan], is outside the model. *)
Definition score_candidate (current_station : Station) (score_threshold max_distance : Q)
           (score_weights : ScoreWeights) (c : Candidate) : ScoredCandidate :=
  let operator_match :=
    match operator current_station, operator (cand_station c) with
    | Some o, Some x => SequenceMatcher_ratio o x
    | _, _ => 0%Q
    end in
  let current_station_address := address_string current_station in
  let address := address_string (cand_station c) in
  let address_match :=
    if negb (String.eqb current_station_address "NoneNoneNone")
       && negb (String.eqb address "NoneNoneNone")
    then SequenceMatcher_ratio current_station_address address
    else 0%Q in
  let operator_score := (w_operator score_weights * operator_match)%Q in
  let address_score := (w_address score_weights * address_match)%Q in
  let distance_score :=
    (w_distance score_weights * (1 - distance_meter c / max_distance))%Q in
  let matching_score := (operator_score + address_score + distance_score)%Q in
  let station :=
    if Py.ltb score_threshold matching_score
    then set_is_duplicate (cand_station c) true
    else cand_station c in
  mkScored (cand_name c) (distance_meter c) station
           operator_match address address_match matching_score.

Definition _determine_duplicates (current_station : Station)
           (duplicate_candidates : list Candidate)
           (score_threshold max_distance : Q)
           (score_weights : option ScoreWeights) : list ScoredCandidate :=
  let score_weights :=
    match score_weights with
    | Some w => w
    | None => default_score_weights
    end in
  filter (fun d => is_duplicate (sc_station d))
         (map (score_candidate current_station score_threshold max_distance score_weights)
              duplicate_candidates).


(** *** [_merge_duplicates] *)

Definition data_sources_order : list string := ["BNA"; "OCM"; "OSM"].

(** [[(x, y) for x in data_sources for y in data_sources if x != "BNA"]] *)
Definition ordered_data_source_pairs : list (string * string) :=
  flat_map (fun x =>
              flat_map (fun y => if negb (String.eqb x "BNA") then [(x, y)] else [])
                       data_sources_order)
           data_sources_order.

(** The [for] loop over the pairs, with its [continue]s and its [break]. *)
Fixpoint merge_pairs (gdf : GeoDataFrame) (current_station : Row)
         (duplicates : list ScoredCandidate) (pairs : list (string * string))
  : GeoDataFrame :=
  match pairs with
  | [] => gdf
  | (current_data_source, duplicate_data_source) :: rest =>
      if negb (String.eqb (data_source (snd current_station)) current_data_source)
      then merge_pairs gdf current_station duplicates rest
      else
        let mergeable_stations :=
          filter (fun d => String.eqb (data_source (sc_station d)) duplicate_data_source)
                 duplicates in
        match mergeable_stations with
        | [] => merge_pairs gdf current_station duplicates rest
        | first :: _ =>
            let selected_station := set_flags (sc_station first) false true in
            loc_set gdf (name current_station) selected_station
        end
  end.

Definition _merge_duplicates (gdf : GeoDataFrame) (current_station : Row)
           (duplicates : list ScoredCandidate) : GeoDataFrame :=
  if String.eqb (data_source (snd current_station)) "BNA"
  then gdf
  else merge_pairs gdf current_station duplicates ordered_data_source_pairs.

(** *** [merge] *)

(** The body of the [for idx in range(...)] loop. *)
Definition merge_iteration (knn : nat -> list nat)
           (score_threshold max_distance : Q) (score_weights : ScoreWeights)
           (gdf : GeoDataFrame) (idx : nat) : Py.result GeoDataFrame :=
  current_station <- iloc gdf idx ;;
  if is_duplicate (snd current_station) then Py.Ok gdf
  else
    let duplicate_candidates :=
      _get_duplicate_candidates gdf knn current_station max_distance in
    match duplicate_candidates with
    | [] => Py.Ok gdf
    | _ =>
        let duplicates :=
          _determine_duplicates (snd current_station) duplicate_candidates
                                score_threshold max_distance (Some score_weights) in
        let gdf := mark_duplicates gdf (map sc_name duplicates) in
        Py.Ok (_merge_duplicates gdf current_station duplicates)
    end.

Fixpoint merge_loop (knn : nat -> list nat)
         (score_threshold max_distance : Q) (score_weights : ScoreWeights)
         (gdf : GeoDataFrame) (idxs : list nat) : Py.result GeoDataFrame :=
  match idxs with
  | [] => Py.Ok gdf
  | idx :: rest =>
      gdf <- merge_iteration knn score_threshold max_distance score_weights gdf idx ;;
      merge_loop knn score_threshold max_distance score_weights gdf rest
  end.

(** [stations_gdf.loc[~stations_gdf["is_duplicate"], :]] *)
Definition not_duplicate (gdf : GeoDataFrame) : GeoDataFrame :=
  filter (fun r => negb (is_duplicate (snd r))) gdf.

(** [merge] returns the lines passed to [log.error] next to its outcome. *)
Definition merge (fs : FileSystem) (self : Merger)
           (stations_list : option (list StationDict))
           (score_threshold max_distance : Q)
           (score_weights : option ScoreWeights)
  : list string * Py.result Merger :=
  let score_weights :=
    match score_weights with
    | Some w => w
    | None => default_score_weights
    end in
  let checked :=
    match stations_list with
    | Some l =>
        if (List.length l <? 1)%nat
        then Py.Raise (Py.RuntimeError "Your provided list of stations is empty!")
        else Py.Ok (with_data_sources self l)
    | None => Py.Ok self
    end in
  match checked with
  | Py.Raise e => ([], Py.Raise e)
  | Py.Ok self =>
      let '(self, log) :=
        if negb (notna stations_list) && (List.length (data_sources self) <? 1)%nat
        then match _load_data fs self false with
             | (self, Py.Ok _) => (self, [])
             | (self, Py.Raise anyErr) =>
                 (self, [("Could not load the processed station files! "
                          ++ Py.exn_str anyErr)%string])
             end
        else (self, []) in
      (log,
       gdf <- _prepare_geodataframe self ;;
       knn <- KNN_from_dataframe gdf 40 ;;
       gdf' <- merge_loop knn score_threshold max_distance score_weights
                          gdf (seq 0 (List.length gdf)) ;;
       Py.Ok (mkMerger (base_path self) (data_sources self)
                       (Some gdf') (Some knn) (Some (not_duplicate gdf'))))
  end.

End MergerMethods.

(** ** A concrete environment

    Rational stand-ins for the third-party routines, used to evaluate the
    model: truncated series for the trigonometric functions and an integer
    square root on a scaled argument (at identical coordinates they give the
    distance 0, as numpy does; for stations hundreds of kilometres apart they
    give a distance far above any [max_distance] used here), equality as the
    similarity ratio (difflib's ratio is 1 on identical strings as well), a
    table of parsed coordinates, and a k-neighbour table listing the other
    labels of the frame, which is what libpysal returns on [k + 1] rows; on
    fewer rows [KNN] raises, as libpysal does. *)

Module Run.

Definition radians (x : Q) : Q := (x * (31415926535897932 # 1800000000000000000))%Q.
Definition sin (x : Q) : Q := (x - x * x * x / 6)%Q.
Definition cos (x : Q) : Q := (1 - x * x / 2 + x * x * x * x / 24)%Q.
Definition arcsin (x : Q) : Q := (x + x * x * x / 6)%Q.
Definition sqrt (x : Q) : Q :=
  (Z.sqrt (Qnum x * 1000000000000000000000000 / Zpos (Qden x)) # 1000000000000)%Q.

Definition loads (s : string) : option Point :=
  if String.eqb s "POINT(13 52)" then Some (mkPoint 13 52)
  else if String.eqb s "POINT(9 48)" then Some (mkPoint 9 48)
  else if String.eqb s "POINT(9.001 48)" then Some (mkPoint (9001 # 1000) 48)
  else if String.eqb s "POINT(11 50)" then Some (mkPoint 11 50)
  else None.

Definition ratio (a b : string) : Q := if String.eqb a b then 1%Q else 0%Q.

Definition knn (gdf : GeoDataFrame) (k : nat) (i : nat) : list nat :=
  firstn k (filter (fun j => negb (Nat.eqb j i)) (index gdf)).

(** [KNN.from_dataframe]: with [k] rows or fewer there are not [k] other
    rows to list and libpysal raises [IndexError]. *)
Definition KNN (gdf : GeoDataFrame) (k : nat) : Py.result (nat -> list nat) :=
  if (List.length gdf <=? k)%nat
  then Py.Raise (Py.IndexError "index out of bounds")
  else Py.Ok (knn gdf k).

(** Rows visited in frame order: [sample] hands the frame back as it is. *)
Definition in_order : Libs :=
  mkLibs radians sin cos arcsin sqrt loads ratio (fun gdf => gdf) KNN.

Definition no_address : Address := mkAddress None None None None None None.
Definition berlin : Address :=
  mkAddress (Some "Unter den Linden 1") (Some "Berlin") (Some "10117") None None (Some "DE").

Definition sockets : Charging :=
  mkCharging (Some 2%Z) None None None (Some ["Typ 2"]) false None None.
Definition bna : StationDict :=
  mkStationDict "id-bna" "BNA" berlin sockets (Some "Stadtwerke") None None
                "POINT(13 52)" "{}".
Definition ocm : StationDict :=
  mkStationDict "id-ocm" "OCM" berlin sockets (Some "Stadtwerke") None None
                "POINT(13 52)" "{}".
Definition far_ocm : StationDict :=
  mkStationDict "id-far" "OCM" no_address sockets (Some "EnBW") None None
                "POINT(9 48)" "{}".
Definition no_operator : StationDict :=
  mkStationDict "id-noop" "OSM" no_address sockets None None None
                "POINT(9 48)" "{}".

Definition row (sd : StationDict) (g : Point) (dup merged : bool) : Station :=
  mkStation (sd_id sd) (sd_data_source sd) (sd_address sd) (sd_charging sd)
            (sd_operator sd) (sd_payment sd) (sd_authentication sd)
            g (sd_raw_data sd) dup merged.

Definition p_berlin : Point := mkPoint 13 52.
Definition p_south : Point := mkPoint 9 48.
Definition p_mid : Point := mkPoint 11 50.

(** Thirty-nine records of the register at one place, the [n]-th being
    [crowd_station n], and with the two records of Berlin a list of forty-one:
    the fewest that [KNN(k=40)] accepts, every row then having all the others
    as neighbours. *)
Definition crowd_station (n : nat) : StationDict :=
  mkStationDict ("id-crowd-" ++ NilEmpty.string_of_uint (Nat.to_uint n)) "BNA"
                no_address sockets (Some "EnBW") None None "POINT(11 50)" "{}".

Definition crowd : list StationDict := map crowd_station (seq 0 39).

Definition town : list StationDict := ocm :: bna :: crowd.

(** The rows of [crowd] in the working table, from the label [first] on. *)
Definition crowd_rows (first : nat) (dup : nat -> bool) : GeoDataFrame :=
  map (fun n => ((first + n)%nat, row (crowd_station n) p_mid (dup n) false)) (seq 0 39).

(** The working table of [town] as prepared, and as the loop leaves it when
    the rows are visited in order: the row of [ocm] holds the record of [bna],
    whose own row is flagged, and the first row of [crowd] has flagged the
    others. *)
Definition town_prepared : GeoDataFrame :=
  (0%nat, row ocm p_berlin false false) :: (1%nat, row bna p_berlin false false)
  :: crowd_rows 2 (fun _ => false).

Definition town_frame : GeoDataFrame :=
  (0%nat, row bna p_berlin false true) :: (1%nat, row bna p_berlin true false)
  :: crowd_rows 2 (fun n => negb (Nat.eqb n 0)).

Definition town_output : GeoDataFrame :=
  [(0%nat, row bna p_berlin false true); (2%nat, row (crowd_station 0) p_mid false false)].

Definition town_merger : Merger :=
  mkMerger "data" town (Some town_frame) (Some (knn town_prepared 40)) (Some town_output).

Definition no_files : FileSystem :=
  mkFileSystem
    (fun _ => Py.Raise (Py.OSError "[Errno 2] No such file or directory: 'data'"))
    (fun _ => Py.Raise (Py.OSError "[Errno 2] No such file or directory: 'data'")).

Definition fresh : Merger := mkMerger "data" [] None None None.

(** A data folder whose first processed file reads and whose second does not. *)
Definition half_readable : FileSystem :=
  mkFileSystem
    (fun _ => Py.Ok ["BNA__processed.json"; "OCM__processed.json"])
    (fun path => if String.eqb path "data/BNA__processed.json"
                 then Py.Ok [bna; far_ocm]
                 else Py.Raise (Py.JSONDecodeError "Expecting value")).

(** A data folder as [half_readable], the first file holding [town]. *)
Definition half_readable_town : FileSystem :=
  mkFileSystem
    (fun _ => Py.Ok ["BNA__processed.json"; "OCM__processed.json"])
    (fun path => if String.eqb path "data/BNA__processed.json"
                 then Py.Ok town
                 else Py.Raise (Py.JSONDecodeError
                                  "Expecting value: line 1 column 1 (char 0)")).

End Run.

(** * The connectors and the serializer

    Python text is a [string]; what the connectors take from the interpreter
    and its standard library (the character tests, [float], [str], sha256) is
    the interface [Builtins]. *)

(** ** Text operations *)

Module Text.

(** [sub in s] *)
Fixpoint contains (sub s : string) : bool :=
  String.prefix sub s
  || match s with
     | EmptyString => false
     | String _ rest => contains sub rest
     end.

(** [c in s] for a character *)
Fixpoint has_char (c : ascii) (s : string) : bool :=
  match s with
  | EmptyString => false
  | String d rest => Ascii.eqb d c || has_char c rest
  end.

(** ["".join([c for c in s if p(c)])] *)
Fixpoint keep (p : ascii -> bool) (s : string) : string :=
  match s with
  | EmptyString => EmptyString
  | String c rest => if p c then String c (keep p rest) else keep p rest
  end.

(** [any(p(c) for c in s)] *)
Fixpoint any (p : ascii -> bool) (s : string) : bool :=
  match s with
  | EmptyString => false
  | String c rest => p c || any p rest
  end.

(** [all(p(c) for c in s)] *)
Definition all (p : ascii -> bool) (s : string) : bool :=
  negb (any (fun c => negb (p c)) s).

(** [sep.join(parts)] *)
Fixpoint join (sep : string) (parts : list string) : string :=
  match parts with
  | [] => EmptyString
  | [x] => x
  | x :: rest => (x ++ sep ++ join sep rest)%string
  end.

(** Left-to-right scan of [s.replace(old, new)] for a pattern that is not
    empty; [skip] counts the characters of a match still to be passed over. *)
Fixpoint replace_scan (old new : string) (skip : nat) (s : string) : string :=
  match s with
  | EmptyString => EmptyString
  | String c rest =>
      match skip with
      | S k => replace_scan old new k rest
      | O =>
          if String.prefix old s
          then (new ++ replace_scan old new (String.length old - 1) rest)%string
          else String c (replace_scan old new 0 rest)
      end
  end.

(** [s.replace(old, new)]; an empty pattern matches before every character
    and at the end. *)
Definition replace (old new s : string) : string :=
  match old with
  | EmptyString =>
      (new ++ String.concat EmptyString
                            (map (fun c => (String c EmptyString ++ new)%string)
                                 (list_ascii_of_string s)))%string
  | _ => replace_scan old new 0 s
  end.

(** [s.split(sep)] for a one-character separator, [cur] being the piece read
    so far. *)
Fixpoint split_scan (sep : ascii) (cur : string) (s : string) : list string :=
  match s with
  | EmptyString => [cur]
  | String c rest =>
      if Ascii.eqb c sep
      then cur :: split_scan sep EmptyString rest
      else split_scan sep (cur ++ String c EmptyString)%string rest
  end.

Definition split (sep : ascii) (s : string) : list string :=
  split_scan sep EmptyString s.

(** [string.punctuation] *)
Definition punctuation : string :=
  String "!" (String (ascii_of_nat 34) "#$%&'()*+,-./:;<=>?@[\]^_`{|}~").

End Text.

(** ** Exceptions of the connectors *)

Module Exc.

Inductive exn : Type :=
| TypeError (msg : string)
| AttributeError (msg : string)
| ValueError (msg : string)
| KeyError (msg : string)
| RuntimeError (msg : string)
| OSError (msg : string).

Inductive outcome (A : Type) : Type :=
| Return (a : A)
| Raise (e : exn).
Arguments Return {A} a.
Arguments Raise {A} e.

Definition bind {A B : Type} (r : outcome A) (k : A -> outcome B) : outcome B :=
  match r with
  | Return a => k a
  | Raise e => Raise e
  end.

End Exc.

Notation "x <~ r ;; k" := (Exc.bind r (fun x => k))
  (at level 61, r at next level, right associativity).

(** ** Python values *)

(** A float: a number or [nan]. *)
Inductive Float : Type :=
| Finite (q : Q)
| NaN.

(** A value as far as the connectors tell values apart. *)
Inductive PyObj : Type :=
| ONone
| ONumber (x : Float)
| OStr (s : string)
| OOther.

(** An entry of a JSON object that is read by subscript: the key may be
    absent, hold [null], or hold a value. *)
Inductive slot (A : Type) : Type :=
| Absent
| Null
| Holds (a : A).
Arguments Absent {A}.
Arguments Null {A}.
Arguments Holds {A} a.

(** [d.get(key)] *)
Definition slot_get {A : Type} (x : slot A) : option A :=
  match x with
  | Holds a => Some a
  | _ => None
  end.

(** A dict with text keys, in insertion order. *)
Fixpoint lookup {V : Type} (d : list (string * V)) (key : string) : option V :=
  match d with
  | [] => None
  | (k, v) :: rest => if String.eqb k key then Some v else lookup rest key
  end.

(** [d.get(key, default)] *)
Definition get_default {V : Type} (d : list (string * V)) (key : string) (default : V) : V :=
  match lookup d key with
  | Some v => v
  | None => default
  end.

(** [isinstance(x, Number)] *)
Definition is_number (o : PyObj) : bool :=
  match o with ONumber _ => true | _ => false end.

(** [pd.isnull(x)] on a scalar *)
Definition isnull (o : PyObj) : bool :=
  match o with
  | ONone => true
  | ONumber NaN => true
  | _ => false
  end.

(** [a > b] on floats: false as soon as one side is [nan]. *)
Definition float_gt (a b : Float) : bool :=
  match a, b with
  | Finite x, Finite y => Py.ltb y x
  | _, _ => false
  end.

(** [max(l)] on a list that is not empty: the running maximum is replaced
    only by an item greater than it. *)
Definition py_max {A : Type} (gt : A -> A -> bool) (first : A) (rest : list A) : A :=
  fold_left (fun m x => if gt x m then x else m) rest first.

Class Builtins : Type := mkBuiltins {
  (** [c.isdigit()] and [c.isspace()] on one character *)
  isdigit : ascii -> bool;
  isspace : ascii -> bool;
  (** [float(s)], raising [ValueError] *)
  float : string -> Exc.outcome Float;
  (** [str(x)], also inside an f-string *)
  format : PyObj -> string;
  (** [hashlib.sha256(s.encode("utf8")).hexdigest().encode("utf8")] *)
  sha256_hexdigest : string -> string
}.

(** Every computation of a list comprehension, the first exception ending it. *)
Fixpoint for_each {A B : Type} (f : A -> Exc.outcome B) (l : list A) : Exc.outcome (list B) :=
  match l with
  | [] => Exc.Return []
  | a :: rest =>
      b <~ f a ;;
      bs <~ for_each f rest ;;
      Exc.Return (b :: bs)
  end.

(** ** [OCMConnector] (connectors/_ocm.py) *)

Module OCMConnector.

Record CountryDict : Type := mkCountry {
  ISOCode : option string
}.

(** [station_raw["AddressInfo"]]; a field read with [.get] is [None] when the
    key is absent or holds [null]. *)
Record AddressInfoDict : Type := mkAddressInfo {
  ID : PyObj;
  Postcode : option string;
  Town : option string;
  StateOrProvince : option string;
  Country : option CountryDict;
  street_ : option string;
  Latitude : option PyObj;
  Longitude : option PyObj
}.

Record CurrentTypeDict : Type := mkCurrentType {
  Title : option string
}.

Record ConnectionDict : Type := mkConnection {
  CurrentType : option CurrentTypeDict;
  PowerKW : option Q;
  Amps : option Q;
  Voltage : option Q;
  Quantity : option Z
}.

Record OperatorInfoDict : Type := mkOperatorInfo {
  operator_Title : option string
}.

(** One element of the Open Charge Map answer.  For [UsageType] and
    [OperatorInfo], [Null] stands for any value that is not a dict. *)
Record StationRaw : Type := mkStationRaw {
  AddressInfo : slot AddressInfoDict;
  Connections : option (list ConnectionDict);
  NumberOfPoints : option Z;
  UsageType : slot (list (string * PyObj));
  OperatorInfo : slot OperatorInfoDict;
  UsageCost : option string
}.

Record Connector : Type := mkConnector {
  base_path : string;
  raw_data : list StationRaw;
  processed_data : list StationDict
}.

Definition __data_source__ : string := "OCM".

Section Methods.

Context {B : Builtins}.

(** [json.dumps(station_raw, sort_keys=True, ensure_ascii=True, default=default)] *)
Variable json_dumps : StationRaw -> string.

(** [Connector._save]: what writing the file answers. *)
Variable _save : string -> list StationDict -> Exc.outcome unit.

(** *** [check_coordinates] *)

Definition check_coordinates (coords : PyObj) : Exc.outcome Float :=
  match coords with
  | OStr coords =>
      float (Text.keep (fun s => isdigit s || Ascii.eqb s ".")
                       (Text.replace "," "." coords))
  | ONumber coords => Exc.Return coords
  | _ => Exc.Raise (Exc.ValueError "Coordinatess could not be read propery!")
  end.

(** *** [_create_address] *)

Definition _create_address (addressInfo : option AddressInfoDict)
           (identifier : string) (station_raw : StationRaw) : Exc.outcome Address :=
  match addressInfo with
  | None => Exc.Raise (Exc.AttributeError "'NoneType' object has no attribute 'get'")
  | Some addressInfo =>
      let country := Country addressInfo in
      let postcode := Postcode addressInfo in
      let postcode :=
        match postcode with
        | Some postcode => Text.keep isdigit postcode
        | None => ""
        end in
      let town := match Town addressInfo with Some town => town | None => "" end in
      let state :=
        match StateOrProvince addressInfo with Some state => state | None => "" end in
      let country :=
        match country with Some country => ISOCode country | None => None end in
      let street := street_ addressInfo in
      let postcode :=
        if negb (String.length postcode =? 5)%nat then None else Some postcode in
      let town :=
        if (String.length town <? 2)%nat
           || negb (Text.all (fun s => negb (isdigit s)) town)
        then None else Some town in
      let state :=
        if negb (Text.all (fun s => negb (isdigit s)) state)
           || (String.length state <? 2)%nat
        then None else Some state in
      Exc.Return (mkAddress street town postcode None state country)
  end.

(** *** [_create_charging] *)

(** [metric_list += [metric] * quantity], skipped for a metric that is [None]. *)
Definition extend (metric_list : list Q) (metric : option Q) (quantity : Z) : list Q :=
  match metric with
  | None => metric_list
  | Some metric => metric_list ++ repeat metric (Z.to_nat quantity)
  end.

Definition connection_step (acc : list Q * list Q * list Q * list string)
           (connection : ConnectionDict) : list Q * list Q * list Q * list string :=
  let '(kw_list, ampere_list, volt_list, socket_type_list) := acc in
  let socket_type_list :=
    match CurrentType connection with
    | Some currentType =>
        match Title currentType with
        | Some socket_title => socket_type_list ++ [socket_title]
        | None => socket_type_list
        end
    | None => socket_type_list
    end in
  let quantity := match Quantity connection with Some q => q | None => 1%Z end in
  (extend kw_list (PowerKW connection) quantity,
   extend ampere_list (Amps connection) quantity,
   extend volt_list (Voltage connection) quantity,
   socket_type_list).

Definition _create_charging (identifier : string) (station_raw : StationRaw) : Charging :=
  let connections := Connections station_raw in
  let capacity := NumberOfPoints station_raw in
  let '(kw_list, ampere_list, volt_list, socket_type_list) :=
    match connections with
    | Some connections => fold_left connection_step connections ([], [], [], [])
    | None => ([], [], [], [])
    end in
  let dc_support := existsb (Text.contains "DC") socket_type_list in
  mkCharging capacity
             (match kw_list with [] => None | _ => Some kw_list end)
             None
             None
             (Some socket_type_list)
             dc_support
             (Some (fold_left Qplus kw_list 0%Q))
             (match kw_list with
              | [] => None
              | first :: rest => Some (py_max (fun a b => Py.ltb b a) first rest)
              end).

(** *** [_create_station] *)

(** [station_raw["AddressInfo"][key]] *)
Definition address_info_item (station_raw : StationRaw)
           (item : AddressInfoDict -> option PyObj) (key : string) : Exc.outcome PyObj :=
  match AddressInfo station_raw with
  | Absent => Exc.Raise (Exc.KeyError "AddressInfo")
  | Null => Exc.Raise (Exc.TypeError "'NoneType' object is not subscriptable")
  | Holds info =>
      match item info with
      | Some v => Exc.Return v
      | None => Exc.Raise (Exc.KeyError key)
      end
  end.

Definition _create_station (address : Address) (charging : Charging)
           (identifier : string) (raw_data : string) (station_raw : StationRaw)
  : Exc.outcome StationDict :=
  lat <~ address_info_item station_raw Latitude "Latitude" ;;
  latitude <~ check_coordinates lat ;;
  lon <~ address_info_item station_raw Longitude "Longitude" ;;
  longitude <~ check_coordinates lon ;;
  let coordinates :=
    ("POINT(" ++ format (ONumber longitude) ++ " " ++ format (ONumber latitude) ++ ")")%string in
  authentication <~
    match UsageType station_raw with
    | Absent => Exc.Raise (Exc.KeyError "UsageType")
    | Null => Exc.Return None
    | Holds items =>
        Exc.Return (Some (Text.join ";"
                            (map (fun kv => (fst kv ++ ":" ++ format (snd kv))%string) items)))
    end ;;
  operator <~
    match OperatorInfo station_raw with
    | Absent => Exc.Raise (Exc.KeyError "OperatorInfo")
    | Null => Exc.Return None
    | Holds info => Exc.Return (operator_Title info)
    end ;;
  Exc.Return (mkStationDict identifier __data_source__ address charging operator
                            (UsageCost station_raw) authentication coordinates raw_data).

(** *** [process] *)

(** The loop over [raw_data]; [processed_data] grows in place, so the
    stations appended before an exception stay on the object. *)
Fixpoint process_loop (raw : list StationRaw) (processed : list StationDict)
  : list StationDict * Exc.outcome unit :=
  match raw with
  | [] => (processed, Exc.Return tt)
  | station_raw :: rest =>
      let addressInfo := slot_get (AddressInfo station_raw) in
      let raw_data := json_dumps station_raw in
      match addressInfo with
      | None =>
          (processed,
           Exc.Raise (Exc.AttributeError "'NoneType' object has no attribute 'get'"))
      | Some info =>
          let ocm_id := ID info in
          let text :=
            match ocm_id with
            | ONone =>
                lon <~ address_info_item station_raw Longitude "Longitude" ;;
                lat <~ address_info_item station_raw Latitude "Latitude" ;;
                Exc.Return (format lon ++ format lat ++ ")")%string
            | _ => Exc.Return (format ocm_id)
            end in
          match text with
          | Exc.Raise e => (processed, Exc.Raise e)
          | Exc.Return text =>
              let identifier := sha256_hexdigest text in
              match _create_address addressInfo identifier station_raw with
              | Exc.Raise _ => process_loop rest processed
              | Exc.Return address =>
                  let charging := _create_charging identifier station_raw in
                  match _create_station address charging identifier raw_data station_raw with
                  | Exc.Raise _ => process_loop rest processed
                  | Exc.Return station => process_loop rest (processed ++ [station])
                  end
              end
          end
      end
  end.

Definition process (self : Connector) (to_disk : bool) : Connector * Exc.outcome unit :=
  match raw_data self with
  | [] => (self, Exc.Raise (Exc.RuntimeError "Load or get raw data first!"))
  | _ =>
      let '(processed, r) := process_loop (raw_data self) (processed_data self) in
      let self := mkConnector (base_path self) (raw_data self) processed in
      match r with
      | Exc.Raise e => (self, Exc.Raise e)
      | Exc.Return _ =>
          if to_disk
          then (self,
                _save (base_path self ++ "/" ++ __data_source__ ++ "__processed.json")%string
                      (processed_data self))
          else (self, Exc.Return tt)
      end
  end.

End Methods.

End OCMConnector.

(** ** [BNAConnector] (connectors/_bna.py) *)

Module BNAConnector.

(** A row of the Bundesnetzagentur spreadsheet: column name and cell. *)
Definition StationRaw : Type := list (string * PyObj).

(** [station_raw.get(key)] *)
Definition get (station_raw : StationRaw) (key : string) : PyObj :=
  get_default station_raw key ONone.

Record AddressDict : Type := mkAddressDict {
  a_street : PyObj;
  a_town : option string;
  a_postcode : option string;
  a_district : option string;
  a_state : PyObj;
  a_country : string
}.

Record ChargingDict : Type := mkChargingDict {
  c_capacity : PyObj;
  c_kw_list : list Float;
  c_ampere_list : option (list Float);
  c_volt_list : option (list Float);
  c_socket_type_list : list string;
  c_dc_support : bool;
  c_total_kw : option Float;
  c_max_kw : option Float
}.

Section Methods.

Context {B : Builtins}.

(** *** [_create_charging] *)

(** The loop that fills [kw_list]. *)
Definition kw_step (kw_list : list Float) (item : string * PyObj) : list Float :=
  let '(k, v) := item in
  if negb (Text.contains "P" k && Text.contains "[kW]" k) then kw_list
  else if isnull v then kw_list
  else
    match v with
    | OStr v =>
        let v := if Text.contains "," v then Text.replace "," "." v else v in
        match float v with
        | Exc.Return float_kw => kw_list ++ [float_kw]
        | Exc.Raise _ => kw_list
        end
    | ONumber v => kw_list ++ [v]
    | _ => kw_list
    end.

(** The loop over [socket_types_infos]. *)
Definition socket_step (acc : list string * bool) (socket_types_info : string)
  : list string * bool :=
  let '(socket_type_list, dc_support) := acc in
  let tmp_socket_info := Text.split "," socket_types_info in
  let dc_support :=
    if negb dc_support && existsb (Text.contains "DC") tmp_socket_info
    then true else dc_support in
  (socket_type_list ++ Text.split "," socket_types_info, dc_support).

Definition _create_charging (identifier : string) (station_raw : StationRaw) : ChargingDict :=
  let total_kw := get_default station_raw "Anschlussleistung [kW]" ONone in
  let total_kw :=
    match total_kw with
    | OStr text =>
        match float (Text.replace "," "." text) with
        | Exc.Return x => ONumber x
        | Exc.Raise _ => ONone
        end
    | _ => total_kw
    end in
  let total_kw :=
    match total_kw with
    | ONumber NaN => ONone
    | _ => total_kw
    end in
  let total_kw :=
    match total_kw with
    | ONumber x => Some x
    | _ => None
    end in
  let kw_list := fold_left kw_step station_raw [] in
  let capacity := get station_raw "Anzahl Ladepunkte" in
  let socket_types_infos :=
    flat_map (fun item =>
                match snd item with
                | OStr v => if Text.contains "Steckertypen" (fst item) then [v] else []
                | _ => []
                end) station_raw in
  let '(socket_type_list, dc_support) :=
    fold_left socket_step socket_types_infos ([], false) in
  mkChargingDict capacity kw_list None None socket_type_list dc_support total_kw
                 (match kw_list with
                  | [] => None
                  | first :: rest => Some (py_max float_gt first rest)
                  end).

(** *** [_create_address] *)

(** The loop over the characters of [postcode_town]. *)
Fixpoint postcode_town_loop (chars : string) (postcode town : string) : string * string :=
  match chars with
  | EmptyString => (postcode, town)
  | String s rest =>
      if isspace s then postcode_town_loop rest postcode town
      else if isdigit s
           then postcode_town_loop rest (postcode ++ String s EmptyString)%string town
           else postcode_town_loop rest postcode (town ++ String s EmptyString)%string
  end.

Definition _create_address (identifier : string) (station_raw : StationRaw)
  : Exc.outcome AddressDict :=
  let street := get station_raw "Adresse" in
  let postcode_town :=
    match get station_raw "Postleitzahl Ort" with
    | OStr text => Some text
    | _ => None
    end in
  match postcode_town with
  | None => Exc.Raise (Exc.TypeError "'NoneType' object is not iterable")
  | Some postcode_town =>
      let '(postcode, town) := postcode_town_loop postcode_town "" "" in
      let postcode :=
        if negb (String.length postcode =? 5)%nat then None else Some postcode in
      let town := if (String.length town <? 2)%nat then None else Some town in
      Exc.Return (mkAddressDict street town postcode None
                                (get station_raw "Bundesland") "DE")
  end.

End Methods.

End BNAConnector.

(** ** [OSMConnector] (connectors/_osm.py) *)

Module OSMConnector.

(** The tags of an OpenStreetMap element: text keys and text values. *)
Definition Tags : Type := list (string * string).

Record StationRaw : Type := mkStationRaw {
  osm_id : PyObj;
  lat : option PyObj;
  lon : option PyObj;
  tags : option Tags
}.

Section Methods.

Context {B : Builtins}.

(** *** [_string_to_number_list] *)

Definition _string_to_number_list (list_string : PyObj)
           (transform_fn : string -> Exc.outcome PyObj)
           (separator_list : list string) : Exc.outcome (option (list PyObj)) :=
  probe <~ transform_fn "12" ;;
  if negb (is_number probe)
  then Exc.Raise (Exc.RuntimeError
         "Parameter transform_fn must be a callable function that returns type Number!")
  else
    match list_string with
    | ONone => Exc.Return None
    | ONumber x => Exc.Return (Some [ONumber x])
    | OOther => Exc.Return None
    | OStr list_string =>
        let excluding_punctuation s :=
          Text.has_char s Text.punctuation
          && negb (existsb (String.eqb (String s EmptyString))
                           (separator_list ++ [";"])) in
        if Text.any excluding_punctuation list_string
        then Exc.Return None
        else
          let list_string :=
            fold_left (fun acc sep =>
                         if negb (String.eqb sep ";") then Text.replace sep ";" acc else acc)
                      separator_list list_string in
          let clean_string_list :=
            map (Text.keep isdigit) (Text.split ";" list_string) in
          clean_numbers_list <~
            for_each transform_fn
                     (filter (fun s => (0 <? String.length s)%nat) clean_string_list) ;;
          match clean_string_list with
          | [] => Exc.Return None
          | _ => Exc.Return (Some clean_numbers_list)
          end
    end.

(** *** [_create_address] *)

Definition _create_address (identifier : string) (station_raw : StationRaw) : Address :=
  let tags := tags station_raw in
  let '(country, street, postcode, town, state, house_number) :=
    match tags with
    | Some tags =>
        (Some (get_default tags "addr:country" "DE"),
         lookup tags "addr:street",
         lookup tags "addr:postcode",
         Some (get_default tags "addr:city" ""),
         Some (get_default tags "addr:state" ""),
         lookup tags "addr:housenumber")
    | None => (None, None, None, None, None, None)
    end in
  let town := match town with Some town => town | None => "" end in
  let state := match state with Some state => state | None => "" end in
  let postcode :=
    match postcode with
    | Some postcode => Text.keep isdigit postcode
    | None => ""
    end in
  let postcode :=
    if negb (String.length postcode =? 5)%nat then None else Some postcode in
  let street :=
    match street, house_number with
    | Some street, Some house_number => Some (street ++ " " ++ house_number)%string
    | _, _ => street
    end in
  let town :=
    if (String.length town <? 2)%nat
       || negb (Text.all (fun s => negb (isdigit s)) town)
    then None else Some town in
  let state :=
    if negb (Text.all (fun s => negb (isdigit s)) state)
       || (String.length state <? 2)%nat
    then None else Some state in
  mkAddress street town postcode None state country.

(** *** [_create_station] *)

Definition subscript (item : option PyObj) (key : string) : Exc.outcome PyObj :=
  match item with
  | Some v => Exc.Return v
  | None => Exc.Raise (Exc.KeyError key)
  end.

Definition _create_station (address : Address) (charging : Charging)
           (identifier : string) (raw_data : string) (station_raw : StationRaw)
  : Exc.outcome StationDict :=
  la <~ subscript (lat station_raw) "lat" ;;
  latitude <~ OCMConnector.check_coordinates la ;;
  lo <~ subscript (lon station_raw) "lon" ;;
  longitude <~ OCMConnector.check_coordinates lo ;;
  let coordinates :=
    ("POINT(" ++ format (ONumber longitude) ++ " " ++ format (ONumber latitude) ++ ")")%string in
  let tags := tags station_raw in
  let '(authentication, operator, payment) :=
    match tags with
    | Some tags =>
        let auth_key_value_strings :=
          flat_map (fun kv =>
                      if Text.contains "auth" (fst kv)
                      then [(Text.replace "authentication:" "" (fst kv) ++ ":" ++ snd kv)%string]
                      else []) tags in
        let authentication :=
          match auth_key_value_strings with
          | [] => None
          | _ => Some (Text.join ";" auth_key_value_strings)
          end in
        let operator := lookup tags "operator" in
        let payment_key_value_strings :=
          flat_map (fun kv =>
                      if Text.contains "payment" (fst kv)
                      then [(Text.replace "payment:" "" (fst kv) ++ ":" ++ snd kv)%string]
                      else []) tags in
        let payment :=
          match auth_key_value_strings with
          | [] => None
          | _ => Some (Text.join ";" payment_key_value_strings)
          end in
        (authentication, operator, payment)
    | None => (None, None, None)
    end in
  Exc.Return (mkStationDict identifier "OSM" address charging operator payment
                            authentication coordinates raw_data).

End Methods.

End OSMConnector.

(** ** The serializer (helpers/_serializer.py) *)

Module Serializer.

Section Hooks.

(** [datetime] with [isoformat] and [fromisoformat], and the utf-8 codec. *)
Variable datetime : Type.
Variable isoformat : datetime -> string.
Variable fromisoformat : string -> Exc.outcome datetime.
Variable decode : list Byte.byte -> Exc.outcome string.
Variable encode : string -> list Byte.byte.

(** The objects [json] hands to the two hooks. *)
#[local] Set Warnings "-register-all".
Inductive Obj : Type :=
| Datetime (d : datetime)
| Bytes (b : list Byte.byte)
| Str (s : string)
| Dict (items : list (string * Obj))
| NoneObj
| Other.

Definition default (obj : Obj) : Exc.outcome Obj :=
  match obj with
  | Datetime d => Exc.Return (Dict [("_isoformat", Str (isoformat d))])
  | Bytes b =>
      text <~ decode b ;;
      Exc.Return (Dict [("_id", Str text)])
  | _ => Exc.Raise (Exc.RuntimeError "super(): no arguments")
  end.

(** [obj.get(key)] *)
Definition obj_get (obj : Obj) (key : string) : Exc.outcome Obj :=
  match obj with
  | Dict items => Exc.Return (get_default items key NoneObj)
  | _ => Exc.Raise (Exc.AttributeError "object has no attribute 'get'")
  end.

Definition object_hook (obj : Obj) : Exc.outcome Obj :=
  _isoformat <~ obj_get obj "_isoformat" ;;
  _id <~ obj_get obj "_id" ;;
  match _isoformat with
  | NoneObj =>
      match _id with
      | NoneObj => Exc.Return obj
      | Str text => Exc.Return (Bytes (encode text))
      | _ => Exc.Raise (Exc.AttributeError "object has no attribute 'encode'")
      end
  | Str text =>
      d <~ fromisoformat text ;;
      Exc.Return (Datetime d)
  | _ => Exc.Raise (Exc.TypeError "fromisoformat: argument must be str")
  end.

End Hooks.

Arguments Datetime {datetime} d.
Arguments Bytes {datetime} b.
Arguments Str {datetime} s.
Arguments Dict {datetime} items.
Arguments NoneObj {datetime}.
Arguments Other {datetime}.

End Serializer.

(** ** A concrete interpreter for the connectors *)

Module Sample.

Definition isdigit (c : ascii) : bool :=
  (48 <=? nat_of_ascii c)%nat && (nat_of_ascii c <=? 57)%nat.

Definition isspace (c : ascii) : bool :=
  Ascii.eqb c " " || ((9 <=? nat_of_ascii c)%nat && (nat_of_ascii c <=? 13)%nat).

(** The value of a text of decimal digits. *)
Fixpoint digits_value (acc : Z) (s : string) : option Z :=
  match s with
  | EmptyString => Some acc
  | String c rest =>
      if isdigit c
      then digits_value (10 * acc + Z.of_nat (nat_of_ascii c - 48)) rest
      else None
  end.

Definition invalid {A : Type} : Exc.outcome A :=
  Exc.Raise (Exc.ValueError "could not convert string to number").

(** [float] on [nan] and on unsigned decimal literals. *)
Definition float (s : string) : Exc.outcome Float :=
  if String.eqb s "nan" then Exc.Return NaN
  else
    match Text.split "." s with
    | [whole] =>
        match whole, digits_value 0 whole with
        | String _ _, Some z => Exc.Return (Finite (inject_Z z))
        | _, _ => invalid
        end
    | [whole; frac] =>
        match (whole ++ frac)%string, digits_value 0 (whole ++ frac) with
        | String _ _, Some z =>
            Exc.Return (Finite (Qmake z (Pos.of_nat (10 ^ String.length frac))))
        | _, _ => invalid
        end
    | _ => invalid
    end.

(** [int] on unsigned decimal literals. *)
Definition int (s : string) : Exc.outcome PyObj :=
  match s, digits_value 0 s with
  | String _ _, Some z => Exc.Return (ONumber (Finite (inject_Z z)))
  | _, _ => invalid
  end.

(** A rendering of [str]: exact on texts, [None] and whole numbers. *)
Definition format (o : PyObj) : string :=
  match o with
  | ONone => "None"
  | OStr s => s
  | ONumber NaN => "nan"
  | ONumber (Finite q) =>
      (NilZero.string_of_int (Z.to_int (Qnum q))
       ++ match Qden q with
          | xH => ""
          | d => "/" ++ NilZero.string_of_int (Z.to_int (Zpos d))
          end)%string
  | OOther => "<object>"
  end.

(** The digest is left symbolic: the text itself, tagged. *)
Definition sha256_hexdigest (s : string) : string := ("sha256:" ++ s)%string.

#[export] Instance builtins : Builtins :=
  mkBuiltins isdigit isspace float format sha256_hexdigest.

(** [float] and [int] as a [transform_fn]. *)
Definition to_float (s : string) : Exc.outcome PyObj :=
  x <~ float s ;; Exc.Return (ONumber x).

(** A row of the Bundesnetzagentur register. *)
Definition bna_row : BNAConnector.StationRaw :=
  [("Adresse", OStr "Hauptstr. 1");
   ("Postleitzahl Ort", OStr "10115 Berlin");
   ("Bundesland", OStr "Berlin");
   ("Anschlussleistung [kW]", OStr "72,5");
   ("P1 [kW]", OStr "22,5");
   ("P2 [kW]", ONumber (Finite 50));
   ("Steckertypen1", OStr "AC Steckdose Typ 2");
   ("Steckertypen2", OStr "DC Kupplung Combo,DC CHAdeMO")].

(** Two elements of an Open Charge Map answer, the second without
    [AddressInfo]. *)
Definition ocm_info : OCMConnector.AddressInfoDict :=
  OCMConnector.mkAddressInfo (ONumber (Finite 4711)) (Some "D-10115") (Some "Berlin")
                             (Some "Berlin") (Some (OCMConnector.mkCountry (Some "DE")))
                             None (Some (OStr "52,53"))
                             (Some (ONumber (Finite (1338 # 100)))).

Definition ocm_station : OCMConnector.StationRaw :=
  OCMConnector.mkStationRaw
    (Holds ocm_info)
    (Some [OCMConnector.mkConnection (Some (OCMConnector.mkCurrentType (Some "DC")))
                                     (Some 50%Q) None None (Some 2%Z)])
    (Some 2%Z)
    (Holds [("Title", OStr "Public")])
    (Holds (OCMConnector.mkOperatorInfo (Some "Stadtwerke")))
    None.

Definition ocm_station_without_address : OCMConnector.StationRaw :=
  OCMConnector.mkStationRaw Null None None Null Null None.

Definition json_dumps (station_raw : OCMConnector.StationRaw) : string := "{}".

Definition _save (file_path : string) (content_list : list StationDict)
  : Exc.outcome unit := Exc.Return tt.

(** An OpenStreetMap element with payment tags and no authentication tag. *)
Definition osm_element : OSMConnector.StationRaw :=
  OSMConnector.mkStationRaw
    (ONumber (Finite 1)) (Some (ONumber (Finite (5253 # 100))))
    (Some (ONumber (Finite (1338 # 100))))
    (Some [("addr:city", "Berlin"); ("addr:postcode", "10115");
           ("payment:cash", "yes"); ("operator", "Stadtwerke")]).

End Sample.

(** ** Vocabulary of the statements *)

(** Every row carrying label [l] is flagged. *)
Definition marked (gdf : GeoDataFrame) (l : nat) : Prop :=
  forall s, In (l, s) gdf -> is_duplicate s = true.

Definition ids (gdf : GeoDataFrame) : list string := map (fun r => id (snd r)) gdf.

Section Vocabulary.

Context {L : Libs}.

(** The labels that the iteration at position [idx] flags: the index of the
    [duplicates] frame it computes (none when the station is skipped). *)
Definition flagged_by_iteration (knn : nat -> list nat)
           (score_threshold max_distance : Q) (score_weights : ScoreWeights)
           (gdf : GeoDataFrame) (idx : nat) : list nat :=
  match iloc gdf idx with
  | Py.Ok current_station =>
      if is_duplicate (snd current_station) then []
      else map sc_name
               (_determine_duplicates
                  (snd current_station)
                  (_get_duplicate_candidates gdf knn current_station max_distance)
                  score_threshold max_distance (Some score_weights))
  | Py.Raise _ => []
  end.

(** The haversine distance in metres between a row and the current
    station, as [_get_duplicate_candidates] calls [haversine_distance]. *)
Definition distance_to (current_station : Row) (s : Station) : Q :=
  haversine_distance (px (geometry s)) (py (geometry s))
                     (px (geometry (snd current_station)))
                     (py (geometry (snd current_station))) true 6371.

(** The [duplicates] frame of an iteration on [current_station]. *)
Definition iteration_duplicates (knn : nat -> list nat)
           (score_threshold max_distance : Q) (score_weights : ScoreWeights)
           (gdf : GeoDataFrame) (current_station : Row) : list ScoredCandidate :=
  _determine_duplicates
    (snd current_station)
    (_get_duplicate_candidates gdf knn current_station max_distance)
    score_threshold max_distance (Some score_weights).

(** The score of the specification, spelled out on a candidate. *)
Definition spec_operator_match (current_station : Station) (c : Candidate) : Q :=
  match operator current_station, operator (cand_station c) with
  | Some o, Some x => SequenceMatcher_ratio o x
  | _, _ => 0%Q
  end.

Definition spec_address_match (current_station : Station) (c : Candidate) : Q :=
  if String.eqb (address_string current_station) "NoneNoneNone"
     || String.eqb (address_string (cand_station c)) "NoneNoneNone"
  then 0%Q
  else SequenceMatcher_ratio (address_string current_station)
                             (address_string (cand_station c)).

Definition spec_matching_score (current_station : Station) (max_distance : Q)
           (w : ScoreWeights) (c : Candidate) : Q :=
  (w_operator w * spec_operator_match current_station c
   + w_address w * spec_address_match current_station c
   + w_distance w * (1 - distance_meter c / max_distance))%Q.

End Vocabulary.

(** The working table and the output of a run of [merge], when it returns. *)
Definition frames (r : list string * Py.result Merger)
  : option (option GeoDataFrame * option GeoDataFrame) :=
  match snd r with
  | Py.Ok m => Some (stations_gdf m, merged_stations_gdf m)
  | Py.Raise _ => None
  end.

(** [d] is the duplicate picked by the first pairing of
    [ordered_data_source_pairs] whose first component is the current source
    and whose second component is the source of some duplicate. *)
Definition first_pairing_picks (current_station : Station)
           (duplicates : list ScoredCandidate) (d : ScoredCandidate) : Prop :=
  exists pre x y post rest,
    ordered_data_source_pairs = pre ++ (x, y) :: post
    /\ data_source current_station = x
    /\ (forall p, In p pre -> data_source current_station = fst p ->
                  filter (fun e => String.eqb (data_source (sc_station e)) (snd p))
                         duplicates = [])
    /\ filter (fun e => String.eqb (data_source (sc_station e)) y) duplicates
       = d :: rest.

(** ** Vocabulary of the further statements *)

Section FurtherVocabulary.

Context {L : Libs}.

(** The haversine distance in metres from the point [g1] to the point [g2]. *)
Definition point_distance (g1 g2 : Point) : Q :=
  haversine_distance (px g1) (py g1) (px g2) (py g2) true 6371.

(** The rows [_get_duplicate_candidates] is after: neighbours of the current
    station in the k-neighbour table that are not flagged and lie strictly
    within [max_distance]. *)
Definition is_candidate_row (knn : nat -> list nat) (current_station : Row)
           (max_distance : Q) (r : Row) : bool :=
  isin (knn (name current_station)) (fst r)
  && negb (is_duplicate (snd r))
  && Py.ltb (distance_to current_station (snd r)) max_distance.

(** The files [_load_data] reads: processed files, the test ones or the others. *)
Definition is_loaded (is_test : bool) (file : string) : bool :=
  Py.endswith file "__processed.json"
  && (if is_test then Py.startswith file "test_" else negb (Py.startswith file "test_")).

(** A row has both fields the preparation step insists on. *)
Definition is_complete (s : Station) : bool :=
  notna (operator s) && notna (socket_type_list (charging s)).

End FurtherVocabulary.

(** In the table [g] the row [(l, s)] is present, labels are unique, and every
    other row has the point of some other row of the starting table [gdf0]. *)
Definition isolated_in (gdf0 : GeoDataFrame) (l : nat) (s : Station)
           (g : GeoDataFrame) : Prop :=
  NoDup (index g)
  /\ In (l, s) g
  /\ forall l0 s0, In (l0, s0) g -> l0 <> l ->
                   exists l1 s1, In (l1, s1) gdf0 /\ l1 <> l /\ geometry s0 = geometry s1.

(** ** Vocabulary of the statements on the connectors *)

Section ConnectorVocabulary.

Context {B : Builtins}.

(** A postcode as the connectors let it through: absent, or five digits. *)
Definition postcode_ok (p : option string) : Prop :=
  match p with
  | None => True
  | Some p => String.length p = 5%nat /\ Text.all isdigit p = true
  end.

(** A town or state: absent, or two characters at least and no digit. *)
Definition place_ok (t : option string) : Prop :=
  match t with
  | None => True
  | Some t => (2 <= String.length t)%nat /\ Text.any isdigit t = false
  end.

Definition address_ok (a : Address) : Prop :=
  postcode_ok (postcode a) /\ place_ok (town a) /\ place_ok (state a)
  /\ district a = None.

(** The characters [check_coordinates] reads in a text. *)
Definition coordinate_char (c : ascii) : bool :=
  isdigit c || Ascii.eqb c "." || Ascii.eqb c ",".

End ConnectorVocabulary.

(** How often a connection of Open Charge Map counts: its [Quantity], once
    when there is none. *)
Definition connection_quantity (connection : OCMConnector.ConnectionDict) : nat :=
  Z.to_nat (match OCMConnector.Quantity connection with
            | Some quantity => quantity
            | None => 1%Z
            end).

(** The entries a connection adds to a metric list. *)
Definition connection_entries (metric : OCMConnector.ConnectionDict -> option Q)
           (connection : OCMConnector.ConnectionDict) : list Q :=
  match metric connection with
  | Some value => repeat value (connection_quantity connection)
  | None => []
  end.

Definition connections_of (station_raw : OCMConnector.StationRaw)
  : list OCMConnector.ConnectionDict :=
  match OCMConnector.Connections station_raw with
  | Some connections => connections
  | None => []
  end.

(** What [OCMConnector.process] may append for the records [raw]: a station
    of the source [OCM] with a validated address, built from one of them. *)
Definition appended_from {B : Builtins} (json_dumps : OCMConnector.StationRaw -> string)
           (raw : list OCMConnector.StationRaw) (station : StationDict) : Prop :=
  sd_data_source station = "OCM"
  /\ address_ok (sd_address station)
  /\ exists station_raw,
      In station_raw raw
      /\ sd_raw_data station = json_dumps station_raw
      /\ sd_charging station = OCMConnector._create_charging (sd_id station) station_raw
      /\ sd_payment station = OCMConnector.UsageCost station_raw.

(** ** Lemmas on the frame operations *)

Lemma ltb_lt (a b : Q) : Py.ltb a b = true <-> (a < b)%Q.
Proof.
  unfold Py.ltb. rewrite negb_true_iff. split.
  - intros H. apply Qnot_le_lt. intros Hle.
    apply Qle_bool_iff in Hle. congruence.
  - intros H. destruct (Qle_bool b a) eqn:E; [|reflexivity].
    apply Qle_bool_iff in E. exfalso. exact (Qlt_not_le _ _ H E).
Qed.

Lemma isin_In (ls : list nat) (l : nat) : isin ls l = true <-> In l ls.
Proof.
  unfold isin. rewrite existsb_exists. split.
  - intros [x [Hx E]]. apply Nat.eqb_eq in E. subst. exact Hx.
  - intros H. exists l. split; [exact H | apply Nat.eqb_refl].
Qed.

Lemma index_mark_duplicates (gdf : GeoDataFrame) (ls : list nat) :
  index (mark_duplicates gdf ls) = index gdf.
Proof.
  unfold index, mark_duplicates. rewrite map_map. apply map_ext.
  intros [l s]; simpl. destruct (existsb _ ls); reflexivity.
Qed.

Lemma In_mark_duplicates (gdf : GeoDataFrame) (ls : list nat) (l : nat) (s : Station) :
  In (l, s) (mark_duplicates gdf ls) <->
  exists s0, In (l, s0) gdf
             /\ s = if isin ls l then set_is_duplicate s0 true else s0.
Proof.
  unfold mark_duplicates. rewrite in_map_iff. split.
  - intros [[l0 s0] [E H]]. simpl in E. fold (isin ls l0) in E.
    destruct (isin ls l0) eqn:Ein; injection E as <- <-; exists s0;
      rewrite Ein; auto.
  - intros [s0 [H E]]. exists (l, s0). split; [|exact H]. simpl.
    fold (isin ls l). destruct (isin ls l); subst; reflexivity.
Qed.

Lemma In_index (gdf : GeoDataFrame) (l : nat) (s : Station) :
  In (l, s) gdf -> In l (index gdf).
Proof. intros H. unfold index. change l with (fst (l, s)). apply in_map. exact H. Qed.

Lemma In_loc_set (gdf : GeoDataFrame) (label : nat) (x : Station) (l : nat) (s : Station) :
  In (l, s) (loc_set gdf label x) ->
  (l = label /\ s = x) \/ (l <> label /\ In (l, s) gdf).
Proof.
  unfold loc_set. fold (isin (index gdf) label).
  destruct (isin (index gdf) label) eqn:Ein.
  - rewrite in_map_iff. intros [[l0 s0] [E H]]. simpl in E.
    destruct (Nat.eqb l0 label) eqn:El.
    + injection E as <- <-. left; auto.
    + injection E as <- <-. right. split; [|exact H].
      apply Nat.eqb_neq. exact El.
  - rewrite in_app_iff. intros [H | [E | []]].
    + right. split; [|exact H]. intros ->.
      apply In_index, isin_In in H. congruence.
    + injection E as <- <-. left; auto.
Qed.

Lemma loc_set_other (gdf : GeoDataFrame) (label : nat) (x : Station) (l : nat) (s : Station) :
  l <> label -> In (l, s) gdf -> In (l, s) (loc_set gdf label x).
Proof.
  intros Hn H. unfold loc_set. destruct (existsb _ (index gdf)).
  - apply in_map_iff. exists (l, s). split; [|exact H]. simpl.
    apply Nat.eqb_neq in Hn. rewrite Hn. reflexivity.
  - apply in_app_iff. left. exact H.
Qed.

Lemma loc_set_label (gdf : GeoDataFrame) (label : nat) (x : Station) :
  In (label, x) (loc_set gdf label x).
Proof.
  unfold loc_set. destruct (existsb _ (index gdf)) eqn:E.
  - apply existsb_exists in E. destruct E as [l [Hl E]].
    apply Nat.eqb_eq in E. subst l. unfold index in Hl.
    apply in_map_iff in Hl. destruct Hl as [[l0 s0] [E H]]. simpl in E. subst l0.
    apply in_map_iff. exists (label, s0). split; [|exact H].
    simpl. rewrite Nat.eqb_refl. reflexivity.
  - apply in_app_iff. right. left. reflexivity.
Qed.

Lemma index_loc_set (gdf : GeoDataFrame) (label : nat) (x : Station) :
  In label (index gdf) -> index (loc_set gdf label x) = index gdf.
Proof.
  intros H. unfold loc_set. fold (isin (index gdf) label).
  apply isin_In in H. rewrite H.
  unfold index. rewrite map_map.
  apply map_ext_in. intros [l s] _. simpl.
  destruct (Nat.eqb l label) eqn:E; [|reflexivity].
  apply Nat.eqb_eq in E. simpl. congruence.
Qed.

Lemma NoDup_index_functional (gdf : GeoDataFrame) (l : nat) (s1 s2 : Station) :
  NoDup (index gdf) -> In (l, s1) gdf -> In (l, s2) gdf -> s1 = s2.
Proof.
  induction gdf as [|[l0 s0] gdf IH]; simpl; intros Hnd H1 H2; [contradiction|].
  inversion Hnd as [|? ? Hnotin Hnd']; subst.
  destruct H1 as [E1 | H1], H2 as [E2 | H2].
  - congruence.
  - injection E1 as -> ->. exfalso. apply Hnotin. eapply In_index; eauto.
  - injection E2 as -> ->. exfalso. apply Hnotin. eapply In_index; eauto.
  - auto.
Qed.

(** ** Lemmas on the Candidate Selector and the Similarity Scorer *)

Section SelectorScorer.

Context {L : Libs}.

Lemma In_candidates gdf knn current_station max_distance c :
  In c (_get_duplicate_candidates gdf knn current_station max_distance) ->
  exists s0,
    In (cand_name c, s0) gdf
    /\ In (cand_name c) (knn (name current_station))
    /\ is_duplicate s0 = false
    /\ distance_meter c = distance_to current_station s0
    /\ Py.ltb (distance_meter c) max_distance = true
    /\ In (cand_name c, cand_station c) gdf.
Proof.
  unfold _get_duplicate_candidates, bounds.
  match goal with
  | |- In c (match ?l with [] => [] | _ :: _ => flat_map ?f ?l end) -> _ =>
      replace (match l with [] => [] | _ :: _ => flat_map f l end)
        with (flat_map f l) by (destruct l; reflexivity)
  end.
  rewrite in_flat_map. intros [[l d] [Hnd Hc]].
  apply filter_In in Hnd. destruct Hnd as [Hnd Hlt].
  apply in_map_iff in Hnd. destruct Hnd as [[l0 s0] [E Hn]].
  apply filter_In in Hn. destruct Hn as [Hin Hf].
  apply andb_true_iff in Hf. destruct Hf as [Hk Hd].
  apply isin_In in Hk. apply negb_true_iff in Hd.
  simpl in E, Hk, Hd, Hlt. injection E as <- <-.
  apply in_map_iff in Hc. destruct Hc as [[l1 s1] [E1 H1]].
  apply filter_In in H1. destruct H1 as [H1 El]. simpl in El.
  apply Nat.eqb_eq in El. subst l1. simpl in E1. subst c. simpl.
  exists s0. repeat split; auto.
Qed.

Lemma candidates_complete gdf knn current_station max_distance l s :
  In (l, s) gdf ->
  In l (knn (name current_station)) ->
  is_duplicate s = false ->
  Py.ltb (distance_to current_station s) max_distance = true ->
  In (mkCandidate l (distance_to current_station s) s)
     (_get_duplicate_candidates gdf knn current_station max_distance).
Proof.
  intros Hin Hk Hd Hlt.
  unfold _get_duplicate_candidates, bounds.
  match goal with
  | |- In _ (match ?l with [] => [] | _ :: _ => flat_map ?f ?l end) =>
      replace (match l with [] => [] | _ :: _ => flat_map f l end)
        with (flat_map f l) by (destruct l; reflexivity)
  end.
  apply in_flat_map. exists (l, distance_to current_station s). split.
  - apply filter_In. split; [|exact Hlt].
    apply in_map_iff. exists (l, s). split; [reflexivity|].
    apply filter_In. split; [exact Hin|]. simpl.
    apply andb_true_iff. split; [apply isin_In; exact Hk|].
    rewrite Hd. reflexivity.
  - apply in_map_iff. exists (l, s). split; [reflexivity|].
    apply filter_In. split; [exact Hin|]. simpl. apply Nat.eqb_refl.
Qed.

Lemma In_determine_duplicates current_station cands thr maxd w d :
  In d (_determine_duplicates current_station cands thr maxd w) ->
  exists c, In c cands
            /\ sc_name d = cand_name c
            /\ sc_distance_meter d = distance_meter c
            /\ is_duplicate (sc_station d) = true
            /\ (sc_station d = cand_station c
                \/ sc_station d = set_is_duplicate (cand_station c) true).
Proof.
  unfold _determine_duplicates. intros H.
  apply filter_In in H. destruct H as [H Hd].
  apply in_map_iff in H. destruct H as [c [E Hc]].
  exists c. subst d. unfold score_candidate in *. simpl in *.
  repeat split; auto.
  match goal with |- context [if ?b then _ else _] => destruct b end; auto.
Qed.

(** Rows of the [duplicates] frame are rows of the working table: same
    label, same fields but for the flag just set. *)
Lemma duplicates_from_frame gdf knn current_station thr maxd w d :
  NoDup (index gdf) ->
  In d (_determine_duplicates
          (snd current_station)
          (_get_duplicate_candidates gdf knn current_station maxd) thr maxd w) ->
  exists s0, In (sc_name d, s0) gdf
             /\ is_duplicate s0 = false
             /\ In (sc_name d) (knn (name current_station))
             /\ sc_station d = set_is_duplicate s0 true.
Proof.
  intros Hnd H. apply In_determine_duplicates in H.
  destruct H as [c [Hc [En [_ [Hdup Hs]]]]].
  apply In_candidates in Hc.
  destruct Hc as [s0 [Hin [Hk [Hd [_ [_ Hin']]]]]].
  assert (cand_station c = s0) as Es
    by (eapply NoDup_index_functional; eauto).
  rewrite En. exists s0. repeat split; auto.
  destruct Hs as [Hs | Hs]; rewrite Hs in *; [|congruence].
  rewrite Es in Hdup. congruence.
Qed.

Lemma score_candidate_score current_station thr maxd w c :
  matching_score (score_candidate current_station thr maxd w c)
  = spec_matching_score current_station maxd w c.
Proof.
  unfold score_candidate, spec_matching_score, spec_operator_match,
    spec_address_match. simpl.
  destruct (String.eqb (address_string current_station) "NoneNoneNone"),
    (String.eqb (address_string (cand_station c)) "NoneNoneNone");
    reflexivity.
Qed.

Lemma score_candidate_flag current_station thr maxd w c :
  is_duplicate (cand_station c) = false ->
  is_duplicate (sc_station (score_candidate current_station thr maxd w c))
  = Py.ltb thr (spec_matching_score current_station maxd w c).
Proof.
  intros Hc.
  pose proof (score_candidate_score current_station thr maxd w c) as Hsc.
  unfold score_candidate in *. simpl in *. rewrite Hsc.
  destruct (Py.ltb thr (spec_matching_score current_station maxd w c));
    [reflexivity | exact Hc].
Qed.

End SelectorScorer.

(** ** Candidate Selector *)

(** C5: on a frame with unique labels every row returned by
    [_get_duplicate_candidates] is a row of the working table that is not
    flagged [is_duplicate] and whose haversine distance to the current station
    is strictly below [max_distance]; when no neighbour qualifies the result is
    the empty frame, an ordinary return value. *)
Theorem candidate_selector_sound {L : Libs} (gdf : GeoDataFrame) (knn : nat -> list nat)
        (current_station : Row) (max_distance : Q) :
  NoDup (index gdf) ->
  (forall c, In c (_get_duplicate_candidates gdf knn current_station max_distance) ->
             In (cand_name c, cand_station c) gdf
             /\ is_duplicate (cand_station c) = false
             /\ distance_meter c = distance_to current_station (cand_station c)
             /\ (distance_meter c < max_distance)%Q)
  /\ ((forall l s, In (l, s) gdf -> In l (knn (name current_station)) ->
                   is_duplicate s = false ->
                   ~ (distance_to current_station s < max_distance)%Q) ->
      _get_duplicate_candidates gdf knn current_station max_distance = []).
Proof.
  intros Hnd. split.
  - intros c Hc. apply In_candidates in Hc.
    destruct Hc as [s0 [Hin [Hk [Hd [Hdist [Hlt Hin']]]]]].
    assert (cand_station c = s0) as Es
      by (eapply NoDup_index_functional; eauto).
    rewrite Es. repeat split; auto.
    apply ltb_lt. exact Hlt.
  - intros Hnone.
    destruct (_get_duplicate_candidates gdf knn current_station max_distance)
      as [|c rest] eqn:E; [reflexivity|].
    assert (In c (_get_duplicate_candidates gdf knn current_station max_distance)) as Hc
      by (rewrite E; left; reflexivity).
    apply In_candidates in Hc.
    destruct Hc as [s0 [Hin [Hk [Hd [Hdist [Hlt _]]]]]].
    exfalso. apply (Hnone _ _ Hin Hk Hd).
    rewrite <- Hdist. apply ltb_lt. exact Hlt.
Qed.

(** ** Similarity Scorer *)

(** C4: for candidates that are not yet flagged (as the Candidate Selector
    delivers them) the score computed by [_determine_duplicates] is
    [w_operator * operator_match + w_address * address_match
     + w_distance * (1 - distance_meter / max_distance)], a candidate is
    flagged exactly when that score is strictly above [score_threshold], and
    the frame returned consists of exactly the flagged candidates, in order. *)
Theorem similarity_scorer_threshold {L : Libs} (current_station : Station)
        (duplicate_candidates : list Candidate) (score_threshold max_distance : Q)
        (score_weights : option ScoreWeights) :
  Forall (fun c => is_duplicate (cand_station c) = false) duplicate_candidates ->
  let w := match score_weights with Some w => w | None => default_score_weights end in
  let scored := score_candidate current_station score_threshold max_distance w in
  (forall c, matching_score (scored c)
             = (w_operator w * operator_match (scored c)
                + w_address w * address_match (scored c)
                + w_distance w * (1 - distance_meter c / max_distance))%Q
             /\ matching_score (scored c)
                = spec_matching_score current_station max_distance w c)
  /\ (forall c, In c duplicate_candidates ->
                (is_duplicate (sc_station (scored c)) = true
                 <-> (score_threshold < matching_score (scored c))%Q))
  /\ _determine_duplicates current_station duplicate_candidates
                           score_threshold max_distance score_weights
     = map scored
           (filter (fun c => Py.ltb score_threshold (matching_score (scored c)))
                   duplicate_candidates).
Proof.
  intros Hall w scored. split; [|split].
  - intros c. split; [reflexivity|]. apply score_candidate_score.
  - intros c Hc. rewrite Forall_forall in Hall.
    unfold scored. rewrite score_candidate_flag by auto.
    rewrite score_candidate_score. apply ltb_lt.
  - unfold _determine_duplicates.
    change (score_candidate current_station score_threshold max_distance
                            match score_weights with
                            | Some w0 => w0
                            | None => default_score_weights
                            end) with scored.
    induction duplicate_candidates as [|c rest IH]; [reflexivity|].
    inversion Hall as [|? ? Hc Hrest]; subst. cbn [map filter].
    assert (is_duplicate (sc_station (scored c))
            = Py.ltb score_threshold (matching_score (scored c))) as E.
    { unfold scored. rewrite score_candidate_score.
      apply score_candidate_flag. exact Hc. }
    rewrite E.
    destruct (Py.ltb score_threshold (matching_score (scored c)));
      cbn [map]; [f_equal|]; apply IH; exact Hrest.
Qed.

(** C8, the claim fails for a negative distance weight: with weights
    [(0, 0, -1)] the candidate 50 m away scores higher than the one at 0 m. *)
Lemma score_grows_under_negative_weight :
  let w := mkWeights 0 0 (-1) in
  let s := Run.row Run.ocm Run.p_berlin false false in
  let current := Run.row Run.bna Run.p_berlin false false in
  let near := mkCandidate 1 0 s in
  let far := mkCandidate 1 50 s in
  (distance_meter near <= distance_meter far)%Q
  /\ ~ (matching_score (score_candidate (L:=Run.in_order) current (49 # 100) 100 w far)
        <= matching_score (score_candidate (L:=Run.in_order) current (49 # 100) 100 w near))%Q.
Proof.
  split.
  - vm_compute. discriminate.
  - vm_compute. intros H. apply H. reflexivity.
Qed.

(** C8 (amended): with a distance weight that is not negative and a positive
    [max_distance], two candidates that differ only in [distance_meter] are
    scored in the opposite order of their distances: the score does not
    increase with the distance. *)
Theorem matching_score_antitone {L : Libs} (current_station : Station)
        (score_threshold max_distance : Q) (w : ScoreWeights) (c1 c2 : Candidate) :
  (0 <= w_distance w)%Q ->
  (0 < max_distance)%Q ->
  cand_station c1 = cand_station c2 ->
  (distance_meter c1 <= distance_meter c2)%Q ->
  (matching_score (score_candidate current_station score_threshold max_distance w c2)
   <= matching_score (score_candidate current_station score_threshold max_distance w c1))%Q.
Proof.
  intros Hw Hm Hs Hd.
  rewrite !score_candidate_score.
  unfold spec_matching_score, spec_operator_match, spec_address_match.
  rewrite Hs.
  assert (distance_meter c1 / max_distance <= distance_meter c2 / max_distance)%Q as Hq.
  { unfold Qdiv. apply Qmult_le_compat_r; [exact Hd|].
    apply Qlt_le_weak, Qinv_lt_0_compat. exact Hm. }
  set (x1 := (distance_meter c1 / max_distance)%Q) in *.
  set (x2 := (distance_meter c2 / max_distance)%Q) in *.
  apply Qplus_le_compat; [apply Qle_refl|].
  rewrite !(Qmult_comm (w_distance w)).
  apply Qmult_le_compat_r; [|exact Hw].
  lra.
Qed.

Lemma matching_score_antitone_witness :
  let s := Run.row Run.ocm Run.p_berlin false false in
  let current := Run.row Run.bna Run.p_berlin false false in
  (matching_score (score_candidate (L:=Run.in_order) current (49 # 100) 100
                                   default_score_weights (mkCandidate 1 50 s))
   <= matching_score (score_candidate (L:=Run.in_order) current (49 # 100) 100
                                      default_score_weights (mkCandidate 1 0 s)))%Q.
Proof.
  apply (matching_score_antitone (L:=Run.in_order)); simpl.
  - vm_compute. discriminate.
  - reflexivity.
  - reflexivity.
  - vm_compute. discriminate.
Defined.

(** ** Duplicate Resolver *)

Lemma merge_pairs_cases gdf current_station duplicates pairs :
  merge_pairs gdf current_station duplicates pairs = gdf
  \/ (exists d, In d duplicates
                /\ merge_pairs gdf current_station duplicates pairs
                   = loc_set gdf (name current_station)
                             (set_flags (sc_station d) false true)).
Proof.
  induction pairs as [|[x y] rest IH]; simpl; [left; reflexivity|].
  destruct (String.eqb (data_source (snd current_station)) x) eqn:Ex; simpl;
    [|exact IH].
  destruct (filter _ duplicates) as [|first others] eqn:Ef; [exact IH|].
  right. exists first. split; [|reflexivity].
  assert (In first (first :: others)) as Hin by (left; reflexivity).
  rewrite <- Ef in Hin. apply filter_In in Hin. tauto.
Qed.

Lemma _merge_duplicates_cases gdf current_station duplicates :
  _merge_duplicates gdf current_station duplicates = gdf
  \/ (exists d, In d duplicates
                /\ data_source (snd current_station) <> "BNA"
                /\ _merge_duplicates gdf current_station duplicates
                   = loc_set gdf (name current_station)
                             (set_flags (sc_station d) false true)).
Proof.
  unfold _merge_duplicates.
  destruct (String.eqb (data_source (snd current_station)) "BNA") eqn:Eb;
    [left; reflexivity|].
  apply String.eqb_neq in Eb.
  destruct (merge_pairs_cases gdf current_station duplicates
                              ordered_data_source_pairs) as [H | [d [Hd H]]]; auto.
  right. exists d. auto.
Qed.

Lemma merge_pairs_first gdf current_station duplicates pre x y post d rest :
  data_source (snd current_station) = x ->
  (forall p, In p pre -> data_source (snd current_station) = fst p ->
             filter (fun e => String.eqb (data_source (sc_station e)) (snd p))
                    duplicates = []) ->
  filter (fun e => String.eqb (data_source (sc_station e)) y) duplicates = d :: rest ->
  merge_pairs gdf current_station duplicates (pre ++ (x, y) :: post)
  = loc_set gdf (name current_station) (set_flags (sc_station d) false true).
Proof.
  intros Hx Hpre Hy. induction pre as [|[x0 y0] pre IH]; simpl.
  - rewrite Hx, String.eqb_refl. simpl. rewrite Hy. reflexivity.
  - destruct (String.eqb (data_source (snd current_station)) x0) eqn:E0; simpl.
    + apply String.eqb_eq in E0.
      pose proof (Hpre (x0, y0) (or_introl eq_refl) E0) as H0.
      simpl in H0. rewrite H0.
      apply IH. intros p Hp. apply Hpre. right. exact Hp.
    + apply IH. intros p Hp. apply Hpre. right. exact Hp.
Qed.

Lemma merge_pairs_none gdf current_station duplicates pairs :
  (forall p, In p pairs -> data_source (snd current_station) = fst p ->
             filter (fun e => String.eqb (data_source (sc_station e)) (snd p))
                    duplicates = []) ->
  merge_pairs gdf current_station duplicates pairs = gdf.
Proof.
  induction pairs as [|[x0 y0] pairs IH]; simpl; intros Hnone; [reflexivity|].
  destruct (String.eqb (data_source (snd current_station)) x0) eqn:E0; simpl.
  - apply String.eqb_eq in E0.
    pose proof (Hnone (x0, y0) (or_introl eq_refl) E0) as H0.
    simpl in H0. rewrite H0.
    apply IH. intros p Hp. apply Hnone. right. exact Hp.
  - apply IH. intros p Hp. apply Hnone. right. exact Hp.
Qed.

(** The first element of a list that passes a test, with what precedes it. *)
Lemma first_passing {A : Type} (f : A -> bool) (l : list A) :
  (exists a, In a l /\ f a = true) ->
  exists pre a post, l = pre ++ a :: post /\ f a = true
                     /\ forall b, In b pre -> f b = false.
Proof.
  induction l as [|a0 l IH]; intros [a [Hin Ha]]; [contradiction|].
  destruct (f a0) eqn:E0.
  - exists [], a0, l. repeat split; auto. intros b [].
  - destruct IH as [pre [a1 [post [El [Ha1 Hpre]]]]].
    { destruct Hin as [-> | Hin]; [congruence|]. exists a; auto. }
    exists (a0 :: pre), a1, post. rewrite El. repeat split; auto.
    intros b [<- | Hb]; auto.
Qed.

Lemma first_pairing_exists (current_station : Station)
      (duplicates : list ScoredCandidate) :
  (exists p e, In p ordered_data_source_pairs
               /\ fst p = data_source current_station
               /\ In e duplicates
               /\ data_source (sc_station e) = snd p) ->
  exists d, first_pairing_picks current_station duplicates d.
Proof.
  intros [p [e [Hp [Hs [He Hd]]]]].
  set (f := fun q : string * string =>
              String.eqb (data_source current_station) (fst q)
              && match filter (fun e => String.eqb (data_source (sc_station e)) (snd q))
                              duplicates with
                 | [] => false
                 | _ :: _ => true
                 end).
  destruct (first_passing f ordered_data_source_pairs)
    as [pre [[x y] [post [El [Hf Hpre]]]]].
  { exists p. split; [exact Hp|]. unfold f. rewrite <- Hs, String.eqb_refl. simpl.
    destruct (filter _ duplicates) eqn:Ef; [|reflexivity].
    assert (In e []) as Habs; [|contradiction].
    rewrite <- Ef. apply filter_In. split; [exact He|].
    apply String.eqb_eq. exact Hd. }
  unfold f in Hf. simpl in Hf. apply andb_true_iff in Hf. destruct Hf as [Hx Hy].
  apply String.eqb_eq in Hx.
  destruct (filter (fun e0 => String.eqb (data_source (sc_station e0)) y) duplicates)
    as [|d rest] eqn:Ef; [discriminate|].
  exists d, pre, x, y, post, rest.
  split; [exact El|]. split; [exact Hx|]. split; [|exact Ef].
  intros q Hq Hsq. specialize (Hpre q Hq). unfold f in Hpre.
  rewrite Hsq, String.eqb_refl in Hpre. simpl in Hpre.
  match goal with |- ?l = [] => destruct l; [reflexivity | discriminate] end.
Qed.

Lemma first_pairing_member current_station duplicates d :
  first_pairing_picks current_station duplicates d -> In d duplicates.
Proof.
  intros [pre [x [y [post [rest [_ [_ [_ Hy]]]]]]]].
  assert (In d (d :: rest)) as Hin by (left; reflexivity).
  rewrite <- Hy in Hin. apply filter_In in Hin. tauto.
Qed.

Lemma _merge_duplicates_first gdf current_station duplicates d :
  data_source (snd current_station) <> "BNA" ->
  first_pairing_picks (snd current_station) duplicates d ->
  _merge_duplicates gdf current_station duplicates
  = loc_set gdf (name current_station) (set_flags (sc_station d) false true).
Proof.
  intros Hb [pre [x [y [post [rest [El [Hx [Hpre Hy]]]]]]]].
  unfold _merge_duplicates. apply String.eqb_neq in Hb. rewrite Hb.
  rewrite El. eapply merge_pairs_first; eauto.
Qed.

(** C2: for a current station that is not BNA and for which some pairing of
    {OCM, OSM} x {BNA, OCM, OSM} matches its source and the source of a
    flagged duplicate, [_merge_duplicates] walks the pairs in that order and,
    at the first such pairing, overwrites the current row with the first
    duplicate of that source, [merged_attributes = true] and
    [is_duplicate = false]; nothing else in the table is replaced. *)
Theorem resolver_first_pairing_replaces (gdf : GeoDataFrame) (current_station : Row)
        (duplicates : list ScoredCandidate) :
  data_source (snd current_station) <> "BNA" ->
  (exists p e, In p ordered_data_source_pairs
               /\ fst p = data_source (snd current_station)
               /\ In e duplicates
               /\ data_source (sc_station e) = snd p) ->
  ordered_data_source_pairs
  = [("OCM", "BNA"); ("OCM", "OCM"); ("OCM", "OSM");
     ("OSM", "BNA"); ("OSM", "OCM"); ("OSM", "OSM")]
  /\ exists d,
      first_pairing_picks (snd current_station) duplicates d
      /\ _merge_duplicates gdf current_station duplicates
         = loc_set gdf (name current_station) (set_flags (sc_station d) false true)
      /\ (forall s, In (name current_station, s)
                       (_merge_duplicates gdf current_station duplicates) ->
                    s = set_flags (sc_station d) false true
                    /\ merged_attributes s = true /\ is_duplicate s = false)
      /\ (forall l s, l <> name current_station ->
                      (In (l, s) (_merge_duplicates gdf current_station duplicates)
                       <-> In (l, s) gdf)).
Proof.
  intros Hb Hex. split; [reflexivity|].
  destruct (first_pairing_exists _ _ Hex) as [d Hd].
  exists d. split; [exact Hd|].
  pose proof (_merge_duplicates_first gdf _ _ _ Hb Hd) as E.
  rewrite E. split; [reflexivity|]. split.
  - intros s Hs. apply In_loc_set in Hs.
    destruct Hs as [[_ ->] | [Hn _]]; [|congruence].
    repeat split.
  - intros l s Hl. split.
    + intros H. apply In_loc_set in H. destruct H as [[-> _] | [_ H]]; [congruence|exact H].
    + apply loc_set_other. exact Hl.
Qed.

(** ** The loop of [merge] *)

Section Loop.

Context {L : Libs}.
Variable knn : nat -> list nat.
Variables score_threshold max_distance : Q.
Variable score_weights : ScoreWeights.

Local Abbreviation iteration := (merge_iteration knn score_threshold max_distance score_weights).
Local Abbreviation loop := (merge_loop knn score_threshold max_distance score_weights).
Local Abbreviation dups_of := (iteration_duplicates knn score_threshold max_distance score_weights).

Lemma iloc_In gdf idx r : iloc gdf idx = Py.Ok r -> In r gdf.
Proof.
  unfold iloc. destruct (nth_error gdf idx) eqn:E; [|discriminate].
  intros H. injection H as <-. eapply nth_error_In; eauto.
Qed.

Lemma mark_duplicates_nil gdf : mark_duplicates gdf [] = gdf.
Proof.
  unfold mark_duplicates. rewrite <- (map_id gdf) at 2.
  apply map_ext. intros r. reflexivity.
Qed.

Lemma _merge_duplicates_nil gdf current_station :
  _merge_duplicates gdf current_station [] = gdf.
Proof.
  unfold _merge_duplicates. destruct (String.eqb _ "BNA"); [reflexivity|].
  apply merge_pairs_none. reflexivity.
Qed.

(** What an iteration computes, skipping aside. *)
Lemma merge_iteration_skip gdf idx current_station :
  iloc gdf idx = Py.Ok current_station ->
  is_duplicate (snd current_station) = true ->
  iteration gdf idx = Py.Ok gdf.
Proof. intros Hi Hd. unfold merge_iteration. rewrite Hi. simpl. rewrite Hd. reflexivity. Qed.

Lemma merge_iteration_run gdf idx current_station :
  iloc gdf idx = Py.Ok current_station ->
  is_duplicate (snd current_station) = false ->
  iteration gdf idx
  = Py.Ok (_merge_duplicates
             (mark_duplicates gdf (map sc_name (dups_of gdf current_station)))
             current_station (dups_of gdf current_station)).
Proof.
  intros Hi Hd. unfold merge_iteration, iteration_duplicates.
  rewrite Hi. simpl. rewrite Hd.
  destruct (_get_duplicate_candidates gdf knn current_station max_distance) eqn:E;
    [|reflexivity].
  unfold _determine_duplicates. simpl.
  rewrite mark_duplicates_nil, _merge_duplicates_nil. reflexivity.
Qed.

Lemma merge_iteration_inv gdf idx gdf' :
  iteration gdf idx = Py.Ok gdf' ->
  exists current_station,
    iloc gdf idx = Py.Ok current_station
    /\ ((is_duplicate (snd current_station) = true /\ gdf' = gdf)
        \/ (is_duplicate (snd current_station) = false
            /\ gdf' = _merge_duplicates
                        (mark_duplicates gdf (map sc_name (dups_of gdf current_station)))
                        current_station (dups_of gdf current_station))).
Proof.
  intros H. destruct (iloc gdf idx) as [cur|e] eqn:Hi.
  - exists cur. split; [reflexivity|].
    destruct (is_duplicate (snd cur)) eqn:Hd.
    + left. rewrite (merge_iteration_skip _ _ _ Hi Hd) in H. split; congruence.
    + right. rewrite (merge_iteration_run _ _ _ Hi Hd) in H. split; congruence.
  - unfold merge_iteration in H. rewrite Hi in H. discriminate.
Qed.

Lemma flagged_by_iteration_run gdf idx current_station :
  iloc gdf idx = Py.Ok current_station ->
  is_duplicate (snd current_station) = false ->
  flagged_by_iteration knn score_threshold max_distance score_weights gdf idx
  = map sc_name (dups_of gdf current_station).
Proof. intros Hi Hd. unfold flagged_by_iteration. rewrite Hi, Hd. reflexivity. Qed.

(** The labels flagged by an iteration are neighbours of the current
    station in the k-neighbour table. *)
Lemma dups_are_neighbours gdf current_station l :
  In l (map sc_name (dups_of gdf current_station)) ->
  In l (knn (name current_station))
  /\ In l (map cand_name (_get_duplicate_candidates gdf knn current_station max_distance)).
Proof.
  intros H. apply in_map_iff in H. destruct H as [d [<- Hd]].
  apply In_determine_duplicates in Hd. destruct Hd as [c [Hc [En _]]].
  rewrite En. split.
  - apply In_candidates in Hc. destruct Hc as [s0 [_ [Hk _]]]. exact Hk.
  - apply in_map. exact Hc.
Qed.

Lemma iteration_index gdf idx gdf' :
  iteration gdf idx = Py.Ok gdf' -> index gdf' = index gdf.
Proof.
  intros H. apply merge_iteration_inv in H.
  destruct H as [cur [Hi [[_ ->] | [Hd ->]]]]; [reflexivity|].
  destruct (_merge_duplicates_cases
              (mark_duplicates gdf (map sc_name (dups_of gdf cur))) cur (dups_of gdf cur))
    as [-> | [d [_ [_ ->]]]].
  - apply index_mark_duplicates.
  - rewrite index_loc_set; [apply index_mark_duplicates|].
    rewrite index_mark_duplicates. apply iloc_In in Hi.
    destruct cur as [l s]. eapply In_index; eauto.
Qed.

Lemma loop_index gdf idxs gdf' :
  loop gdf idxs = Py.Ok gdf' -> index gdf' = index gdf.
Proof.
  revert gdf. induction idxs as [|idx rest IH]; simpl; intros gdf H.
  - congruence.
  - destruct (iteration gdf idx) as [g|e] eqn:E; simpl in H; [|discriminate].
    rewrite (IH _ H). eapply iteration_index; eauto.
Qed.

(** The loop never fails on positions of the frame. *)
Lemma iteration_total gdf idx :
  (idx < List.length gdf)%nat -> exists gdf', iteration gdf idx = Py.Ok gdf'.
Proof.
  intros Hlt. destruct (nth_error gdf idx) as [cur|] eqn:E.
  - assert (iloc gdf idx = Py.Ok cur) as Hi by (unfold iloc; rewrite E; reflexivity).
    destruct (is_duplicate (snd cur)) eqn:Hd.
    + eexists. eapply merge_iteration_skip; eauto.
    + eexists. eapply merge_iteration_run; eauto.
  - apply nth_error_None in E. lia.
Qed.

Lemma loop_total gdf idxs :
  Forall (fun idx => idx < List.length gdf)%nat idxs ->
  exists gdf', loop gdf idxs = Py.Ok gdf'.
Proof.
  revert gdf. induction idxs as [|idx rest IH]; intros gdf Hall; simpl.
  - eexists; reflexivity.
  - inversion Hall as [|? ? Hlt Hrest]; subst.
    destruct (iteration_total gdf idx Hlt) as [g Hg]. rewrite Hg. simpl.
    apply IH. assert (List.length g = List.length gdf) as El.
    { apply iteration_index in Hg. unfold index in Hg.
      apply (f_equal (@List.length nat)) in Hg.
      rewrite !length_map in Hg. exact Hg. }
    rewrite El. exact Hrest.
Qed.

(** Flags are only ever set between iterations. *)
Lemma iteration_keeps_marked gdf idx gdf' l :
  marked gdf l -> iteration gdf idx = Py.Ok gdf' -> marked gdf' l.
Proof.
  intros Hm H. apply merge_iteration_inv in H.
  destruct H as [cur [Hi [[_ ->] | [Hd ->]]]]; [exact Hm|].
  assert (marked (mark_duplicates gdf (map sc_name (dups_of gdf cur))) l) as Hm1.
  { intros s Hs. apply In_mark_duplicates in Hs. destruct Hs as [s0 [Hs0 ->]].
    destruct (isin _ l); [reflexivity | apply Hm; exact Hs0]. }
  destruct (_merge_duplicates_cases
              (mark_duplicates gdf (map sc_name (dups_of gdf cur))) cur (dups_of gdf cur))
    as [-> | [d [_ [_ ->]]]]; [exact Hm1|].
  intros s Hs. apply In_loc_set in Hs. destruct Hs as [[-> ->] | [_ Hs]].
  - apply iloc_In in Hi. destruct cur as [lc sc]. simpl in *.
    rewrite (Hm _ Hi) in Hd. discriminate.
  - apply Hm1. exact Hs.
Qed.

Lemma loop_keeps_marked gdf idxs gdf' l :
  marked gdf l -> loop gdf idxs = Py.Ok gdf' -> marked gdf' l.
Proof.
  revert gdf. induction idxs as [|idx rest IH]; simpl; intros gdf Hm H.
  - injection H as <-. exact Hm.
  - destruct (iteration gdf idx) as [g|e] eqn:E; simpl in H; [|discriminate].
    eapply IH; [|exact H]. eapply iteration_keeps_marked; eauto.
Qed.

(** A label flagged during an iteration is still flagged when it ends,
    the table listing no station among its own neighbours. *)
Lemma iteration_marks gdf idx gdf' l :
  (forall i, ~ In i (knn i)) ->
  In l (flagged_by_iteration knn score_threshold max_distance score_weights gdf idx) ->
  iteration gdf idx = Py.Ok gdf' -> marked gdf' l.
Proof.
  intros Hknn Hl H. apply merge_iteration_inv in H.
  destruct H as [cur [Hi [[Hd ->] | [Hd ->]]]].
  - unfold flagged_by_iteration in Hl. rewrite Hi, Hd in Hl. contradiction.
  - rewrite (flagged_by_iteration_run _ _ _ Hi Hd) in Hl.
    assert (l <> name cur) as Hne.
    { intros ->. apply dups_are_neighbours in Hl. apply (Hknn (name cur)). tauto. }
    assert (marked (mark_duplicates gdf (map sc_name (dups_of gdf cur))) l) as Hm1.
    { intros s Hs. apply In_mark_duplicates in Hs. destruct Hs as [s0 [Hs0 ->]].
      apply isin_In in Hl. rewrite Hl. reflexivity. }
    destruct (_merge_duplicates_cases
                (mark_duplicates gdf (map sc_name (dups_of gdf cur))) cur (dups_of gdf cur))
      as [-> | [d [_ [_ ->]]]]; [exact Hm1|].
    intros s Hs. apply In_loc_set in Hs. destruct Hs as [[-> _] | [_ Hs]].
    + contradiction.
    + apply Hm1. exact Hs.
Qed.

Lemma marked_not_in_output gdf l : marked gdf l -> ~ In l (index (not_duplicate gdf)).
Proof.
  intros Hm Hin. unfold index, not_duplicate in Hin.
  apply in_map_iff in Hin. destruct Hin as [[l0 s] [E Hs]]. simpl in E. subst l0.
  apply filter_In in Hs. destruct Hs as [Hs Hd]. simpl in Hd.
  rewrite (Hm _ Hs) in Hd. discriminate.
Qed.

Lemma marked_not_candidate gdf l knn' current_station max_distance' :
  marked gdf l ->
  ~ In l (map cand_name
              (_get_duplicate_candidates gdf knn' current_station max_distance')).
Proof.
  intros Hm Hin. apply in_map_iff in Hin. destruct Hin as [c [<- Hc]].
  apply In_candidates in Hc. destruct Hc as [s0 [Hs0 [_ [Hd _]]]].
  rewrite (Hm _ Hs0) in Hd. discriminate.
Qed.

End Loop.

(** ** Flagged rows *)

(** C1: a row that is flagged [is_duplicate], either already or by the
    iteration being run, is still flagged after that iteration and after any
    number of further iterations; it is therefore absent from the output
    [stations_gdf.loc[~is_duplicate]] and from every frame the Candidate
    Selector returns from then on (the k-neighbour table listing no station
    among its own neighbours). *)
Theorem flagged_rows_stay_excluded {L : Libs} (knn : nat -> list nat)
        (score_threshold max_distance : Q) (score_weights : ScoreWeights)
        (gdf : GeoDataFrame) (idx : nat) (idxs : list nat) (gdf' : GeoDataFrame)
        (l : nat) :
  (forall i, ~ In i (knn i)) ->
  marked gdf l
  \/ In l (flagged_by_iteration knn score_threshold max_distance score_weights gdf idx) ->
  merge_loop knn score_threshold max_distance score_weights gdf (idx :: idxs)
  = Py.Ok gdf' ->
  marked gdf' l
  /\ ~ In l (index (not_duplicate gdf'))
  /\ forall knn' current_station max_distance',
      ~ In l (map cand_name
                  (_get_duplicate_candidates gdf' knn' current_station max_distance')).
Proof.
  intros Hknn Hl H. simpl in H.
  destruct (merge_iteration knn score_threshold max_distance score_weights gdf idx)
    as [g|e] eqn:E; simpl in H; [|discriminate].
  assert (marked g l) as Hg.
  { destruct Hl as [Hl | Hl].
    - eapply iteration_keeps_marked; eauto.
    - eapply iteration_marks; eauto. }
  assert (marked gdf' l) as Hm by (eapply loop_keeps_marked; eauto).
  split; [exact Hm|]. split.
  - apply marked_not_in_output. exact Hm.
  - intros knn' cur maxd'. apply marked_not_candidate. exact Hm.
Qed.

(** C10: the k-neighbour table does not list a station among its own
    neighbours, so [_get_duplicate_candidates] never returns the query
    station, the station is not in the [duplicates] frame scored for it, and
    the iteration that processes it leaves its own row unflagged. *)
Theorem candidate_selector_excludes_self {L : Libs} (knn : nat -> list nat)
        (score_threshold max_distance : Q) (score_weights : ScoreWeights)
        (gdf : GeoDataFrame) (current_station : Row) :
  ~ In (name current_station) (knn (name current_station)) ->
  ~ In (name current_station)
       (map cand_name (_get_duplicate_candidates gdf knn current_station max_distance))
  /\ ~ In (name current_station)
          (map sc_name (iteration_duplicates knn score_threshold max_distance
                                             score_weights gdf current_station))
  /\ forall idx gdf',
      NoDup (index gdf) ->
      iloc gdf idx = Py.Ok current_station ->
      is_duplicate (snd current_station) = false ->
      merge_iteration knn score_threshold max_distance score_weights gdf idx
      = Py.Ok gdf' ->
      forall s, In (name current_station, s) gdf' -> is_duplicate s = false.
Proof.
  intros Hknn.
  assert (~ In (name current_station)
            (map sc_name (iteration_duplicates knn score_threshold max_distance
                                               score_weights gdf current_station))) as Hd.
  { intros H. apply dups_are_neighbours in H. tauto. }
  split; [|split; [exact Hd|]].
  - intros H. apply in_map_iff in H. destruct H as [c [E Hc]].
    apply In_candidates in Hc. destruct Hc as [_ [_ [Hk _]]].
    rewrite E in Hk. contradiction.
  - intros idx gdf' Hnd Hi Hfalse H s Hs.
    rewrite (merge_iteration_run _ _ _ _ _ _ _ Hi Hfalse) in H. injection H as <-.
    set (ds := iteration_duplicates knn score_threshold max_distance score_weights
                                    gdf current_station) in *.
    assert (forall s0, In (name current_station, s0) (mark_duplicates gdf (map sc_name ds)) ->
                       is_duplicate s0 = false) as Hm1.
    { intros s0 Hs0. apply In_mark_duplicates in Hs0. destruct Hs0 as [s1 [Hs1 ->]].
      destruct (isin (map sc_name ds) (name current_station)) eqn:Ein.
      - apply isin_In in Ein. contradiction.
      - apply iloc_In in Hi. destruct current_station as [lc sc]. simpl in *.
        rewrite (NoDup_index_functional _ _ _ _ Hnd Hs1 Hi). exact Hfalse. }
    destruct (_merge_duplicates_cases (mark_duplicates gdf (map sc_name ds))
                                      current_station ds)
      as [E | [d [_ [_ E]]]]; rewrite E in Hs.
    + apply Hm1. exact Hs.
    + apply In_loc_set in Hs. destruct Hs as [[_ ->] | [Hn _]]; [reflexivity|congruence].
Qed.

(** ** Where the rows of the table come from *)

Lemma set_flags_self (s : Station) :
  set_flags s (is_duplicate s) (merged_attributes s) = s.
Proof. destruct s; reflexivity. Qed.

Section Provenance.

Context {L : Libs}.
Variable knn : nat -> list nat.
Variables score_threshold max_distance : Q.
Variable score_weights : ScoreWeights.

Local Abbreviation iteration := (merge_iteration knn score_threshold max_distance score_weights).
Local Abbreviation loop := (merge_loop knn score_threshold max_distance score_weights).
Local Abbreviation dups_of := (iteration_duplicates knn score_threshold max_distance score_weights).

(** Rows of the [duplicates] frame carry the fields of rows of the table. *)
Lemma dups_rows gdf current_station d :
  In d (dups_of gdf current_station) ->
  exists s0, In (sc_name d, s0) gdf
             /\ set_flags (sc_station d) false true = set_flags s0 false true.
Proof.
  intros Hd. apply In_determine_duplicates in Hd.
  destruct Hd as [c [Hc [En [_ [_ Hs]]]]].
  apply In_candidates in Hc. destruct Hc as [_ [_ [_ [_ [_ [_ Hin]]]]]].
  exists (cand_station c). rewrite En. split; [exact Hin|].
  destruct Hs as [-> | ->]; reflexivity.
Qed.

(** Every row after an iteration is a row from before it, flags aside. *)
Lemma iteration_rows gdf idx gdf' l s :
  iteration gdf idx = Py.Ok gdf' ->
  In (l, s) gdf' ->
  exists l0 s0 dup merged, In (l0, s0) gdf /\ s = set_flags s0 dup merged.
Proof.
  intros H Hs. apply merge_iteration_inv in H.
  destruct H as [cur [Hi [[_ ->] | [Hd ->]]]].
  - exists l, s, (is_duplicate s), (merged_attributes s).
    split; [exact Hs | symmetry; apply set_flags_self].
  - assert (forall l1 s1, In (l1, s1) (mark_duplicates gdf (map sc_name (dups_of gdf cur))) ->
                          exists l0 s0 dup merged,
                            In (l0, s0) gdf /\ s1 = set_flags s0 dup merged) as Hm1.
    { intros l1 s1 H1. apply In_mark_duplicates in H1. destruct H1 as [s0 [Hs0 ->]].
      destruct (isin _ l1).
      - exists l1, s0, true, (merged_attributes s0). split; [exact Hs0 | reflexivity].
      - exists l1, s0, (is_duplicate s0), (merged_attributes s0).
        split; [exact Hs0 | symmetry; apply set_flags_self]. }
    destruct (_merge_duplicates_cases
                (mark_duplicates gdf (map sc_name (dups_of gdf cur))) cur (dups_of gdf cur))
      as [E | [d [Hin [_ E]]]]; rewrite E in Hs.
    + eapply Hm1; eauto.
    + apply In_loc_set in Hs. destruct Hs as [[_ ->] | [_ Hs]].
      * apply dups_rows in Hin. destruct Hin as [s0 [Hs0 Ef]].
        exists (sc_name d), s0, false, true. split; [exact Hs0 | exact Ef].
      * eapply Hm1; eauto.
Qed.

Lemma loop_rows gdf idxs gdf' l s :
  loop gdf idxs = Py.Ok gdf' ->
  In (l, s) gdf' ->
  exists l0 s0 dup merged, In (l0, s0) gdf /\ s = set_flags s0 dup merged.
Proof.
  revert gdf. induction idxs as [|idx rest IH]; simpl; intros gdf H Hs.
  - injection H as <-. exists l, s, (is_duplicate s), (merged_attributes s).
    split; [exact Hs | symmetry; apply set_flags_self].
  - destruct (iteration gdf idx) as [g|e] eqn:E; simpl in H; [|discriminate].
    destruct (IH _ H Hs) as [l1 [s1 [dup1 [m1 [H1 ->]]]]].
    destruct (iteration_rows _ _ _ _ _ E H1) as [l0 [s0 [dup0 [m0 [H0 ->]]]]].
    exists l0, s0, dup1, m1. split; [exact H0 | reflexivity].
Qed.

(** A BNA row is never overwritten: an iteration can only flag it. *)
Lemma iteration_keeps_bna gdf idx gdf' l s :
  NoDup (index gdf) ->
  In (l, s) gdf ->
  data_source s = "BNA" ->
  iteration gdf idx = Py.Ok gdf' ->
  exists dup, In (l, set_is_duplicate s dup) gdf'.
Proof.
  intros Hnd Hs Hb H. apply merge_iteration_inv in H.
  destruct H as [cur [Hi [[_ ->] | [Hd ->]]]].
  - exists (is_duplicate s). unfold set_is_duplicate. rewrite set_flags_self. exact Hs.
  - assert (exists dup, In (l, set_is_duplicate s dup)
                           (mark_duplicates gdf (map sc_name (dups_of gdf cur)))) as Hm1.
    { destruct (isin (map sc_name (dups_of gdf cur)) l) eqn:Ein.
      - exists true. apply In_mark_duplicates. exists s. rewrite Ein. auto.
      - exists (is_duplicate s). apply In_mark_duplicates. exists s. rewrite Ein.
        unfold set_is_duplicate. rewrite set_flags_self. auto. }
    destruct Hm1 as [dup Hm1]. exists dup.
    destruct (_merge_duplicates_cases
                (mark_duplicates gdf (map sc_name (dups_of gdf cur))) cur (dups_of gdf cur))
      as [-> | [d [_ [Hnb ->]]]]; [exact Hm1|].
    apply loc_set_other; [|exact Hm1].
    intros ->. apply iloc_In in Hi. destruct cur as [lc sc]. simpl in *.
    rewrite (NoDup_index_functional _ _ _ _ Hnd Hi Hs) in Hnb. contradiction.
Qed.

Lemma loop_keeps_bna gdf idxs gdf' l s :
  NoDup (index gdf) ->
  In (l, s) gdf ->
  data_source s = "BNA" ->
  loop gdf idxs = Py.Ok gdf' ->
  exists dup, In (l, set_is_duplicate s dup) gdf'.
Proof.
  revert gdf s. induction idxs as [|idx rest IH]; simpl; intros gdf s Hnd Hs Hb H.
  - injection H as <-. exists (is_duplicate s).
    unfold set_is_duplicate. rewrite set_flags_self. exact Hs.
  - destruct (iteration gdf idx) as [g|e] eqn:E; simpl in H; [|discriminate].
    destruct (iteration_keeps_bna _ _ _ _ _ Hnd Hs Hb E) as [dup1 H1].
    assert (NoDup (index g)) as Hndg.
    { rewrite (iteration_index _ _ _ _ _ _ _ E). exact Hnd. }
    destruct (IH g _ Hndg H1 Hb H) as [dup2 H2].
    exists dup2. exact H2.
Qed.

End Provenance.

(** ** Identifiers of the unflagged rows *)

(** Dropping rows keeps the keys of the remaining rows distinct. *)
Lemma NoDup_map_filter {V K : Type} (key : V -> K) (keep : V -> bool) :
  forall rows : list V, NoDup (map key rows) -> NoDup (map key (filter keep rows)).
Proof.
  intros rows. induction rows as [|r rows IH]; intros Hkeys; simpl; [constructor|].
  apply NoDup_cons_iff in Hkeys. destruct Hkeys as [Hfresh Hrest].
  destruct (keep r); simpl; [|exact (IH Hrest)].
  apply NoDup_cons; [|exact (IH Hrest)].
  intros Hin. apply Hfresh. apply in_map_iff in Hin.
  destruct Hin as [r' [E Hr']]. apply filter_In in Hr'.
  rewrite <- E. apply in_map. tauto.
Qed.

Lemma NoDup_map_inj {A B : Type} (f : A -> B) (l : list A) (a b : A) :
  NoDup (map f l) -> In a l -> In b l -> f a = f b -> a = b.
Proof.
  induction l as [|c l IH]; simpl; intros H Ha Hb E; [contradiction|].
  inversion H as [|? ? Hnotin Hnd]; subst.
  destruct Ha as [-> | Ha], Hb as [-> | Hb]; auto.
  - exfalso. apply Hnotin. rewrite E. apply in_map. exact Hb.
  - exfalso. apply Hnotin. rewrite <- E. apply in_map. exact Ha.
Qed.

(** Overwriting the entry of one key by a fresh value keeps values distinct. *)
Lemma NoDup_map_replace {B : Type} (f : Row -> B) (c : nat) (v : B) (l : list Row) :
  NoDup (map fst l) ->
  NoDup (map f l) ->
  ~ In v (map f l) ->
  NoDup (map (fun r => if Nat.eqb (fst r) c then v else f r) l).
Proof.
  induction l as [|r l IH]; simpl; intros Hk Hf Hv; [constructor|].
  inversion Hk as [|? ? Hknot Hk']; inversion Hf as [|? ? Hfnot Hf']; subst.
  assert (forall y, In y (map (fun r0 => if Nat.eqb (fst r0) c then v else f r0) l) ->
                    y = v \/ In y (map f l)) as Hcases.
  { intros y Hy. apply in_map_iff in Hy. destruct Hy as [r0 [E H0]].
    destruct (Nat.eqb (fst r0) c); [left; congruence|].
    right. rewrite <- E. apply in_map. exact H0. }
  constructor; [|apply IH; auto].
  destruct (Nat.eqb (fst r) c) eqn:Ec.
  - intros Hin. apply in_map_iff in Hin. destruct Hin as [r0 [E H0]].
    destruct (Nat.eqb (fst r0) c) eqn:E0.
    + apply Nat.eqb_eq in Ec, E0. apply Hknot. rewrite Ec, <- E0.
      apply in_map. exact H0.
    + apply Hv. right. rewrite <- E. apply in_map. exact H0.
  - intros Hin. destruct (Hcases _ Hin) as [E | Hin']; [|contradiction].
    apply Hv. left. exact E.
Qed.

Lemma not_duplicate_mark (gdf : GeoDataFrame) (ls : list nat) :
  not_duplicate (mark_duplicates gdf ls)
  = filter (fun r => negb (isin ls (fst r))) (not_duplicate gdf).
Proof.
  unfold not_duplicate, mark_duplicates.
  induction gdf as [|[l s] gdf IH]; simpl; [reflexivity|].
  fold (isin ls l). destruct (isin ls l) eqn:Ein; simpl.
  - destruct (is_duplicate s); simpl; [exact IH|]. rewrite Ein. simpl. exact IH.
  - destruct (is_duplicate s); simpl; [exact IH|]. rewrite Ein. simpl. f_equal. exact IH.
Qed.

Lemma not_duplicate_loc_set (gdf : GeoDataFrame) (c : nat) (x : Station) :
  In c (index gdf) ->
  is_duplicate x = false ->
  (forall s, In (c, s) gdf -> is_duplicate s = false) ->
  not_duplicate (loc_set gdf c x)
  = map (fun r => if Nat.eqb (fst r) c then (c, x) else r) (not_duplicate gdf).
Proof.
  intros Hc Hx Hrows. unfold loc_set. fold (isin (index gdf) c).
  apply isin_In in Hc. rewrite Hc. clear Hc. unfold not_duplicate.
  induction gdf as [|[l s] gdf IH]; simpl; [reflexivity|].
  destruct (Nat.eqb l c) eqn:Ec; simpl.
  - apply Nat.eqb_eq in Ec. subst l.
    rewrite Hx, (Hrows s) by (left; reflexivity). simpl.
    rewrite Nat.eqb_refl. f_equal. apply IH. intros s0 H0. apply Hrows. right. exact H0.
  - destruct (is_duplicate s); simpl.
    + apply IH. intros s0 H0. apply Hrows. right. exact H0.
    + rewrite Ec. f_equal. apply IH. intros s0 H0. apply Hrows. right. exact H0.
Qed.

Lemma In_not_duplicate (gdf : GeoDataFrame) (l : nat) (s : Station) :
  In (l, s) (not_duplicate gdf) <-> In (l, s) gdf /\ is_duplicate s = false.
Proof.
  unfold not_duplicate. rewrite filter_In. simpl. rewrite negb_true_iff. tauto.
Qed.

Lemma In_ids (gdf : GeoDataFrame) (i : string) :
  In i (ids gdf) <-> exists l s, In (l, s) gdf /\ id s = i.
Proof.
  unfold ids. rewrite in_map_iff. split.
  - intros [[l s] [E H]]. exists l, s. auto.
  - intros [l [s [H E]]]. exists (l, s). auto.
Qed.

Section Identifiers.

Context {L : Libs}.
Variable knn : nat -> list nat.
Variables score_threshold max_distance : Q.
Variable score_weights : ScoreWeights.
Hypothesis knn_irreflexive : forall i, ~ In i (knn i).

Local Abbreviation iteration := (merge_iteration knn score_threshold max_distance score_weights).
Local Abbreviation loop := (merge_loop knn score_threshold max_distance score_weights).
Local Abbreviation dups_of := (iteration_duplicates knn score_threshold max_distance score_weights).

(** The current row is untouched by the flagging of its duplicates. *)
Lemma current_row_after_marking gdf current_station s :
  NoDup (index gdf) ->
  In current_station gdf ->
  In (name current_station, s)
     (mark_duplicates gdf (map sc_name (dups_of gdf current_station))) ->
  s = snd current_station.
Proof.
  intros Hnd Hcur Hs. apply In_mark_duplicates in Hs. destruct Hs as [s1 [Hs1 ->]].
  destruct (isin _ (name current_station)) eqn:Ein.
  - apply isin_In, dups_are_neighbours in Ein. exfalso.
    apply (knn_irreflexive (name current_station)). tauto.
  - destruct current_station as [lc sc]. simpl in *.
    eapply NoDup_index_functional; eauto.
Qed.

(** No identifier enters the set of unflagged rows. *)
Lemma iteration_ids_incl gdf idx gdf' :
  NoDup (index gdf) ->
  iteration gdf idx = Py.Ok gdf' ->
  incl (ids (not_duplicate gdf')) (ids (not_duplicate gdf)).
Proof.
  intros Hnd H. apply merge_iteration_inv in H.
  destruct H as [cur [Hi [[_ ->] | [Hd ->]]]]; [apply incl_refl|].
  intros i Hin. apply In_ids in Hin. destruct Hin as [l [s [Hs <-]]].
  apply In_not_duplicate in Hs. destruct Hs as [Hs Hflag].
  assert (forall l1 s1, In (l1, s1) (mark_duplicates gdf (map sc_name (dups_of gdf cur))) ->
                        is_duplicate s1 = false ->
                        In (id s1) (ids (not_duplicate gdf))) as Hm1.
  { intros l1 s1 H1 Hf. apply In_mark_duplicates in H1. destruct H1 as [s0 [Hs0 E]].
    destruct (isin _ l1); subst s1; [discriminate|].
    apply In_ids. exists l1, s0. split; [|reflexivity].
    apply In_not_duplicate. auto. }
  destruct (_merge_duplicates_cases
              (mark_duplicates gdf (map sc_name (dups_of gdf cur))) cur (dups_of gdf cur))
    as [E | [d [Hin [_ E]]]]; rewrite E in Hs.
  - eapply Hm1; eauto.
  - apply In_loc_set in Hs. destruct Hs as [[_ ->] | [_ Hs]]; [|eapply Hm1; eauto].
    apply duplicates_from_frame in Hin; [|exact Hnd].
    destruct Hin as [s0 [Hs0 [Hf0 [_ Es]]]].
    apply In_ids. exists (sc_name d), s0. split.
    + apply In_not_duplicate. auto.
    + rewrite Es. reflexivity.
Qed.

(** The identifiers of the unflagged rows stay pairwise distinct. *)
Lemma iteration_ids_nodup gdf idx gdf' :
  NoDup (index gdf) ->
  NoDup (ids (not_duplicate gdf)) ->
  iteration gdf idx = Py.Ok gdf' ->
  NoDup (ids (not_duplicate gdf')).
Proof.
  intros Hnd Hids H. apply merge_iteration_inv in H.
  destruct H as [cur [Hi [[_ ->] | [Hd ->]]]]; [exact Hids|].
  set (ds := dups_of gdf cur) in *.
  set (g1 := mark_duplicates gdf (map sc_name ds)).
  assert (NoDup (ids (not_duplicate g1))) as Hids1.
  { unfold g1. rewrite not_duplicate_mark. apply NoDup_map_filter. exact Hids. }
  destruct (_merge_duplicates_cases g1 cur ds) as [-> | [d [Hin [_ ->]]]];
    [exact Hids1|].
  pose proof (iloc_In _ _ _ Hi) as Hcur.
  rewrite not_duplicate_loc_set.
  - unfold ids. rewrite map_map. simpl.
    rewrite (map_ext _ (fun r => if Nat.eqb (fst r) (name cur)
                                 then id (set_flags (sc_station d) false true)
                                 else id (snd r)))
      by (intros r; destruct (Nat.eqb (fst r) (name cur)); reflexivity).
    apply NoDup_map_replace.
    + unfold g1. rewrite not_duplicate_mark. apply NoDup_map_filter.
      unfold not_duplicate. apply NoDup_map_filter. exact Hnd.
    + exact Hids1.
    + fold (ids (not_duplicate g1)). unfold g1. rewrite not_duplicate_mark.
      intros Hv. apply in_map_iff in Hv. destruct Hv as [[l s] [E Hr]].
      apply filter_In in Hr. destruct Hr as [Hr Hnotin]. simpl in E, Hnotin.
      pose proof Hin as Hfr.
      apply duplicates_from_frame in Hfr; [|exact Hnd].
      destruct Hfr as [s0 [Hs0 [Hf0 [_ Es]]]].
      rewrite Es in E. simpl in E.
      assert ((l, s) = (sc_name d, s0)) as Er.
      { apply (NoDup_map_inj (fun r => id (snd r)) (not_duplicate gdf)); auto.
        apply In_not_duplicate. auto. }
      injection Er as -> ->.
      apply negb_true_iff in Hnotin.
      assert (isin (map sc_name ds) (sc_name d) = true) as Habs; [|congruence].
      apply isin_In, in_map. exact Hin.
  - unfold g1. rewrite index_mark_duplicates. destruct cur as [lc sc]. eapply In_index; eauto.
  - reflexivity.
  - intros s Hs. rewrite (current_row_after_marking _ _ _ Hnd Hcur Hs). exact Hd.
Qed.

Lemma loop_ids_incl gdf idxs gdf' :
  NoDup (index gdf) ->
  loop gdf idxs = Py.Ok gdf' ->
  incl (ids (not_duplicate gdf')) (ids (not_duplicate gdf)).
Proof.
  revert gdf. induction idxs as [|idx rest IH]; simpl; intros gdf Hnd H.
  - injection H as <-. apply incl_refl.
  - destruct (iteration gdf idx) as [g|e] eqn:E; simpl in H; [|discriminate].
    eapply incl_tran; [|eapply iteration_ids_incl; eauto].
    apply IH; [|exact H].
    rewrite (iteration_index _ _ _ _ _ _ _ E). exact Hnd.
Qed.

Lemma loop_ids_nodup gdf idxs gdf' :
  NoDup (index gdf) ->
  NoDup (ids (not_duplicate gdf)) ->
  loop gdf idxs = Py.Ok gdf' ->
  NoDup (ids (not_duplicate gdf')).
Proof.
  revert gdf. induction idxs as [|idx rest IH]; simpl; intros gdf Hnd Hids H.
  - injection H as <-. exact Hids.
  - destruct (iteration gdf idx) as [g|e] eqn:E; simpl in H; [|discriminate].
    apply (IH g); [| |exact H].
    + rewrite (iteration_index _ _ _ _ _ _ _ E). exact Hnd.
    + eapply iteration_ids_nodup; eauto.
Qed.

(** Once a row has been overwritten, its former identifier is carried by
    no unflagged row. *)
Lemma replacement_drops_id gdf current_station d :
  NoDup (index gdf) ->
  NoDup (ids (not_duplicate gdf)) ->
  In current_station gdf ->
  is_duplicate (snd current_station) = false ->
  In d (dups_of gdf current_station) ->
  sc_name d <> name current_station
  /\ id (sc_station d) <> id (snd current_station)
  /\ ~ In (id (snd current_station))
          (ids (not_duplicate
                  (loc_set (mark_duplicates gdf (map sc_name (dups_of gdf current_station)))
                           (name current_station)
                           (set_flags (sc_station d) false true)))).
Proof.
  intros Hnd Hids Hcur Hflag Hin.
  destruct current_station as [lc sc]. simpl in *.
  pose proof Hin as Hfr.
  apply duplicates_from_frame in Hfr; [|exact Hnd].
  destruct Hfr as [s0 [Hs0 [Hf0 [Hk Es]]]]. simpl in Hk.
  assert (sc_name d <> lc) as Hne.
  { intros E. rewrite E in Hk. exact (knn_irreflexive lc Hk). }
  assert (forall l s, In (l, s) gdf -> is_duplicate s = false ->
                      id s = id sc -> l = lc) as Honly.
  { intros l s Hs Hf E.
    assert ((l, s) = (lc, sc)) as Er.
    { apply (NoDup_map_inj (fun r => id (snd r)) (not_duplicate gdf)); auto;
        apply In_not_duplicate; auto. }
    congruence. }
  assert (id (sc_station d) <> id sc) as Hid.
  { intros E. apply Hne. apply (Honly _ s0 Hs0 Hf0). rewrite Es in E. exact E. }
  split; [exact Hne|]. split; [exact Hid|].
  intros Habs. apply In_ids in Habs. destruct Habs as [l [s [Hs E]]].
  apply In_not_duplicate in Hs. destruct Hs as [Hs Hf].
  apply In_loc_set in Hs. destruct Hs as [[_ ->] | [Hl Hs]].
  - apply Hid. exact E.
  - apply In_mark_duplicates in Hs. destruct Hs as [s1 [Hs1 Es1]].
    destruct (isin _ l); subst s; [discriminate|].
    apply Hl. eapply Honly; eauto.
Qed.

End Identifiers.

(** ** Replacement *)

(** C9: when [_merge_duplicates] replaces a current station that is not BNA,
    the row written at its label is the winning duplicate's row, identifier
    and [data_source] included, with [is_duplicate = false] and
    [merged_attributes = true]; the winning duplicate's own row is flagged
    [is_duplicate], so the surviving row carries the identifier of a flagged
    record, while the identifier the current station had is carried by no
    unflagged row from then on, the final output included. *)
Theorem replacement_carries_winner_identifier {L : Libs} (knn : nat -> list nat)
        (score_threshold max_distance : Q) (score_weights : ScoreWeights)
        (gdf0 : GeoDataFrame) (pre : list nat) (gdf : GeoDataFrame) (idx : nat)
        (current_station : Row) (d : ScoredCandidate)
        (gdf1 : GeoDataFrame) (idxs : list nat) (gdf' : GeoDataFrame) :
  (forall i, ~ In i (knn i)) ->
  NoDup (index gdf0) ->
  NoDup (ids (not_duplicate gdf0)) ->
  merge_loop knn score_threshold max_distance score_weights gdf0 pre = Py.Ok gdf ->
  iloc gdf idx = Py.Ok current_station ->
  is_duplicate (snd current_station) = false ->
  data_source (snd current_station) <> "BNA" ->
  first_pairing_picks
    (snd current_station)
    (iteration_duplicates knn score_threshold max_distance score_weights gdf current_station)
    d ->
  merge_iteration knn score_threshold max_distance score_weights gdf idx = Py.Ok gdf1 ->
  merge_loop knn score_threshold max_distance score_weights gdf1 idxs = Py.Ok gdf' ->
  In (name current_station, set_flags (sc_station d) false true) gdf1
  /\ (forall s, In (name current_station, s) gdf1 ->
                s = set_flags (sc_station d) false true
                /\ id s = id (sc_station d)
                /\ data_source s = data_source (sc_station d))
  /\ (exists s0, In (sc_name d, s0) gdf
                 /\ is_duplicate s0 = false
                 /\ sc_station d = set_is_duplicate s0 true)
  /\ sc_name d <> name current_station
  /\ marked gdf1 (sc_name d)
  /\ In (id (sc_station d)) (ids (not_duplicate gdf1))
  /\ id (sc_station d) <> id (snd current_station)
  /\ ~ In (id (snd current_station)) (ids (not_duplicate gdf1))
  /\ ~ In (id (snd current_station)) (ids (not_duplicate gdf')).
Proof.
  intros Hknn Hnd0 Hids0 Hpre Hi Hflag Hb Hpick Hit Hloop.
  assert (NoDup (index gdf)) as Hnd
    by (rewrite (loop_index _ _ _ _ _ _ _ Hpre); exact Hnd0).
  assert (NoDup (ids (not_duplicate gdf))) as Hids
    by (exact (loop_ids_nodup knn score_threshold max_distance score_weights Hknn
                              gdf0 pre gdf Hnd0 Hids0 Hpre)).
  pose proof (iloc_In _ _ _ Hi) as Hcur.
  pose proof (first_pairing_member _ _ _ Hpick) as Hin.
  pose proof Hit as Hrun.
  rewrite (merge_iteration_run _ _ _ _ _ _ _ Hi Hflag) in Hrun.
  rewrite (_merge_duplicates_first _ _ _ _ Hb Hpick) in Hrun.
  injection Hrun as Hrun.
  destruct (replacement_drops_id knn score_threshold max_distance score_weights Hknn
                                 gdf current_station d Hnd Hids Hcur Hflag Hin)
    as [Hne [Hid Hdrop]].
  rewrite Hrun in Hdrop.
  pose proof Hin as Hfr.
  apply duplicates_from_frame in Hfr; [|exact Hnd].
  destruct Hfr as [s0 [Hs0 [Hf0 [_ Es]]]].
  assert (In (name current_station, set_flags (sc_station d) false true) gdf1) as Hrow
    by (rewrite <- Hrun; apply loc_set_label).
  split; [exact Hrow|]. split.
  { intros s Hs. rewrite <- Hrun in Hs. apply In_loc_set in Hs.
    destruct Hs as [[_ ->] | [Hn _]]; [|congruence]. repeat split. }
  split; [exists s0; auto|]. split; [exact Hne|]. split.
  { eapply iteration_marks; [exact Hknn| |exact Hit].
    rewrite (flagged_by_iteration_run _ _ _ _ _ _ _ Hi Hflag).
    apply in_map. exact Hin. }
  split.
  { apply In_ids. exists (name current_station), (set_flags (sc_station d) false true).
    split; [|reflexivity]. apply In_not_duplicate. auto. }
  split; [exact Hid|]. split; [exact Hdrop|].
  intros Habs. apply Hdrop.
  eapply loop_ids_incl; [|exact Hloop|exact Habs].
  rewrite (iteration_index _ _ _ _ _ _ _ Hit). exact Hnd.
Qed.

(** ** Preparation of the working table *)

Lemma drop_duplicates_incl (seen : list string) (rows : list Station) (s : Station) :
  In s (drop_duplicates seen rows) -> In s rows /\ ~ In (id s) seen.
Proof.
  revert seen. induction rows as [|r rows IH]; simpl; intros seen H; [contradiction|].
  destruct (existsb (String.eqb (id r)) seen) eqn:E.
  - destruct (IH _ H). auto.
  - destruct H as [-> | H].
    + split; [left; reflexivity|]. intros Hin.
      assert (existsb (String.eqb (id s)) seen = true) as Habs; [|congruence].
      apply existsb_exists. exists (id s). split; [exact Hin | apply String.eqb_refl].
    + destruct (IH _ H) as [H1 H2]. split; [right; exact H1|].
      intros Hin. apply H2. right. exact Hin.
Qed.

Lemma drop_duplicates_NoDup (seen : list string) (rows : list Station) :
  NoDup (map id (drop_duplicates seen rows)).
Proof.
  revert seen. induction rows as [|r rows IH]; simpl; intros seen; [constructor|].
  destruct (existsb (String.eqb (id r)) seen); [apply IH|].
  simpl. constructor; [|apply IH].
  intros Hin. apply in_map_iff in Hin. destruct Hin as [s [E Hs]].
  apply drop_duplicates_incl in Hs. destruct Hs as [_ Hs].
  apply Hs. left. symmetry. exact E.
Qed.

Lemma index_reset_index (rows : list Station) :
  index (reset_index rows) = seq 0 (List.length rows).
Proof.
  unfold index, reset_index. generalize 0%nat.
  induction rows as [|r rows IH]; simpl; intros n; [reflexivity|].
  f_equal. apply IH.
Qed.

Lemma ids_reset_index (rows : list Station) :
  ids (reset_index rows) = map id rows.
Proof.
  unfold ids, reset_index. generalize 0%nat.
  induction rows as [|r rows IH]; simpl; intros n; [reflexivity|].
  f_equal. apply IH.
Qed.

Lemma In_reset_index (rows : list Station) (l : nat) (s : Station) :
  In (l, s) (reset_index rows) -> In s rows.
Proof. unfold reset_index. apply in_combine_r. Qed.

Lemma not_duplicate_all (gdf : GeoDataFrame) :
  (forall l s, In (l, s) gdf -> is_duplicate s = false) -> not_duplicate gdf = gdf.
Proof.
  unfold not_duplicate. induction gdf as [|[l s] gdf IH]; simpl; intros H; [reflexivity|].
  rewrite (H l s) by (left; reflexivity). simpl. apply f_equal.
  apply IH. intros l0 s0 H0. eapply H. right. exact H0.
Qed.

Section Preparation.

Context {L : Libs}.

(** The rows the preparation step keeps, before they are shuffled. *)
Lemma prepared_row (ds : list StationDict) (s : Station) :
  In s (filter (fun s => notna (operator s) && notna (socket_type_list (charging s)))
               (drop_duplicates [] (flat_map normalize_row ds))) ->
  operator s <> None
  /\ socket_type_list (charging s) <> None
  /\ is_duplicate s = false
  /\ merged_attributes s = false
  /\ exists sd, In sd ds
                /\ wkt_loads (sd_coordinates sd) = Some (geometry s)
                /\ sd_id sd = id s
                /\ sd_data_source sd = data_source s
                /\ sd_address sd = address s
                /\ sd_charging sd = charging s
                /\ sd_operator sd = operator s.
Proof.
  intros H. apply filter_In in H. destruct H as [H Hp].
  apply andb_true_iff in Hp. destruct Hp as [Ho Hsock].
  apply drop_duplicates_incl in H. destruct H as [H _].
  apply in_flat_map in H. destruct H as [sd [Hsd Hs]].
  unfold normalize_row, get_wkt in Hs.
  destruct (wkt_loads (sd_coordinates sd)) as [g|] eqn:Eg; [|contradiction].
  destruct Hs as [<- | []]. simpl in *.
  split; [destruct (sd_operator sd); [discriminate | discriminate]|].
  split; [destruct (socket_type_list (sd_charging sd)); discriminate|].
  split; [reflexivity|]. split; [reflexivity|].
  exists sd. repeat split; auto.
Qed.

Lemma _prepare_geodataframe_rows (self : Merger) (gdf : GeoDataFrame) (l : nat) (s : Station) :
  (forall g, incl (sample g) g) ->
  _prepare_geodataframe self = Py.Ok gdf ->
  In (l, s) gdf ->
  operator s <> None
  /\ socket_type_list (charging s) <> None
  /\ is_duplicate s = false
  /\ merged_attributes s = false
  /\ exists sd, In sd (data_sources self)
                /\ wkt_loads (sd_coordinates sd) = Some (geometry s)
                /\ sd_id sd = id s
                /\ sd_data_source sd = data_source s
                /\ sd_address sd = address s
                /\ sd_charging sd = charging s
                /\ sd_operator sd = operator s.
Proof.
  intros Hsample H Hs. unfold _prepare_geodataframe in H.
  destruct (data_sources self) as [|sd0 ds] eqn:Eds; [discriminate|].
  injection H as <-. apply Hsample in Hs. apply In_reset_index in Hs.
  apply (prepared_row (sd0 :: ds)). exact Hs.
Qed.

Lemma _prepare_geodataframe_unique (self : Merger) (gdf : GeoDataFrame) :
  (forall g, Permutation (sample g) g) ->
  _prepare_geodataframe self = Py.Ok gdf ->
  NoDup (index gdf) /\ NoDup (ids (not_duplicate gdf)).
Proof.
  intros Hsample H.
  assert (forall l s, In (l, s) gdf -> is_duplicate s = false) as Hflags.
  { intros l s Hs.
    eapply (_prepare_geodataframe_rows self gdf l s); eauto.
    intros g r Hr. eapply Permutation_in; [apply Hsample | exact Hr]. }
  rewrite (not_duplicate_all _ Hflags).
  unfold _prepare_geodataframe in H.
  destruct (data_sources self) as [|sd0 ds] eqn:Eds; [discriminate|].
  injection H as <-. split.
  - eapply Permutation_NoDup.
    + apply Permutation_sym. unfold index. apply Permutation_map. apply Hsample.
    + fold (index (reset_index
                    (filter (fun s => notna (operator s)
                                      && notna (socket_type_list (charging s)))
                            (drop_duplicates [] (flat_map normalize_row (sd0 :: ds)))))).
      rewrite index_reset_index. apply seq_NoDup.
  - eapply Permutation_NoDup.
    + apply Permutation_sym. unfold ids. apply Permutation_map. apply Hsample.
    + fold (ids (reset_index
                  (filter (fun s => notna (operator s)
                                    && notna (socket_type_list (charging s)))
                          (drop_duplicates [] (flat_map normalize_row (sd0 :: ds)))))).
      rewrite ids_reset_index. apply NoDup_map_filter. apply drop_duplicates_NoDup.
Qed.

(** The records [merge] works on and its log, once the list argument is
    checked and, without a list, the data folder is read. *)
Lemma merge_unfold fs self stations_list score_threshold max_distance score_weights r :
  merge fs self stations_list score_threshold max_distance score_weights = r ->
  (exists e, r = ([], Py.Raise e) /\ stations_list = Some [])
  \/ exists self',
      snd r
      = (gdf <- _prepare_geodataframe self' ;;
         knn <- KNN_from_dataframe gdf 40 ;;
         gdf' <- merge_loop knn score_threshold max_distance
                            match score_weights with
                            | Some w => w
                            | None => default_score_weights
                            end gdf (seq 0 (List.length gdf)) ;;
         Py.Ok (mkMerger (base_path self') (data_sources self')
                         (Some gdf') (Some knn) (Some (not_duplicate gdf'))))
      /\ (forall l, stations_list = Some l -> data_sources self' = l).
Proof.
  unfold merge. intros <-.
  destruct stations_list as [l|].
  - destruct l as [|sd l].
    + left. eexists. split; reflexivity.
    + right. exists (with_data_sources self (sd :: l)). split; [reflexivity|].
      intros l0 E. injection E as <-. reflexivity.
  - right. cbn [notna negb andb].
    destruct (if (List.length (data_sources self) <? 1)%nat
              then match _load_data fs self false with
                   | (self0, Py.Ok _) => (self0, [])
                   | (self0, Py.Raise anyErr) =>
                       (self0, [("Could not load the processed station files! "
                                 ++ Py.exn_str anyErr)%string])
                   end
              else (self, [])) as [self' lg].
    exists self'. split; [reflexivity|]. discriminate.
Qed.

(** The shape of a run of [merge] that returns. *)
Lemma merge_inv fs self stations_list score_threshold max_distance score_weights log m :
  merge fs self stations_list score_threshold max_distance score_weights
  = (log, Py.Ok m) ->
  exists self' gdf knn gdf',
    _prepare_geodataframe self' = Py.Ok gdf
    /\ KNN_from_dataframe gdf 40 = Py.Ok knn
    /\ merge_loop knn score_threshold max_distance
                  match score_weights with
                  | Some w => w
                  | None => default_score_weights
                  end gdf (seq 0 (List.length gdf)) = Py.Ok gdf'
    /\ data_sources m = data_sources self'
    /\ stations_gdf m = Some gdf'
    /\ merged_stations_gdf m = Some (not_duplicate gdf')
    /\ (forall l, stations_list = Some l -> data_sources self' = l).
Proof.
  intros H. apply merge_unfold in H.
  destruct H as [[e [H _]]|[self' [H Hl]]]; [discriminate H|].
  cbn [snd] in H.
  destruct (_prepare_geodataframe self') as [gdf|e] eqn:Ep; [|discriminate H].
  cbn [Py.bind] in H.
  destruct (KNN_from_dataframe gdf 40) as [knn|e] eqn:Ek; [|discriminate H].
  cbn [Py.bind] in H.
  destruct (merge_loop knn score_threshold max_distance _ gdf (seq 0 (List.length gdf)))
    as [gdf'|e] eqn:El; [|discriminate H].
  cbn [Py.bind] in H. injection H as Em. subst m.
  exists self', gdf, knn, gdf'. cbn. repeat split; auto.
Qed.

(** Given a list that is not empty, [merge] gets as far as the k-neighbour
    table: it returns when the library returns one, and raises the library's
    exception otherwise. *)
Lemma merge_returns fs self l score_threshold max_distance score_weights :
  l <> [] ->
  exists gdf,
    _prepare_geodataframe (with_data_sources self l) = Py.Ok gdf
    /\ (forall knn, KNN_from_dataframe gdf 40 = Py.Ok knn ->
                    exists m, snd (merge fs self (Some l) score_threshold max_distance
                                         score_weights) = Py.Ok m)
    /\ (forall e, KNN_from_dataframe gdf 40 = Py.Raise e ->
                  snd (merge fs self (Some l) score_threshold max_distance score_weights)
                  = Py.Raise e).
Proof.
  intros Hl. destruct l as [|sd l]; [congruence|].
  unfold merge. cbn [List.length Nat.ltb Nat.leb notna negb andb snd].
  unfold _prepare_geodataframe. cbn [with_data_sources data_sources Py.bind].
  eexists. split; [reflexivity|]. split.
  - intros knn Ek. rewrite Ek. cbn [Py.bind].
    match goal with
    | |- context [merge_loop ?k ?t ?m ?w ?g ?idxs] =>
        destruct (loop_total k t m w g idxs) as [gdf' Hloop]
    end.
    { apply Forall_forall. intros idx Hidx. apply in_seq in Hidx. lia. }
    rewrite Hloop. cbn [Py.bind]. eexists. reflexivity.
  - intros e Ek. rewrite Ek. reflexivity.
Qed.

(** The frames of a run have unique labels, and the unflagged rows have
    pairwise distinct identifiers. *)
Lemma merge_frames_unique fs self stations_list score_threshold max_distance
      score_weights log m :
  (forall g, Permutation (sample g) g) ->
  (forall gdf k knn i, KNN_from_dataframe gdf k = Py.Ok knn -> ~ In i (knn i)) ->
  merge fs self stations_list score_threshold max_distance score_weights
  = (log, Py.Ok m) ->
  exists gdf, stations_gdf m = Some gdf
              /\ NoDup (index gdf)
              /\ NoDup (ids (not_duplicate gdf)).
Proof.
  intros Hsample Hknn H. apply merge_inv in H.
  destruct H as [self' [gdf [knn [gdf' [Hp [Ek [Hloop [_ [Eg _]]]]]]]]].
  destruct (_prepare_geodataframe_unique self' gdf Hsample Hp) as [Hnd Hids].
  exists gdf'. split; [exact Eg|]. split.
  - rewrite (loop_index _ _ _ _ _ _ _ Hloop). exact Hnd.
  - eapply loop_ids_nodup; [| | |exact Hloop]; auto.
    intros i. exact (Hknn _ _ _ i Ek).
Qed.

End Preparation.

(** ** Runs on forty-one records *)

(** A run of [merge] on a list, put together from its steps. *)
Lemma merge_on_list {L : Libs} fs self l score_threshold max_distance score_weights
      gdf knn gdf' :
  l <> [] ->
  _prepare_geodataframe (with_data_sources self l) = Py.Ok gdf ->
  KNN_from_dataframe gdf 40 = Py.Ok knn ->
  merge_loop knn score_threshold max_distance
             match score_weights with
             | Some w => w
             | None => default_score_weights
             end gdf (seq 0 (List.length gdf)) = Py.Ok gdf' ->
  merge fs self (Some l) score_threshold max_distance score_weights
  = ([], Py.Ok (mkMerger (base_path self) l (Some gdf') (Some knn)
                         (Some (not_duplicate gdf')))).
Proof.
  intros Hl Hp Hk Hloop. destruct l as [|sd l]; [congruence|].
  unfold merge. cbn [List.length Nat.ltb Nat.leb notna negb andb].
  rewrite Hp. cbn [Py.bind]. rewrite Hk. cbn [Py.bind]. rewrite Hloop. reflexivity.
Qed.

Lemma _load_data_self (fs : FileSystem) (self : Merger) (is_test : bool)
      (self' : Merger) (r : Py.result unit) :
  _load_data fs self is_test = (self', r) ->
  self' = with_data_sources self (data_sources self').
Proof.
  unfold _load_data. destruct (listdir fs (base_path self)) as [files|e].
  - destruct (load_files fs (base_path self) is_test files (data_sources self))
      as [ds [u|e]].
    + destruct (List.length ds <? 1)%nat; intros H; injection H as <- _; reflexivity.
    + intros H; injection H as <- _; reflexivity.
  - intros H. injection H as <- _. destruct self; reflexivity.
Qed.

(** A run of [merge] without a list on an object without records, when
    [_load_data] fails. *)
Lemma merge_after_failed_load {L : Libs} fs self score_threshold max_distance
      score_weights self' e :
  data_sources self = [] ->
  _load_data fs self false = (self', Py.Raise e) ->
  merge fs self None score_threshold max_distance score_weights
  = ([("Could not load the processed station files! " ++ Py.exn_str e)%string],
     match data_sources self' with
     | [] => Py.Raise (Py.KeyError
                         "['address.station_id' 'charging.station_id'] not found in axis")
     | l => snd (merge fs self (Some l) score_threshold max_distance score_weights)
     end).
Proof.
  intros Hempty Hload.
  pose proof (_load_data_self _ _ _ _ _ Hload) as Eself.
  unfold merge. cbn [notna negb andb]. rewrite Hempty.
  cbn [List.length Nat.ltb Nat.leb]. rewrite Hload.
  destruct (data_sources self') as [|sd ds] eqn:Eds.
  - unfold _prepare_geodataframe. rewrite Eds. reflexivity.
  - clear Hload Eds. subst self'.
    cbn [List.length Nat.ltb Nat.leb snd]. reflexivity.
Qed.

Lemma town_is_prepared (records : list StationDict) :
  records = Run.town \/ records = Run.no_operator :: Run.town ->
  _prepare_geodataframe (L:=Run.in_order) (with_data_sources Run.fresh records)
  = Py.Ok Run.town_prepared.
Proof. intros [->| ->]; vm_compute; reflexivity. Qed.

Lemma town_loop :
  merge_loop (L:=Run.in_order) (Run.knn Run.town_prepared 40) (49 # 100) 100
             default_score_weights Run.town_prepared
             (seq 0 (List.length Run.town_prepared))
  = Py.Ok Run.town_frame.
Proof. vm_compute. reflexivity. Qed.

Lemma town_run :
  merge (L:=Run.in_order) Run.no_files Run.fresh (Some Run.town) (49 # 100) 100 None
  = ([], Py.Ok Run.town_merger).
Proof.
  apply (merge_on_list (L:=Run.in_order) Run.no_files Run.fresh Run.town (49 # 100) 100
                       None Run.town_prepared (Run.knn Run.town_prepared 40)
                       Run.town_frame).
  - discriminate.
  - apply town_is_prepared. left. reflexivity.
  - reflexivity.
  - exact town_loop.
Qed.

Lemma town_run_with_incomplete_record :
  merge (L:=Run.in_order) Run.no_files Run.fresh (Some (Run.no_operator :: Run.town))
        (49 # 100) 100 None
  = ([], Py.Ok (mkMerger "data" (Run.no_operator :: Run.town) (Some Run.town_frame)
                         (Some (Run.knn Run.town_prepared 40)) (Some Run.town_output))).
Proof.
  apply (merge_on_list (L:=Run.in_order) Run.no_files Run.fresh
                       (Run.no_operator :: Run.town) (49 # 100) 100
                       None Run.town_prepared (Run.knn Run.town_prepared 40)
                       Run.town_frame).
  - discriminate.
  - apply town_is_prepared. right. reflexivity.
  - reflexivity.
  - exact town_loop.
Qed.

Lemma town_run_after_failed_load :
  merge (L:=Run.in_order) Run.half_readable_town Run.fresh None (49 # 100) 100 None
  = (["Could not load the processed station files! Expecting value: line 1 column 1 (char 0)"],
     Py.Ok Run.town_merger).
Proof.
  rewrite (merge_after_failed_load
             (L:=Run.in_order) Run.half_readable_town Run.fresh (49 # 100) 100 None
             (mkMerger "data" Run.town None None None)
             (Py.JSONDecodeError "Expecting value: line 1 column 1 (char 0)")
             eq_refl);
    [|vm_compute; reflexivity].
  change (data_sources (mkMerger "data" Run.town None None None)) with Run.town.
  unfold Run.town at 1.
  change (Run.ocm :: Run.bna :: Run.crowd) with Run.town.
  rewrite (merge_on_list (L:=Run.in_order) Run.half_readable_town Run.fresh Run.town
                         (49 # 100) 100 None Run.town_prepared
                         (Run.knn Run.town_prepared 40) Run.town_frame).
  - reflexivity.
  - discriminate.
  - apply town_is_prepared. left. reflexivity.
  - reflexivity.
  - exact town_loop.
Qed.

(** ** Incomplete records *)

(** C6, the claim fails: a record without operator is removed by
    [_prepare_geodataframe]; it is not in the working table, and in a run
    that returns it is not in the output either. *)
Lemma record_without_operator_is_dropped :
  _prepare_geodataframe (L:=Run.in_order)
                        (mkMerger "data" [Run.far_ocm; Run.no_operator] None None None)
  = Py.Ok [(0%nat, Run.row Run.far_ocm Run.p_south false false)]
  /\ let run := merge (L:=Run.in_order) Run.no_files Run.fresh
                      (Some (Run.no_operator :: Run.town)) (49 # 100) 100 None in
     exists gdf out,
       frames run = Some (Some gdf, Some out)
       /\ List.length gdf = 41%nat
       /\ ~ In (sd_id Run.no_operator) (ids gdf)
       /\ ~ In (sd_id Run.no_operator) (ids out).
Proof.
  split; [vm_compute; reflexivity|].
  cbv zeta. rewrite town_run_with_incomplete_record.
  exists Run.town_frame, Run.town_output.
  split; [reflexivity|]. split; [reflexivity|].
  split; vm_compute; intuition discriminate.
Qed.

(** C6 (amended): records that lack the operator or the socket-type list are
    removed from the working table during preparation: in every run of
    [merge] that returns, each row of the working table, and so each row of
    the output, has an operator and a socket-type list and takes its
    identifier, source, address, charging data and operator from an input
    record that has both. *)
Theorem incomplete_records_are_removed {L : Libs} (fs : FileSystem) (self : Merger)
        (stations_list : option (list StationDict))
        (score_threshold max_distance : Q) (score_weights : option ScoreWeights)
        (log : list string) (m : Merger) :
  (forall g, incl (sample g) g) ->
  merge fs self stations_list score_threshold max_distance score_weights
  = (log, Py.Ok m) ->
  exists gdf,
    stations_gdf m = Some gdf
    /\ merged_stations_gdf m = Some (not_duplicate gdf)
    /\ incl (not_duplicate gdf) gdf
    /\ forall l s, In (l, s) gdf ->
                   operator s <> None
                   /\ socket_type_list (charging s) <> None
                   /\ exists sd, In sd (data_sources m)
                                 /\ sd_id sd = id s
                                 /\ sd_data_source sd = data_source s
                                 /\ sd_address sd = address s
                                 /\ sd_charging sd = charging s
                                 /\ sd_operator sd = operator s.
Proof.
  intros Hsample H. apply merge_inv in H.
  destruct H as [self' [gdf [knn [gdf' [Hp [_ [Hloop [Eds [Eg [Eout _]]]]]]]]]].
  exists gdf'. split; [exact Eg|]. split; [exact Eout|]. split.
  { intros r Hr. unfold not_duplicate in Hr. apply filter_In in Hr. tauto. }
  intros l s Hs.
  destruct (loop_rows _ _ _ _ _ _ _ _ _ Hloop Hs) as [l0 [s0 [dup [mrg [H0 ->]]]]].
  destruct (_prepare_geodataframe_rows self' gdf l0 s0 Hsample Hp H0)
    as [Ho [Hsock [_ [_ [sd [Hsd [_ [E1 [E2 [E3 [E4 E5]]]]]]]]]]].
  simpl. split; [exact Ho|]. split; [exact Hsock|].
  exists sd. rewrite Eds. auto 10.
Qed.

(** ** Empty input and failed loading *)

(** C7, the claim fails: the second file of the data folder cannot be read,
    the failure is caught and logged, and the run goes on with the forty-one
    records of the first file and returns an output instead of failing. *)
Lemma load_failure_keeps_partial_data :
  let run := merge (L:=Run.in_order) Run.half_readable_town Run.fresh None
                   (49 # 100) 100 None in
  snd (_load_data Run.half_readable_town Run.fresh false)
  = Py.Raise (Py.JSONDecodeError "Expecting value: line 1 column 1 (char 0)")
  /\ fst run
     = ["Could not load the processed station files! Expecting value: line 1 column 1 (char 0)"]
  /\ exists m,
      snd run = Py.Ok m
      /\ data_sources m = Run.town
      /\ List.length (data_sources m) = 41%nat
      /\ merged_stations_gdf m = Some Run.town_output.
Proof.
  cbv zeta. rewrite town_run_after_failed_load.
  split; [vm_compute; reflexivity|]. split; [reflexivity|].
  exists Run.town_merger. repeat split.
Qed.

(** C7 (amended): [merge] called with an explicit empty list raises at once;
    called without a list on an object that holds no records, a failure of
    [_load_data] is caught, logged with the text of the exception, and the
    run goes on with whatever had been read before the failure: with nothing
    read the preparation step raises and the exception reaches the caller,
    otherwise the outcome is the one of [merge] called with the records that
    were read as its list. *)
Theorem empty_input_is_fatal {L : Libs} (fs : FileSystem) (self : Merger)
        (score_threshold max_distance : Q) (score_weights : option ScoreWeights) :
  merge fs self (Some []) score_threshold max_distance score_weights
  = ([], Py.Raise (Py.RuntimeError "Your provided list of stations is empty!"))
  /\ forall self' e,
      data_sources self = [] ->
      _load_data fs self false = (self', Py.Raise e) ->
      fst (merge fs self None score_threshold max_distance score_weights)
      = [("Could not load the processed station files! " ++ Py.exn_str e)%string]
      /\ (data_sources self' = [] ->
          snd (merge fs self None score_threshold max_distance score_weights)
          = Py.Raise (Py.KeyError
                        "['address.station_id' 'charging.station_id'] not found in axis"))
      /\ (data_sources self' <> [] ->
          snd (merge fs self None score_threshold max_distance score_weights)
          = snd (merge fs self (Some (data_sources self'))
                       score_threshold max_distance score_weights)).
Proof.
  split; [reflexivity|].
  intros self' e Hempty Hload.
  rewrite (merge_after_failed_load fs self score_threshold max_distance score_weights
                                   self' e Hempty Hload).
  cbn [fst snd]. split; [reflexivity|].
  destruct (data_sources self') as [|sd ds].
  - split; [reflexivity|]. congruence.
  - split; [discriminate|]. reflexivity.
Qed.

Lemma empty_input_is_fatal_witness :
  merge (L:=Run.in_order) Run.no_files Run.fresh (Some []) (49 # 100) 100 None
  = ([], Py.Raise (Py.RuntimeError "Your provided list of stations is empty!"))
  /\ fst (merge (L:=Run.in_order) Run.no_files Run.fresh None (49 # 100) 100 None)
     = ["Could not load the processed station files! [Errno 2] No such file or directory: 'data'"]
  /\ snd (merge (L:=Run.in_order) Run.no_files Run.fresh None (49 # 100) 100 None)
     = Py.Raise (Py.KeyError
                   "['address.station_id' 'charging.station_id'] not found in axis")
  /\ snd (merge (L:=Run.in_order) Run.half_readable_town Run.fresh None (49 # 100) 100 None)
     = snd (merge (L:=Run.in_order) Run.half_readable_town Run.fresh
                  (Some Run.town) (49 # 100) 100 None).
Proof.
  pose proof (empty_input_is_fatal (L:=Run.in_order) Run.no_files Run.fresh
                                   (49 # 100) 100 None) as [H1 H2].
  destruct (H2 Run.fresh (Py.OSError "[Errno 2] No such file or directory: 'data'")
               eq_refl eq_refl)
    as [Hlog [Hfatal _]].
  pose proof (empty_input_is_fatal (L:=Run.in_order) Run.half_readable_town Run.fresh
                                   (49 # 100) 100 None) as [_ H3].
  destruct (H3 (mkMerger "data" Run.town None None None)
               (Py.JSONDecodeError "Expecting value: line 1 column 1 (char 0)")
               eq_refl)
    as [_ [_ Hpartial]]; [vm_compute; reflexivity|].
  split; [exact H1|]. split; [exact Hlog|]. split; [exact (Hfatal eq_refl)|].
  apply Hpartial. discriminate.
Defined.

(** ** The station a scored candidate carries *)

Lemma isin_false (ls : list nat) (l : nat) : ~ In l ls -> isin ls l = false.
Proof.
  intros H. destruct (isin ls l) eqn:E; [|reflexivity].
  apply isin_In in E. contradiction.
Qed.

Section ScoredStation.

Context {L : Libs}.
Variables score_threshold max_distance : Q.
Variable score_weights : ScoreWeights.

Lemma sc_station_score_candidate current_station c :
  sc_station (score_candidate current_station score_threshold max_distance score_weights c)
  = if Py.ltb score_threshold
              (spec_matching_score current_station max_distance score_weights c)
    then set_is_duplicate (cand_station c) true
    else cand_station c.
Proof.
  pose proof (score_candidate_score current_station score_threshold max_distance
                                    score_weights c) as Hsc.
  unfold score_candidate in *. simpl in *. rewrite Hsc. reflexivity.
Qed.

End ScoredStation.

Lemma In_firstn {A : Type} (n : nat) (l : list A) (x : A) :
  In x (firstn n l) -> In x l.
Proof.
  intros H. rewrite <- (firstn_skipn n l). apply in_or_app. left. exact H.
Qed.

Lemma knn_table_irreflexive (gdf : GeoDataFrame) (k i : nat) : ~ In i (Run.knn gdf k i).
Proof.
  unfold Run.knn. intros H. apply In_firstn in H.
  apply filter_In in H. destruct H as [_ H].
  rewrite Nat.eqb_refl in H. discriminate.
Qed.

(** ** BNA stations *)

(** C3, the claim fails.  On exactly two stations no output is produced:
    the k-neighbour table for [k = 40] cannot be built and [merge] raises.
    On forty-one stations, the OCM station of Berlin visited first, the OCM
    row is overwritten with the BNA record, so the surviving record has
    [merged_attributes = true], and the row that ends up flagged
    [is_duplicate] is the original BNA row; no OCM record is left to flag. *)
Lemma ocm_first_overwrites_and_flags_bna :
  (exists msg,
      snd (merge (L:=Run.in_order) Run.no_files Run.fresh (Some [Run.ocm; Run.bna])
                 (49 # 100) 100 None)
      = Py.Raise (Py.IndexError msg))
  /\ exists gdf out,
      frames (merge (L:=Run.in_order) Run.no_files Run.fresh (Some Run.town)
                    (49 # 100) 100 None)
      = Some (Some gdf, Some out)
      /\ nth_error gdf 0 = Some (0%nat, Run.row Run.bna Run.p_berlin false true)
      /\ nth_error gdf 1 = Some (1%nat, Run.row Run.bna Run.p_berlin true false)
      /\ In (0%nat, Run.row Run.bna Run.p_berlin false true) out
      /\ ~ In (Run.row Run.bna Run.p_berlin false false) (map snd out)
      /\ ~ (exists l s, In (l, s) gdf /\ id s = sd_id Run.ocm).
Proof.
  split; [eexists; vm_compute; reflexivity|].
  rewrite town_run. exists Run.town_frame, Run.town_output.
  split; [reflexivity|]. split; [reflexivity|]. split; [reflexivity|].
  split; [left; reflexivity|]. split.
  - intros [H | [H | []]]; discriminate H.
  - intros [l [s [Hin Hid]]].
    assert (forallb (fun r => negb (String.eqb (id (snd r)) (sd_id Run.ocm)))
                    Run.town_frame = true) as Hall by (vm_compute; reflexivity).
    rewrite forallb_forall in Hall. specialize (Hall _ Hin). cbn [snd] in Hall.
    rewrite Hid, String.eqb_refl in Hall. discriminate Hall.
Qed.

(** C3 (amended): a row whose source is BNA is never overwritten by the merge
    step: [_merge_duplicates] leaves the table as it is when the current
    station is BNA, and throughout the loop such a row keeps all its fields,
    [merged_attributes] included, only [is_duplicate] being possibly set.
    What happens to a BNA and an OCM station that are duplicates of each
    other depends on which is visited first.  In the iteration on an
    unflagged BNA station the table changes only by the flags of its
    duplicates: the BNA row stays as it is and every duplicate is flagged
    [is_duplicate].  In the iteration on an unflagged OCM station that has a
    BNA station among its duplicates, the OCM row is overwritten with the
    record of the first such BNA station, with [merged_attributes = true],
    and that BNA station's own row is flagged [is_duplicate].  A run on a
    list for which the k-neighbour table cannot be built (libpysal needs more
    than 40 rows) has no output: [merge] raises the library's exception. *)
Theorem bna_rows_are_never_replaced {L : Libs} (knn : nat -> list nat)
        (score_threshold max_distance : Q) (score_weights : ScoreWeights) :
  (forall gdf current_station duplicates,
      data_source (snd current_station) = "BNA" ->
      _merge_duplicates gdf current_station duplicates = gdf)
  /\ (forall gdf idxs gdf' l s,
         NoDup (index gdf) ->
         In (l, s) gdf ->
         data_source s = "BNA" ->
         merge_loop knn score_threshold max_distance score_weights gdf idxs = Py.Ok gdf' ->
         exists dup, In (l, set_is_duplicate s dup) gdf')
  /\ (forall gdf idx current_station,
         (forall i, ~ In i (knn i)) ->
         NoDup (index gdf) ->
         iloc gdf idx = Py.Ok current_station ->
         is_duplicate (snd current_station) = false ->
         data_source (snd current_station) = "BNA" ->
         let duplicates :=
           iteration_duplicates knn score_threshold max_distance score_weights
                                gdf current_station in
         exists gdf',
           merge_iteration knn score_threshold max_distance score_weights gdf idx
           = Py.Ok gdf'
           /\ gdf' = mark_duplicates gdf (map sc_name duplicates)
           /\ In current_station gdf'
           /\ forall d, In d duplicates ->
                        marked gdf' (sc_name d) /\ sc_name d <> name current_station)
  /\ (forall gdf idx current_station d rest,
         (forall i, ~ In i (knn i)) ->
         NoDup (index gdf) ->
         iloc gdf idx = Py.Ok current_station ->
         is_duplicate (snd current_station) = false ->
         data_source (snd current_station) = "OCM" ->
         filter (fun e => String.eqb (data_source (sc_station e)) "BNA")
                (iteration_duplicates knn score_threshold max_distance score_weights
                                      gdf current_station)
         = d :: rest ->
         exists gdf' b,
           merge_iteration knn score_threshold max_distance score_weights gdf idx
           = Py.Ok gdf'
           /\ In (sc_name d, b) gdf
           /\ data_source b = "BNA"
           /\ is_duplicate b = false
           /\ sc_name d <> name current_station
           /\ In (name current_station, set_flags b false true) gdf'
           /\ In (sc_name d, set_is_duplicate b true) gdf')
  /\ (forall fs self l score_weights' e,
         l <> [] ->
         exists gdf,
           _prepare_geodataframe (with_data_sources self l) = Py.Ok gdf
           /\ (KNN_from_dataframe gdf 40 = Py.Raise e ->
               snd (merge fs self (Some l) score_threshold max_distance score_weights')
               = Py.Raise e)).
Proof.
  split; [|split; [|split; [|split]]].
  - intros gdf cur dups Hb. unfold _merge_duplicates. rewrite Hb. reflexivity.
  - intros gdf idxs gdf' l s Hnd Hs Hb Hloop. eapply loop_keeps_bna; eauto.
  - intros gdf idx cur Hknn Hnd Hi Hf Hb duplicates.
    rewrite (merge_iteration_run knn score_threshold max_distance score_weights
                                 gdf idx cur Hi Hf).
    fold duplicates. unfold _merge_duplicates. rewrite Hb, String.eqb_refl.
    eexists. split; [reflexivity|]. split; [reflexivity|].
    assert (Hout : forall l, In l (map sc_name duplicates) -> l <> name cur).
    { intros l Hl E. subst l.
      apply (dups_are_neighbours knn score_threshold max_distance score_weights) in Hl.
      destruct Hl as [Hl _]. exact (Hknn _ Hl). }
    split.
    + destruct cur as [l s]. apply In_mark_duplicates. exists s.
      split; [exact (iloc_In _ _ _ Hi)|].
      rewrite isin_false; [reflexivity|].
      intros Hl. exact (Hout _ Hl eq_refl).
    + intros d Hd. split.
      * intros s Hs. apply In_mark_duplicates in Hs. destruct Hs as [s0 [_ ->]].
        assert (isin (map sc_name duplicates) (sc_name d) = true) as ->
            by (apply isin_In; apply in_map; exact Hd).
        reflexivity.
      * apply Hout. apply in_map. exact Hd.
  - intros gdf idx cur d rest Hknn Hnd Hi Hf Ho Hfilter.
    set (duplicates := iteration_duplicates knn score_threshold max_distance
                                            score_weights gdf cur) in *.
    assert (Hd : In d duplicates /\ data_source (sc_station d) = "BNA").
    { assert (In d (d :: rest)) as Hin by (left; reflexivity).
      rewrite <- Hfilter in Hin. apply filter_In in Hin. destruct Hin as [Hin E].
      apply String.eqb_eq in E. split; assumption. }
    destruct Hd as [Hd Hsrc].
    pose proof Hd as Hfr. unfold duplicates, iteration_duplicates in Hfr.
    apply duplicates_from_frame in Hfr; [|exact Hnd].
    destruct Hfr as [b [Hb [Hfb [Hnb Es]]]].
    assert (Hne : sc_name d <> name cur).
    { intros E. rewrite E in Hnb. exact (Hknn _ Hnb). }
    rewrite (merge_iteration_run knn score_threshold max_distance score_weights
                                 gdf idx cur Hi Hf).
    fold duplicates.
    rewrite (_merge_duplicates_first _ cur duplicates d).
    2:{ rewrite Ho. discriminate. }
    2:{ exists [], "OCM", "BNA",
          [("OCM", "OCM"); ("OCM", "OSM"); ("OSM", "BNA"); ("OSM", "OCM"); ("OSM", "OSM")],
          rest.
        split; [reflexivity|]. split; [exact Ho|]. split; [intros p []|exact Hfilter]. }
    eexists. exists b. split; [reflexivity|]. split; [exact Hb|].
    split; [rewrite Es in Hsrc; exact Hsrc|]. split; [exact Hfb|].
    split; [exact Hne|]. split.
    + rewrite Es.
      change (set_flags (set_is_duplicate b true) false true) with (set_flags b false true).
      apply loc_set_label.
    + apply loc_set_other; [exact Hne|].
      apply In_mark_duplicates. exists b. split; [exact Hb|].
      assert (isin (map sc_name duplicates) (sc_name d) = true) as ->
          by (apply isin_In; apply in_map; exact Hd).
      reflexivity.
  - intros fs self l w e Hl.
    destruct (merge_returns fs self l score_threshold max_distance w Hl)
      as [gdf [Hp [_ Hraise]]].
    exists gdf. split; [exact Hp|]. apply Hraise.
Qed.

Lemma bna_rows_are_never_replaced_witness :
  let b := Run.row Run.bna Run.p_berlin false false in
  let o := Run.row Run.ocm Run.p_berlin false false in
  let knn := Run.knn [(0, b); (1, o)]%nat 40 in
  merge_iteration (L:=Run.in_order) knn (49 # 100) 100 default_score_weights
                  [(0, b); (1, o)]%nat 0
  = Py.Ok [(0%nat, b); (1%nat, set_is_duplicate o true)]
  /\ (exists gdf',
        merge_iteration (L:=Run.in_order) knn (49 # 100) 100 default_score_weights
                        [(1, o); (0, b)]%nat 0
        = Py.Ok gdf'
        /\ In (1%nat, set_flags b false true) gdf'
        /\ In (0%nat, set_is_duplicate b true) gdf')
  /\ _merge_duplicates [(0, b); (1, o)]%nat (0%nat, b) [] = [(0, b); (1, o)]%nat
  /\ exists msg,
      snd (merge (L:=Run.in_order) Run.no_files Run.fresh (Some [Run.ocm; Run.bna])
                 (49 # 100) 100 None)
      = Py.Raise (Py.IndexError msg).
Proof.
  intros b o knn.
  destruct (bna_rows_are_never_replaced (L:=Run.in_order) knn (49 # 100) 100
                                        default_score_weights)
    as [H1 [_ [H3 [H4 H5]]]].
  assert (Hknn : forall i, ~ In i (knn i)) by (intros i; apply knn_table_irreflexive).
  split; [|split; [|split]].
  - destruct (H3 [(0, b); (1, o)]%nat 0%nat (0%nat, b) Hknn) as [gdf' [E [-> _]]].
    + repeat constructor; simpl; intuition discriminate.
    + reflexivity.
    + reflexivity.
    + reflexivity.
    + rewrite E. vm_compute. reflexivity.
  - destruct (H4 [(1, o); (0, b)]%nat 0%nat (1%nat, o)
                 (score_candidate (L:=Run.in_order) o (49 # 100) 100 default_score_weights
                    (mkCandidate 0 (distance_to (L:=Run.in_order) (1%nat, o) b) b))
                 [] Hknn)
      as [gdf' [b' [E [Hb [_ [_ [_ [Hrow Hflag]]]]]]]].
    + repeat constructor; simpl; intuition discriminate.
    + reflexivity.
    + reflexivity.
    + reflexivity.
    + vm_compute. reflexivity.
    + assert (b' = b) as ->.
      { destruct Hb as [Hb | [Hb | []]]; [discriminate Hb|].
        injection Hb as <-. reflexivity. }
      exists gdf'. split; [exact E|]. split; [exact Hrow | exact Hflag].
  - apply H1. reflexivity.
  - destruct (H5 Run.no_files Run.fresh [Run.ocm; Run.bna] None
                 (Py.IndexError "index out of bounds")) as [gdf [Hp Hraise]].
    + discriminate.
    + eexists. apply Hraise.
      assert (gdf = [(0%nat, o); (1%nat, b)]) as ->.
      { vm_compute in Hp. injection Hp as <-. reflexivity. }
      reflexivity.
Defined.

(** ** The model at work *)

Lemma flagged_rows_stay_excluded_witness :
  let b := Run.row Run.bna Run.p_berlin false false in
  let o := Run.row Run.ocm Run.p_berlin false false in
  let gdf' := [(0%nat, b); (1%nat, set_is_duplicate o true)] in
  marked gdf' 1
  /\ ~ In 1%nat (index (not_duplicate gdf'))
  /\ forall knn' current_station max_distance',
      ~ In 1%nat (map cand_name
                      (_get_duplicate_candidates (L:=Run.in_order)
                         gdf' knn' current_station max_distance')).
Proof.
  intros b o gdf'.
  apply (flagged_rows_stay_excluded (L:=Run.in_order)
           (Run.knn [(0, b); (1, o)]%nat 40) (49 # 100) 100 default_score_weights
           [(0, b); (1, o)]%nat 0 [1%nat] gdf' 1).
  - intros i. apply knn_table_irreflexive.
  - right. vm_compute. left. reflexivity.
  - vm_compute. reflexivity.
Defined.

Lemma resolver_first_pairing_replaces_witness :
  let b := Run.row Run.bna Run.p_berlin true false in
  let o := Run.row Run.ocm Run.p_berlin false false in
  let gdf := [(1%nat, o); (0%nat, b)] in
  let dup := mkScored 0 0 b 1 "Unter den Linden 110117Berlin" 1 1 in
  exists d,
    first_pairing_picks o [dup] d
    /\ _merge_duplicates gdf (1%nat, o) [dup]
       = loc_set gdf 1 (set_flags (sc_station d) false true)
    /\ (forall s, In (1%nat, s) (_merge_duplicates gdf (1%nat, o) [dup]) ->
                  s = set_flags (sc_station d) false true
                  /\ merged_attributes s = true /\ is_duplicate s = false)
    /\ (forall l s, l <> 1%nat ->
                    (In (l, s) (_merge_duplicates gdf (1%nat, o) [dup]) <-> In (l, s) gdf)).
Proof.
  intros b o gdf dup.
  apply (resolver_first_pairing_replaces gdf (1%nat, o) [dup]).
  - discriminate.
  - exists ("OCM", "BNA"), dup. split; [left; reflexivity|].
    split; [reflexivity|]. split; [left; reflexivity | reflexivity].
Defined.

Lemma similarity_scorer_threshold_witness :
  let current := Run.row Run.bna Run.p_berlin false false in
  let near := mkCandidate 1 0 (Run.row Run.ocm Run.p_berlin false false) in
  let far := mkCandidate 2 95 (Run.row Run.far_ocm Run.p_south false false) in
  let scored := score_candidate (L:=Run.in_order) current (49 # 100) 100
                                default_score_weights in
  _determine_duplicates (L:=Run.in_order) current [near; far] (49 # 100) 100 None
  = map scored (filter (fun c => Py.ltb (49 # 100) (matching_score (scored c)))
                       [near; far]).
Proof.
  intros current near far scored.
  apply (similarity_scorer_threshold (L:=Run.in_order) current [near; far]
                                     (49 # 100) 100 None).
  repeat constructor.
Defined.

Lemma candidate_selector_sound_witness :
  let b := Run.row Run.bna Run.p_berlin false false in
  let o := Run.row Run.ocm Run.p_berlin false false in
  let f := Run.row Run.far_ocm Run.p_south false false in
  let gdf := [(0%nat, b); (1%nat, o); (2%nat, f)] in
  let c := mkCandidate 1 (distance_to (L:=Run.in_order) (0%nat, b) o) o in
  In (cand_name c, cand_station c) gdf
  /\ is_duplicate (cand_station c) = false
  /\ distance_meter c = distance_to (L:=Run.in_order) (0%nat, b) (cand_station c)
  /\ (distance_meter c < 100)%Q.
Proof.
  intros b o f gdf c.
  apply (candidate_selector_sound (L:=Run.in_order) gdf (Run.knn gdf 40) (0%nat, b) 100).
  - repeat constructor; simpl; intuition discriminate.
  - vm_compute. left. reflexivity.
Defined.

Lemma incomplete_records_are_removed_witness :
  let s := Run.row Run.bna Run.p_berlin false true in
  In (0%nat, s) Run.town_frame
  /\ operator s <> None
  /\ socket_type_list (charging s) <> None
  /\ exists sd, In sd (Run.no_operator :: Run.town) /\ sd_id sd = id s
                /\ sd_operator sd = operator s.
Proof.
  intros s.
  destruct (incomplete_records_are_removed
              (L:=Run.in_order) Run.no_files Run.fresh
              (Some (Run.no_operator :: Run.town)) (49 # 100) 100 None []
              (mkMerger "data" (Run.no_operator :: Run.town) (Some Run.town_frame)
                        (Some (Run.knn Run.town_prepared 40)) (Some Run.town_output)))
    as [gdf [Eg [_ [_ Hrows]]]].
  - intros g r Hr. exact Hr.
  - exact town_run_with_incomplete_record.
  - cbn [stations_gdf] in Eg. injection Eg as <-.
    assert (In (0%nat, s) Run.town_frame) as Hin by (left; reflexivity).
    destruct (Hrows 0%nat s Hin) as [Ho [Hsock [sd [Hsd [Hid [_ [_ [_ Hop]]]]]]]].
    split; [exact Hin|]. split; [exact Ho|]. split; [exact Hsock|].
    exists sd. split; [exact Hsd|]. split; [exact Hid | exact Hop].
Defined.

Lemma replacement_carries_winner_identifier_witness :
  let b := Run.row Run.bna Run.p_berlin false false in
  let o := Run.row Run.ocm Run.p_berlin false false in
  let gdf1 := [(0%nat, set_flags b false true); (1%nat, set_is_duplicate b true)] in
  In (0%nat, set_flags b false true) gdf1
  /\ marked gdf1 1
  /\ In "id-bna" (ids (not_duplicate gdf1))
  /\ ~ In "id-ocm" (ids (not_duplicate gdf1)).
Proof.
  intros b o gdf1.
  set (gdf := [(0%nat, o); (1%nat, b)]).
  set (d := score_candidate (L:=Run.in_order) o (49 # 100) 100 default_score_weights
                            (mkCandidate 1 (distance_to (L:=Run.in_order) (0%nat, o) b) b)).
  destruct (replacement_carries_winner_identifier
              (L:=Run.in_order) (Run.knn gdf 40) (49 # 100) 100 default_score_weights
              gdf [] gdf 0 (0%nat, o) d gdf1 [1%nat] gdf1)
    as [H1 [_ [_ [_ [H5 [H6 [_ [_ H9]]]]]]]].
  - intros i. apply knn_table_irreflexive.
  - repeat constructor; simpl; intuition discriminate.
  - repeat constructor; simpl; intuition discriminate.
  - reflexivity.
  - reflexivity.
  - reflexivity.
  - discriminate.
  - exists [], "OCM", "BNA",
      [("OCM", "OCM"); ("OCM", "OSM"); ("OSM", "BNA"); ("OSM", "OCM"); ("OSM", "OSM")],
      [].
    split; [reflexivity|]. split; [reflexivity|]. split; [intros p []|].
    vm_compute. reflexivity.
  - vm_compute. reflexivity.
  - vm_compute. reflexivity.
  - split; [exact H1|]. split; [exact H5|]. split; [exact H6 | exact H9].
Defined.

Lemma candidate_selector_excludes_self_witness :
  let b := Run.row Run.bna Run.p_berlin false false in
  let o := Run.row Run.ocm Run.p_berlin false false in
  let gdf := [(0%nat, b); (1%nat, o)] in
  ~ In 0%nat (map cand_name
                  (_get_duplicate_candidates (L:=Run.in_order) gdf (Run.knn gdf 40)
                                             (0%nat, b) 100))
  /\ ~ In 0%nat (map sc_name
                     (iteration_duplicates (L:=Run.in_order) (Run.knn gdf 40) (49 # 100) 100
                                           default_score_weights gdf (0%nat, b))).
Proof.
  intros b o gdf.
  destruct (candidate_selector_excludes_self
              (L:=Run.in_order) (Run.knn gdf 40) (49 # 100) 100 default_score_weights
              gdf (0%nat, b)) as [H1 [H2 _]].
  - apply knn_table_irreflexive.
  - split; assumption.
Defined.

(** * Further properties of the merge engine *)

(** ** The candidate frame *)

Lemma filter_label_unique (gdf : GeoDataFrame) (l : nat) (s : Station) :
  NoDup (index gdf) -> In (l, s) gdf ->
  filter (fun r => Nat.eqb (fst r) l) gdf = [(l, s)].
Proof.
  induction gdf as [|[l0 s0] gdf IH]; simpl; intros Hnd Hin; [contradiction|].
  apply NoDup_cons_iff in Hnd. destruct Hnd as [Hfresh Hnd].
  destruct Hin as [E | Hin].
  - injection E as -> ->. rewrite Nat.eqb_refl. apply f_equal.
    clear IH. induction gdf as [|[l1 s1] gdf IH]; simpl; [reflexivity|].
    destruct (Nat.eqb l1 l) eqn:E1.
    + apply Nat.eqb_eq in E1. subst l1. exfalso. apply Hfresh. left. reflexivity.
    + apply IH.
      * intros H. apply Hfresh. right. exact H.
      * apply NoDup_cons_iff in Hnd. tauto.
  - destruct (Nat.eqb l0 l) eqn:E0.
    + apply Nat.eqb_eq in E0. subst l0. exfalso. apply Hfresh.
      eapply In_index; eauto.
    + apply IH; assumption.
Qed.

Lemma filter_filter_andb {A : Type} (p q : A -> bool) (l : list A) :
  filter q (filter p l) = filter (fun a => p a && q a) l.
Proof.
  induction l as [|a l IH]; simpl; [reflexivity|].
  destruct (p a); simpl; [|exact IH].
  destruct (q a); [apply f_equal|]; exact IH.
Qed.

(** X1: on a table with unique labels the frame returned by
    [_get_duplicate_candidates] is exactly the rows that are neighbours of
    the current station in the k-neighbour table, not flagged, and strictly
    within [max_distance], each once, in table order, with its distance. *)
Theorem candidate_frame_characterised {L : Libs} (gdf : GeoDataFrame)
        (knn : nat -> list nat) (current_station : Row) (max_distance : Q) :
  NoDup (index gdf) ->
  _get_duplicate_candidates gdf knn current_station max_distance
  = map (fun r => mkCandidate (fst r) (distance_to current_station (snd r)) (snd r))
        (filter (is_candidate_row knn current_station max_distance) gdf).
Proof.
  intros Hnd.
  unfold _get_duplicate_candidates, bounds.
  match goal with
  | |- match ?l with [] => [] | _ :: _ => flat_map ?f ?l end = _ =>
      replace (match l with [] => [] | _ :: _ => flat_map f l end)
        with (flat_map f l) by (destruct l; reflexivity)
  end.
  unfold is_candidate_row.
  rewrite <- (filter_filter_andb
                (fun r => isin (knn (name current_station)) (fst r)
                          && negb (is_duplicate (snd r)))
                (fun r => Py.ltb (distance_to current_station (snd r)) max_distance)).
  assert (forall r, In r (filter (fun r => isin (knn (name current_station)) (fst r)
                                           && negb (is_duplicate (snd r))) gdf) ->
                    In r gdf) as Hsub
    by (intros r Hr; apply filter_In in Hr; tauto).
  induction (filter (fun r => isin (knn (name current_station)) (fst r)
                              && negb (is_duplicate (snd r))) gdf) as [|[l s] rs IH];
    [reflexivity|].
  cbn [map filter fst snd].
  change (haversine_distance (px (geometry s)) (py (geometry s))
                             (px (geometry (snd current_station)))
                             (py (geometry (snd current_station))) true 6371)
    with (distance_to current_station s).
  destruct (Py.ltb (distance_to current_station s) max_distance).
  - cbn [flat_map map fst snd].
    rewrite (filter_label_unique gdf l s Hnd) by (apply Hsub; left; reflexivity).
    cbn [map app snd]. apply f_equal. apply IH.
    intros r Hr. apply Hsub. right. exact Hr.
  - apply IH. intros r Hr. apply Hsub. right. exact Hr.
Qed.

Lemma candidate_frame_characterised_witness :
  let b := Run.row Run.bna Run.p_berlin false false in
  let o := Run.row Run.ocm Run.p_berlin false false in
  let f := Run.row Run.far_ocm Run.p_south false false in
  let gdf := [(0%nat, b); (1%nat, o); (2%nat, f)] in
  _get_duplicate_candidates (L:=Run.in_order) gdf (Run.knn gdf 40) (0%nat, b) 100
  = map (fun r => mkCandidate (fst r)
                              (distance_to (L:=Run.in_order) (0%nat, b) (snd r)) (snd r))
        (filter (is_candidate_row (L:=Run.in_order) (Run.knn gdf 40) (0%nat, b) 100) gdf).
Proof.
  intros b o f gdf.
  apply (candidate_frame_characterised (L:=Run.in_order)).
  repeat constructor; simpl; intuition discriminate.
Defined.

(** ** The haversine distance *)

Lemma Qsquare_opp (x : Q) : ((- x) ^ 2 == x ^ 2)%Q.
Proof. simpl. ring. Qed.

(** X2: the distance from a point to itself is 0, [np.sin], [np.sqrt] and
    [np.arcsin] vanishing at 0 (and giving equal results on equal numbers). *)
Theorem haversine_distance_of_a_point_to_itself {L : Libs} (lon lat : Q)
        (to_radians : bool) (earth_radius : Q) :
  (forall x y, x == y -> np_sin x == np_sin y)%Q ->
  (forall x y, x == y -> np_sqrt x == np_sqrt y)%Q ->
  (forall x y, x == y -> np_arcsin x == np_arcsin y)%Q ->
  (np_sin 0 == 0)%Q ->
  (np_sqrt 0 == 0)%Q ->
  (np_arcsin 0 == 0)%Q ->
  (haversine_distance lon lat lon lat to_radians earth_radius == 0)%Q.
Proof.
  intros Psin Psqrt Parcsin Hsin Hsqrt Harcsin.
  unfold haversine_distance.
  set (conv := fun x : Q => if to_radians then np_radians x else x).
  assert (forall x, np_sin ((conv x - conv x) / 2) == 0)%Q as Hzero.
  { intros x. rewrite <- Hsin. apply Psin. field. }
  assert (np_sin ((conv lat - conv lat) / 2) ^ 2
          + np_cos (conv lat) * np_cos (conv lat)
            * np_sin ((conv lon - conv lon) / 2) ^ 2 == 0)%Q as Ha.
  { rewrite (Hzero lat), (Hzero lon). simpl. ring. }
  assert (np_arcsin (np_sqrt (np_sin ((conv lat - conv lat) / 2) ^ 2
                              + np_cos (conv lat) * np_cos (conv lat)
                                * np_sin ((conv lon - conv lon) / 2) ^ 2)) == 0)%Q as Hd.
  { rewrite <- Harcsin. apply Parcsin. rewrite <- Hsqrt. apply Psqrt. exact Ha. }
  change (earth_radius * 2
          * np_arcsin (np_sqrt (np_sin ((conv lat - conv lat) / 2) ^ 2
                                + np_cos (conv lat) * np_cos (conv lat)
                                  * np_sin ((conv lon - conv lon) / 2) ^ 2))
          * 1000 == 0)%Q.
  rewrite Hd. ring.
Qed.

(** X3: the distance is symmetric in its two points, [np.sin] being odd (and
    the numpy routines giving equal results on equal numbers). *)
Theorem haversine_distance_symmetric {L : Libs} (lon1 lat1 lon2 lat2 : Q)
        (to_radians : bool) (earth_radius : Q) :
  (forall x y, x == y -> np_sin x == np_sin y)%Q ->
  (forall x y, x == y -> np_sqrt x == np_sqrt y)%Q ->
  (forall x y, x == y -> np_arcsin x == np_arcsin y)%Q ->
  (forall x, np_sin (- x) == - np_sin x)%Q ->
  (haversine_distance lon1 lat1 lon2 lat2 to_radians earth_radius
   == haversine_distance lon2 lat2 lon1 lat1 to_radians earth_radius)%Q.
Proof.
  intros Psin Psqrt Parcsin Hodd.
  unfold haversine_distance.
  set (conv := fun x : Q => if to_radians then np_radians x else x).
  assert (forall x y, np_sin ((conv y - conv x) / 2) ^ 2
                      == np_sin ((conv x - conv y) / 2) ^ 2)%Q as Hsq.
  { intros x y.
    assert (np_sin ((conv y - conv x) / 2) == - np_sin ((conv x - conv y) / 2))%Q as E.
    { rewrite <- Hodd. apply Psin. field. }
    rewrite E. apply Qsquare_opp. }
  assert (np_sin ((conv lat2 - conv lat1) / 2) ^ 2
          + np_cos (conv lat1) * np_cos (conv lat2)
            * np_sin ((conv lon2 - conv lon1) / 2) ^ 2
          == np_sin ((conv lat1 - conv lat2) / 2) ^ 2
             + np_cos (conv lat2) * np_cos (conv lat1)
               * np_sin ((conv lon1 - conv lon2) / 2) ^ 2)%Q as Ha.
  { rewrite (Hsq lat1 lat2), (Hsq lon1 lon2). ring. }
  change (earth_radius * 2
          * np_arcsin (np_sqrt (np_sin ((conv lat2 - conv lat1) / 2) ^ 2
                                + np_cos (conv lat1) * np_cos (conv lat2)
                                  * np_sin ((conv lon2 - conv lon1) / 2) ^ 2))
          * 1000
          == earth_radius * 2
             * np_arcsin (np_sqrt (np_sin ((conv lat1 - conv lat2) / 2) ^ 2
                                   + np_cos (conv lat2) * np_cos (conv lat1)
                                     * np_sin ((conv lon1 - conv lon2) / 2) ^ 2))
             * 1000)%Q.
  apply Qmult_comp; [|reflexivity].
  apply Qmult_comp; [reflexivity|].
  apply Parcsin, Psqrt. exact Ha.
Qed.

Lemma run_sqrt_compat (x y : Q) : (x == y)%Q -> (Run.sqrt x == Run.sqrt y)%Q.
Proof.
  intros H. unfold Run.sqrt.
  assert ((Qnum x * 1000000000000000000000000 / Zpos (Qden x)
           = Qnum y * 1000000000000000000000000 / Zpos (Qden y))%Z) as E.
  { unfold Qeq in H.
    rewrite <- (Z.div_mul_cancel_r (Qnum x * 1000000000000000000000000)
                                   (Zpos (Qden x)) (Zpos (Qden y))) by discriminate.
    rewrite <- (Z.div_mul_cancel_r (Qnum y * 1000000000000000000000000)
                                   (Zpos (Qden y)) (Zpos (Qden x))) by discriminate.
    f_equal; [|apply Z.mul_comm].
    transitivity (Qnum x * Zpos (Qden y) * 1000000000000000000000000)%Z; [ring|].
    rewrite H. ring. }
  rewrite E. reflexivity.
Qed.

Lemma run_sin_compat (x y : Q) : (x == y)%Q -> (Run.sin x == Run.sin y)%Q.
Proof. intros H. unfold Run.sin. rewrite H. reflexivity. Qed.

Lemma run_arcsin_compat (x y : Q) : (x == y)%Q -> (Run.arcsin x == Run.arcsin y)%Q.
Proof. intros H. unfold Run.arcsin. rewrite H. reflexivity. Qed.

Lemma run_sin_odd (x : Q) : (Run.sin (- x) == - Run.sin x)%Q.
Proof. unfold Run.sin. field. Qed.

Lemma haversine_distance_of_a_point_to_itself_witness :
  (haversine_distance (L:=Run.in_order) 13 52 13 52 true 6371 == 0)%Q.
Proof.
  apply (haversine_distance_of_a_point_to_itself (L:=Run.in_order)).
  - exact run_sin_compat.
  - exact run_sqrt_compat.
  - exact run_arcsin_compat.
  - reflexivity.
  - reflexivity.
  - reflexivity.
Defined.

Lemma haversine_distance_symmetric_witness :
  (haversine_distance (L:=Run.in_order) 13 52 9 48 true 6371
   == haversine_distance (L:=Run.in_order) 9 48 13 52 true 6371)%Q.
Proof.
  apply (haversine_distance_symmetric (L:=Run.in_order)).
  - exact run_sin_compat.
  - exact run_sqrt_compat.
  - exact run_arcsin_compat.
  - exact run_sin_odd.
Defined.

(** ** Bounds on the matching score *)

Lemma spec_operator_match_range {L : Libs} (current_station : Station) (c : Candidate) :
  (forall a b, 0 <= SequenceMatcher_ratio a b /\ SequenceMatcher_ratio a b <= 1)%Q ->
  (0 <= spec_operator_match current_station c
   /\ spec_operator_match current_station c <= 1)%Q.
Proof.
  intros Hr. unfold spec_operator_match.
  destruct (operator current_station); [destruct (operator (cand_station c))|];
    try apply Hr; split; discriminate.
Qed.

Lemma spec_address_match_range {L : Libs} (current_station : Station) (c : Candidate) :
  (forall a b, 0 <= SequenceMatcher_ratio a b /\ SequenceMatcher_ratio a b <= 1)%Q ->
  (0 <= spec_address_match current_station c
   /\ spec_address_match current_station c <= 1)%Q.
Proof.
  intros Hr. unfold spec_address_match.
  destruct (_ || _); [split; discriminate | apply Hr].
Qed.

Lemma spec_matching_score_sandwich {L : Libs} (current_station : Station)
      (max_distance : Q) (w : ScoreWeights) (c : Candidate) :
  (forall a b, 0 <= SequenceMatcher_ratio a b /\ SequenceMatcher_ratio a b <= 1)%Q ->
  (0 <= w_operator w)%Q ->
  (0 <= w_address w)%Q ->
  (w_distance w * (1 - distance_meter c / max_distance)
   <= spec_matching_score current_station max_distance w c)%Q
  /\ (spec_matching_score current_station max_distance w c
      <= w_operator w + w_address w
         + w_distance w * (1 - distance_meter c / max_distance))%Q.
Proof.
  intros Hr Hwo Hwa.
  destruct (spec_operator_match_range current_station c Hr) as [Ho0 Ho1].
  destruct (spec_address_match_range current_station c Hr) as [Ha0 Ha1].
  unfold spec_matching_score.
  assert (0 <= w_operator w * spec_operator_match current_station c)%Q as Lo
    by (apply Qmult_le_0_compat; assumption).
  assert (0 <= w_address w * spec_address_match current_station c)%Q as La
    by (apply Qmult_le_0_compat; assumption).
  assert (w_operator w * spec_operator_match current_station c <= w_operator w)%Q as Uo.
  { rewrite <- (Qmult_1_r (w_operator w)) at 2.
    rewrite !(Qmult_comm (w_operator w)). apply Qmult_le_compat_r; assumption. }
  assert (w_address w * spec_address_match current_station c <= w_address w)%Q as Ua.
  { rewrite <- (Qmult_1_r (w_address w)) at 2.
    rewrite !(Qmult_comm (w_address w)). apply Qmult_le_compat_r; assumption. }
  split; lra.
Qed.

(** X4: with operator and address weights that are not negative and a
    similarity ratio in [0, 1], the matching score lies between the distance
    term [w_distance * (1 - distance_meter / max_distance)] and that term
    plus the two weights; so a candidate whose distance term alone exceeds
    the threshold is flagged whatever the names, and an unflagged candidate
    whose distance term plus both weights does not exceed it is not. *)
Theorem matching_score_between_distance_terms {L : Libs} (current_station : Station)
        (score_threshold max_distance : Q) (w : ScoreWeights) (c : Candidate) :
  (forall a b, 0 <= SequenceMatcher_ratio a b /\ SequenceMatcher_ratio a b <= 1)%Q ->
  (0 <= w_operator w)%Q ->
  (0 <= w_address w)%Q ->
  let scored := score_candidate current_station score_threshold max_distance w c in
  let distance_term := (w_distance w * (1 - distance_meter c / max_distance))%Q in
  (distance_term <= matching_score scored)%Q
  /\ (matching_score scored <= w_operator w + w_address w + distance_term)%Q
  /\ ((score_threshold < distance_term)%Q -> is_duplicate (sc_station scored) = true)
  /\ (is_duplicate (cand_station c) = false ->
      (w_operator w + w_address w + distance_term <= score_threshold)%Q ->
      is_duplicate (sc_station scored) = false).
Proof.
  intros Hr Hwo Hwa scored distance_term.
  destruct (spec_matching_score_sandwich current_station max_distance w c Hr Hwo Hwa)
    as [Hlow Hup].
  fold distance_term in Hlow, Hup.
  unfold scored. rewrite score_candidate_score, sc_station_score_candidate.
  split; [exact Hlow|]. split; [exact Hup|]. split.
  - intros Hthr.
    assert (Py.ltb score_threshold
                   (spec_matching_score current_station max_distance w c) = true) as E
      by (apply ltb_lt; lra).
    rewrite E. reflexivity.
  - intros Hflag Hthr.
    destruct (Py.ltb score_threshold
                     (spec_matching_score current_station max_distance w c)) eqn:E;
      [|exact Hflag].
    apply ltb_lt in E. lra.
Qed.

Lemma run_ratio_range (a b : string) : (0 <= Run.ratio a b /\ Run.ratio a b <= 1)%Q.
Proof. unfold Run.ratio. destruct (String.eqb a b); split; discriminate. Qed.

Lemma matching_score_between_distance_terms_witness :
  let current := Run.row Run.bna Run.p_berlin false false in
  let c := mkCandidate 1 10 (Run.row Run.far_ocm Run.p_south false false) in
  is_duplicate (sc_station (score_candidate (L:=Run.in_order) current (49 # 100) 100
                                            default_score_weights c)) = true.
Proof.
  intros current c.
  apply (matching_score_between_distance_terms (L:=Run.in_order) current (49 # 100) 100
                                               default_score_weights c).
  - exact run_ratio_range.
  - discriminate.
  - discriminate.
  - reflexivity.
Defined.



(** ** Source priority in the resolver *)

Lemma filter_source_head (duplicates : list ScoredCandidate) (y : string) :
  (exists e, In e duplicates /\ data_source (sc_station e) = y) ->
  exists d rest,
    filter (fun e => String.eqb (data_source (sc_station e)) y) duplicates = d :: rest
    /\ In d duplicates /\ data_source (sc_station d) = y.
Proof.
  intros [e [He Hy]].
  destruct (filter (fun e => String.eqb (data_source (sc_station e)) y) duplicates)
    as [|d rest] eqn:Ef.
  - assert (In e []) as Habs; [|contradiction].
    rewrite <- Ef. apply filter_In. split; [exact He|]. apply String.eqb_eq. exact Hy.
  - exists d, rest. split; [reflexivity|].
    assert (In d (d :: rest)) as Hd by (left; reflexivity).
    rewrite <- Ef in Hd. apply filter_In in Hd. destruct Hd as [Hd E].
    apply String.eqb_eq in E. auto.
Qed.

Lemma filter_source_none (duplicates : list ScoredCandidate) (y : string) :
  (forall e, In e duplicates -> data_source (sc_station e) <> y) ->
  filter (fun e => String.eqb (data_source (sc_station e)) y) duplicates = [].
Proof.
  intros Hnone.
  destruct (filter (fun e => String.eqb (data_source (sc_station e)) y) duplicates)
    as [|d rest] eqn:Ef; [reflexivity|].
  assert (In d (d :: rest)) as Hd by (left; reflexivity).
  rewrite <- Ef in Hd. apply filter_In in Hd. destruct Hd as [Hd E].
  apply String.eqb_eq in E. exfalso. exact (Hnone d Hd E).
Qed.

(** The loop over the six pairs, unrolled for a current station of source
    OCM or OSM: the sources are tried in the order BNA, OCM, OSM. *)
Lemma _merge_duplicates_unrolled gdf current_station duplicates :
  data_source (snd current_station) = "OCM" \/ data_source (snd current_station) = "OSM" ->
  let of_source y :=
    filter (fun e => String.eqb (data_source (sc_station e)) y) duplicates in
  let write d := loc_set gdf (name current_station) (set_flags (sc_station d) false true) in
  _merge_duplicates gdf current_station duplicates
  = match of_source "BNA" with
    | d :: _ => write d
    | [] => match of_source "OCM" with
            | d :: _ => write d
            | [] => match of_source "OSM" with
                    | d :: _ => write d
                    | [] => gdf
                    end
            end
    end.
Proof.
  intros Hsrc of_source write. unfold _merge_duplicates.
  unfold ordered_data_source_pairs, data_sources_order.
  cbn [flat_map String.eqb Ascii.eqb Bool.eqb negb app merge_pairs].
  destruct Hsrc as [-> | ->]; cbn [String.eqb Ascii.eqb Bool.eqb negb];
    fold (of_source "BNA"); fold (of_source "OCM"); fold (of_source "OSM");
    destruct (of_source "BNA"); [|reflexivity| |reflexivity];
    destruct (of_source "OCM"); [|reflexivity| |reflexivity];
    destruct (of_source "OSM"); reflexivity.
Qed.

(** X6: for a current station of source OCM or OSM the row written by
    [_merge_duplicates] comes from the highest-ranked source present among
    the duplicates, BNA before OCM before OSM, wherever the duplicates of the
    other sources stand in the frame; it is the first duplicate of that
    source. *)
Theorem replacement_follows_source_priority (gdf : GeoDataFrame) (current_station : Row)
        (duplicates : list ScoredCandidate) :
  data_source (snd current_station) = "OCM" \/ data_source (snd current_station) = "OSM" ->
  let has y := exists e, In e duplicates /\ data_source (sc_station e) = y in
  let writes y :=
    exists d rest,
      filter (fun e => String.eqb (data_source (sc_station e)) y) duplicates = d :: rest
      /\ data_source (sc_station d) = y
      /\ _merge_duplicates gdf current_station duplicates
         = loc_set gdf (name current_station) (set_flags (sc_station d) false true) in
  (has "BNA" -> writes "BNA")
  /\ (~ has "BNA" -> has "OCM" -> writes "OCM")
  /\ (~ has "BNA" -> ~ has "OCM" -> has "OSM" -> writes "OSM").
Proof.
  intros Hsrc has writes.
  pose proof (_merge_duplicates_unrolled gdf current_station duplicates Hsrc) as E.
  cbv zeta in E.
  assert (forall y, ~ has y ->
                    filter (fun e => String.eqb (data_source (sc_station e)) y) duplicates
                    = []) as Hnone.
  { intros y Hy. apply filter_source_none. intros e He Hey. apply Hy. exists e. auto. }
  split; [|split].
  - intros Hb. destruct (filter_source_head duplicates "BNA" Hb) as [d [rest [Ef [_ Hd]]]].
    exists d, rest. rewrite E, Ef. auto.
  - intros Hnb Ho.
    destruct (filter_source_head duplicates "OCM" Ho) as [d [rest [Ef [_ Hd]]]].
    exists d, rest. rewrite E, (Hnone "BNA" Hnb), Ef. auto.
  - intros Hnb Hno Hs.
    destruct (filter_source_head duplicates "OSM" Hs) as [d [rest [Ef [_ Hd]]]].
    exists d, rest. rewrite E, (Hnone "BNA" Hnb), (Hnone "OCM" Hno), Ef. auto.
Qed.

Lemma replacement_follows_source_priority_witness :
  let o := Run.row Run.ocm Run.p_berlin false false in
  let other := mkScored 2 5 (Run.row Run.far_ocm Run.p_berlin true false) 0 "" 0 1 in
  let best := mkScored 0 7 (Run.row Run.bna Run.p_berlin true false) 1 "" 1 1 in
  let gdf := [(1%nat, o); (2%nat, sc_station other); (0%nat, sc_station best)] in
  exists d rest,
    filter (fun e => String.eqb (data_source (sc_station e)) "BNA") [other; best]
    = d :: rest
    /\ data_source (sc_station d) = "BNA"
    /\ _merge_duplicates gdf (1%nat, o) [other; best]
       = loc_set gdf 1 (set_flags (sc_station d) false true).
Proof.
  intros o other best gdf.
  apply (replacement_follows_source_priority gdf (1%nat, o) [other; best]).
  - left. reflexivity.
  - exists best. split; [right; left; reflexivity | reflexivity].
Defined.

(** X7: [_merge_duplicates] writes nothing when the current station's source
    is neither OCM nor OSM (BNA or any other text), and nothing when no
    duplicate has one of the sources BNA, OCM, OSM. *)
Theorem nothing_written_without_ranked_source (gdf : GeoDataFrame)
        (current_station : Row) (duplicates : list ScoredCandidate) :
  (data_source (snd current_station) <> "OCM"
   /\ data_source (snd current_station) <> "OSM")
  \/ (forall e, In e duplicates ->
                data_source (sc_station e) <> "BNA"
                /\ data_source (sc_station e) <> "OCM"
                /\ data_source (sc_station e) <> "OSM") ->
  _merge_duplicates gdf current_station duplicates = gdf.
Proof.
  intros H. unfold _merge_duplicates.
  destruct (String.eqb (data_source (snd current_station)) "BNA"); [reflexivity|].
  apply merge_pairs_none. intros p Hp Hsrc.
  unfold ordered_data_source_pairs, data_sources_order in Hp.
  cbn [flat_map String.eqb Ascii.eqb Bool.eqb negb app] in Hp.
  destruct H as [[Hocm Hosm] | Hnone].
  - exfalso.
    repeat (destruct Hp as [<- | Hp]; [simpl in Hsrc; congruence|]).
    contradiction.
  - apply filter_source_none. intros e He.
    destruct (Hnone e He) as [H1 [H2 H3]].
    repeat (destruct Hp as [<- | Hp]; [simpl; assumption|]).
    contradiction.
Qed.

Lemma nothing_written_without_ranked_source_witness :
  let o := Run.row Run.ocm Run.p_berlin false false in
  let unranked :=
    mkScored 2 5 (mkStation "id-x" "XYZ" Run.berlin Run.sockets (Some "Stadtwerke")
                            None None Run.p_berlin "{}" true false) 1 "" 1 1 in
  let gdf := [(1%nat, o); (2%nat, sc_station unranked)] in
  _merge_duplicates gdf (1%nat, o) [unranked] = gdf.
Proof.
  intros o unranked gdf.
  apply (nothing_written_without_ranked_source gdf (1%nat, o) [unranked]).
  right. intros e [<- | []]. repeat split; discriminate.
Defined.

(** ** What a run of [merge] keeps *)

Lemma _prepare_geodataframe_data {L : Libs} (a b : Merger) :
  data_sources a = data_sources b -> _prepare_geodataframe a = _prepare_geodataframe b.
Proof. intros E. unfold _prepare_geodataframe. rewrite E. reflexivity. Qed.

Lemma drop_duplicates_length (seen : list string) (rows : list Station) :
  (List.length (drop_duplicates seen rows) <= List.length rows)%nat.
Proof.
  revert seen. induction rows as [|r rows IH]; simpl; intros seen; [lia|].
  destruct (existsb (String.eqb (id r)) seen); simpl.
  - specialize (IH seen). lia.
  - specialize (IH (id r :: seen)). lia.
Qed.

Lemma normalize_rows_length {L : Libs} (ds : list StationDict) :
  (List.length (flat_map normalize_row ds) <= List.length ds)%nat.
Proof.
  induction ds as [|sd ds IH]; simpl; [lia|].
  rewrite length_app. unfold normalize_row at 1.
  destruct (get_wkt (sd_coordinates sd)); simpl; lia.
Qed.

Lemma reset_index_length (rows : list Station) :
  List.length (reset_index rows) = List.length rows.
Proof.
  transitivity (List.length (index (reset_index rows))).
  - unfold index. symmetry. apply length_map.
  - rewrite index_reset_index. apply length_seq.
Qed.

(** X8: a run of [merge] that returns neither adds nor removes rows: the
    working table it leaves has the labels of the prepared table in the same
    order, these labels are the numbers below the row count, each once, and
    there are at most as many rows as input records ([sample] permuting the
    rows). *)
Theorem merge_keeps_the_table_shape {L : Libs} (fs : FileSystem) (self : Merger)
        (stations_list : option (list StationDict))
        (score_threshold max_distance : Q) (score_weights : option ScoreWeights)
        (log : list string) (m : Merger) :
  (forall g, Permutation (sample g) g) ->
  merge fs self stations_list score_threshold max_distance score_weights
  = (log, Py.Ok m) ->
  exists prepared gdf,
    _prepare_geodataframe m = Py.Ok prepared
    /\ stations_gdf m = Some gdf
    /\ index gdf = index prepared
    /\ Permutation (index gdf) (seq 0 (List.length gdf))
    /\ (List.length gdf <= List.length (data_sources m))%nat.
Proof.
  intros Hsample H. apply merge_inv in H.
  destruct H as [self' [prepared [knn [gdf [Hp [_ [Hloop [Eds [Eg _]]]]]]]]].
  exists prepared, gdf.
  pose proof (loop_index _ _ _ _ _ _ _ Hloop) as Eidx.
  assert (List.length gdf = List.length prepared) as Elen.
  { apply (f_equal (@List.length nat)) in Eidx. unfold index in Eidx.
    rewrite !length_map in Eidx. exact Eidx. }
  split; [rewrite <- Hp; apply _prepare_geodataframe_data; exact Eds|].
  split; [exact Eg|]. split; [exact Eidx|].
  rewrite Eidx, Elen, Eds. clear Hloop Eg Eidx Elen.
  set (rows := filter (fun s => notna (operator s)
                                && notna (socket_type_list (charging s)))
                      (drop_duplicates [] (flat_map normalize_row (data_sources self')))).
  assert (prepared = sample (reset_index rows)) as ->.
  { unfold _prepare_geodataframe in Hp. unfold rows.
    destruct (data_sources self') as [|sd0 ds]; [discriminate|].
    injection Hp as <-. reflexivity. }
  assert (List.length (sample (reset_index rows)) = List.length rows) as El.
  { rewrite (Permutation_length (Hsample _)). apply reset_index_length. }
  split.
  - rewrite El. rewrite <- (index_reset_index rows).
    unfold index. apply Permutation_map. apply Hsample.
  - rewrite El. unfold rows.
    pose proof (filter_length_le (fun s => notna (operator s)
                                           && notna (socket_type_list (charging s)))
                                 (drop_duplicates [] (flat_map normalize_row
                                                                (data_sources self')))).
    pose proof (drop_duplicates_length [] (flat_map normalize_row (data_sources self'))).
    pose proof (normalize_rows_length (data_sources self')).
    lia.
Qed.

(** X9: in a run of [merge] that returns, the output holds only unflagged
    rows, with pairwise distinct labels and pairwise distinct identifiers
    ([sample] permuting the rows, the k-neighbour table listing no station
    among its own neighbours). *)
Theorem merged_output_identifiers_distinct {L : Libs} (fs : FileSystem) (self : Merger)
        (stations_list : option (list StationDict))
        (score_threshold max_distance : Q) (score_weights : option ScoreWeights)
        (log : list string) (m : Merger) :
  (forall g, Permutation (sample g) g) ->
  (forall gdf k knn i, KNN_from_dataframe gdf k = Py.Ok knn -> ~ In i (knn i)) ->
  merge fs self stations_list score_threshold max_distance score_weights
  = (log, Py.Ok m) ->
  exists out,
    merged_stations_gdf m = Some out
    /\ NoDup (ids out)
    /\ NoDup (index out)
    /\ forall l s, In (l, s) out -> is_duplicate s = false.
Proof.
  intros Hsample Hknn H.
  destruct (merge_frames_unique _ _ _ _ _ _ _ _ Hsample Hknn H) as [gdf [Eg [Hnd Hids]]].
  apply merge_inv in H.
  destruct H as [self' [prepared [knn [gdf' [_ [_ [_ [_ [Eg' [Eout _]]]]]]]]]].
  assert (gdf' = gdf) as -> by congruence.
  exists (not_duplicate gdf). split; [exact Eout|]. split; [exact Hids|]. split.
  - unfold index, not_duplicate. apply NoDup_map_filter. exact Hnd.
  - intros l s Hs. apply In_not_duplicate in Hs. tauto.
Qed.

Lemma merge_keeps_the_table_shape_witness :
  exists prepared,
    _prepare_geodataframe (L:=Run.in_order) Run.town_merger = Py.Ok prepared
    /\ index Run.town_frame = index prepared
    /\ Permutation (index Run.town_frame) (seq 0 (List.length Run.town_frame))
    /\ (List.length Run.town_frame <= List.length Run.town)%nat.
Proof.
  destruct (merge_keeps_the_table_shape
              (L:=Run.in_order) Run.no_files Run.fresh (Some Run.town)
              (49 # 100) 100 None [] Run.town_merger)
    as [prepared [g [Hp [Eg [Eidx [Hperm Hlen]]]]]].
  - intros g. apply Permutation_refl.
  - exact town_run.
  - cbn [stations_gdf Run.town_merger] in Eg. injection Eg as <-.
    exists prepared. auto.
Defined.

Lemma merged_output_identifiers_distinct_witness :
  NoDup (ids Run.town_output)
  /\ NoDup (index Run.town_output)
  /\ forall l s, In (l, s) Run.town_output -> is_duplicate s = false.
Proof.
  destruct (merged_output_identifiers_distinct
              (L:=Run.in_order) Run.no_files Run.fresh (Some Run.town)
              (49 # 100) 100 None [] Run.town_merger)
    as [out [Eout H]].
  - intros g. apply Permutation_refl.
  - intros gdf k knn i Ek. cbn in Ek. unfold Run.KNN in Ek.
    destruct (List.length gdf <=? k)%nat; [discriminate Ek|].
    injection Ek as <-. apply knn_table_irreflexive.
  - exact town_run.
  - cbn [merged_stations_gdf Run.town_merger] in Eout. injection Eout as <-. exact H.
Defined.

(** ** What the loop leaves untouched *)

Section Survivors.

Context {L : Libs}.
Variable knn : nat -> list nat.
Variables score_threshold max_distance : Q.
Variable score_weights : ScoreWeights.
Hypothesis knn_irreflexive : forall i, ~ In i (knn i).

Local Abbreviation iteration := (merge_iteration knn score_threshold max_distance score_weights).
Local Abbreviation loop := (merge_loop knn score_threshold max_distance score_weights).
Local Abbreviation dups_of := (iteration_duplicates knn score_threshold max_distance score_weights).

(** The station an iteration works on is unflagged when the iteration ends. *)
Lemma iteration_current_survives gdf idx current_station gdf' :
  NoDup (index gdf) ->
  iloc gdf idx = Py.Ok current_station ->
  is_duplicate (snd current_station) = false ->
  iteration gdf idx = Py.Ok gdf' ->
  exists s, In (name current_station, s) gdf' /\ is_duplicate s = false.
Proof.
  intros Hnd Hi Hflag H.
  pose proof (iloc_In _ _ _ Hi) as Hcur.
  rewrite (merge_iteration_run _ _ _ _ _ _ _ Hi Hflag) in H. injection H as <-.
  set (g1 := mark_duplicates gdf (map sc_name (dups_of gdf current_station))).
  assert (In (name current_station, snd current_station) g1) as H1.
  { unfold g1. apply In_mark_duplicates. exists (snd current_station).
    split; [destruct current_station; exact Hcur|].
    rewrite isin_false; [reflexivity|].
    intros Hin. apply dups_are_neighbours in Hin.
    apply (knn_irreflexive (name current_station)). tauto. }
  destruct (_merge_duplicates_cases g1 current_station (dups_of gdf current_station))
    as [-> | [d [_ [_ ->]]]].
  - exists (snd current_station). auto.
  - exists (set_flags (sc_station d) false true). split; [apply loc_set_label | reflexivity].
Qed.

Lemma iteration_keeps_a_survivor gdf idx gdf' :
  NoDup (index gdf) ->
  (exists l s, In (l, s) gdf /\ is_duplicate s = false) ->
  iteration gdf idx = Py.Ok gdf' ->
  exists l s, In (l, s) gdf' /\ is_duplicate s = false.
Proof.
  intros Hnd Hex H.
  destruct (merge_iteration_inv _ _ _ _ _ _ _ H) as [cur [Hi [[_ ->] | [Hflag _]]]];
    [exact Hex|].
  destruct (iteration_current_survives gdf idx cur gdf' Hnd Hi Hflag H) as [s Hs].
  exists (name cur), s. exact Hs.
Qed.

Lemma loop_keeps_a_survivor gdf idxs gdf' :
  NoDup (index gdf) ->
  (exists l s, In (l, s) gdf /\ is_duplicate s = false) ->
  loop gdf idxs = Py.Ok gdf' ->
  exists l s, In (l, s) gdf' /\ is_duplicate s = false.
Proof.
  revert gdf. induction idxs as [|idx rest IH]; simpl; intros gdf Hnd Hex H.
  - injection H as <-. exact Hex.
  - destruct (iteration gdf idx) as [g|e] eqn:E; simpl in H; [|discriminate].
    apply (IH g); [| |exact H].
    + rewrite (iteration_index _ _ _ _ _ _ _ E). exact Hnd.
    + eapply iteration_keeps_a_survivor; eauto.
Qed.

(** An iteration whose station has no duplicate changes nothing. *)
Lemma iteration_without_duplicates gdf idx :
  (idx < List.length gdf)%nat ->
  flagged_by_iteration knn score_threshold max_distance score_weights gdf idx = [] ->
  iteration gdf idx = Py.Ok gdf.
Proof.
  intros Hlt Hnone.
  destruct (nth_error gdf idx) as [cur|] eqn:E;
    [|apply nth_error_None in E; lia].
  assert (iloc gdf idx = Py.Ok cur) as Hi by (unfold iloc; rewrite E; reflexivity).
  destruct (is_duplicate (snd cur)) eqn:Hflag.
  - eapply merge_iteration_skip; eauto.
  - rewrite (merge_iteration_run _ _ _ _ _ _ _ Hi Hflag).
    rewrite (flagged_by_iteration_run _ _ _ _ _ _ _ Hi Hflag) in Hnone.
    apply map_eq_nil in Hnone. rewrite Hnone. simpl.
    rewrite mark_duplicates_nil, _merge_duplicates_nil. reflexivity.
Qed.

End Survivors.

(** X10: the loop never flags every station: started on a table with unique
    labels that holds an unflagged row, it ends with an unflagged row, so the
    output of [merge] is not empty (the k-neighbour table listing no station
    among its own neighbours). *)
Theorem loop_leaves_a_survivor {L : Libs} (knn : nat -> list nat)
        (score_threshold max_distance : Q) (score_weights : ScoreWeights)
        (gdf : GeoDataFrame) (idxs : list nat) (gdf' : GeoDataFrame) :
  (forall i, ~ In i (knn i)) ->
  NoDup (index gdf) ->
  (exists l s, In (l, s) gdf /\ is_duplicate s = false) ->
  merge_loop knn score_threshold max_distance score_weights gdf idxs = Py.Ok gdf' ->
  not_duplicate gdf' <> [].
Proof.
  intros Hknn Hnd Hex H.
  destruct (loop_keeps_a_survivor knn score_threshold max_distance score_weights Hknn
                                  gdf idxs gdf' Hnd Hex H) as [l [s [Hs Hflag]]].
  intros Habs.
  assert (In (l, s) (not_duplicate gdf')) as Hin by (apply In_not_duplicate; auto).
  rewrite Habs in Hin. contradiction.
Qed.

Lemma loop_leaves_a_survivor_witness :
  let b := Run.row Run.bna Run.p_berlin false false in
  let o := Run.row Run.ocm Run.p_berlin false false in
  not_duplicate [(0%nat, b); (1%nat, set_is_duplicate o true)] <> [].
Proof.
  intros b o.
  apply (loop_leaves_a_survivor (L:=Run.in_order)
           (Run.knn [(0, b); (1, o)]%nat 40) (49 # 100) 100 default_score_weights
           [(0, b); (1, o)]%nat [0; 1]%nat).
  - intros i. apply knn_table_irreflexive.
  - repeat constructor; simpl; intuition discriminate.
  - exists 0%nat, b. split; [left; reflexivity | reflexivity].
  - vm_compute. reflexivity.
Defined.

(** X11: when no station visited has a duplicate above the threshold, the
    loop leaves the table exactly as it was: nothing is flagged, nothing is
    overwritten. *)
Theorem loop_without_duplicates_changes_nothing {L : Libs} (knn : nat -> list nat)
        (score_threshold max_distance : Q) (score_weights : ScoreWeights)
        (gdf : GeoDataFrame) (idxs : list nat) :
  Forall (fun idx => idx < List.length gdf)%nat idxs ->
  (forall idx, In idx idxs ->
               flagged_by_iteration knn score_threshold max_distance score_weights
                                    gdf idx = []) ->
  merge_loop knn score_threshold max_distance score_weights gdf idxs = Py.Ok gdf.
Proof.
  induction idxs as [|idx rest IH]; intros Hall Hnone; simpl; [reflexivity|].
  inversion Hall as [|? ? Hlt Hrest]; subst.
  rewrite (iteration_without_duplicates knn score_threshold max_distance score_weights
                                        gdf idx Hlt (Hnone idx (or_introl eq_refl))).
  simpl. apply IH; [exact Hrest|].
  intros i Hi. apply Hnone. right. exact Hi.
Qed.

Lemma loop_without_duplicates_changes_nothing_witness :
  let b := Run.row Run.bna Run.p_berlin false false in
  let f := Run.row Run.far_ocm Run.p_south false false in
  let gdf := [(0%nat, b); (1%nat, f)] in
  merge_loop (L:=Run.in_order) (Run.knn gdf 40) (49 # 100) 100 default_score_weights
             gdf [0; 1]%nat
  = Py.Ok gdf.
Proof.
  intros b f gdf.
  apply (loop_without_duplicates_changes_nothing (L:=Run.in_order)).
  - repeat constructor.
  - intros idx [<- | [<- | []]]; vm_compute; reflexivity.
Defined.

(** ** A station with nothing in reach *)

Section Isolated.

Context {L : Libs}.
Variable knn : nat -> list nat.
Variables score_threshold max_distance : Q.
Variable score_weights : ScoreWeights.
Hypothesis knn_irreflexive : forall i, ~ In i (knn i).

(** The table the loop starts from, and in it a row whose point is not
    within [max_distance] of any other row's point, either way round. *)
Variable gdf0 : GeoDataFrame.
Variable l : nat.
Variable s : Station.
Hypothesis out_of_reach :
  forall l0 s0, In (l0, s0) gdf0 -> l0 <> l ->
                ~ (point_distance (geometry s0) (geometry s) < max_distance)%Q
                /\ ~ (point_distance (geometry s) (geometry s0) < max_distance)%Q.

Local Abbreviation iteration := (merge_iteration knn score_threshold max_distance score_weights).
Local Abbreviation loop := (merge_loop knn score_threshold max_distance score_weights).
Local Abbreviation dups_of := (iteration_duplicates knn score_threshold max_distance score_weights).

Lemma isolated_not_flagged g current_station :
  isolated_in gdf0 l s g ->
  In current_station g ->
  ~ In l (map sc_name (dups_of g current_station)).
Proof.
  intros [Hnd [Hrow Hothers]] Hcur Hin.
  apply dups_are_neighbours in Hin. destruct Hin as [Hk Hin].
  assert (name current_station <> l) as Hne.
  { intros E. rewrite E in Hk. exact (knn_irreflexive l Hk). }
  apply in_map_iff in Hin. destruct Hin as [c [En Hc]].
  apply In_candidates in Hc. destruct Hc as [s0 [Hs0 [_ [_ [Hd [Hlt _]]]]]].
  rewrite En in Hs0.
  assert (s0 = s) as -> by (eapply NoDup_index_functional; eauto).
  destruct current_station as [lc sc]. simpl in Hne.
  destruct (Hothers lc sc Hcur Hne) as [l1 [s1 [H1 [Hne1 Eg]]]].
  destruct (out_of_reach l1 s1 H1 Hne1) as [_ Hfar].
  apply Hfar. rewrite <- Eg. apply ltb_lt. rewrite Hd in Hlt. exact Hlt.
Qed.

Lemma isolated_has_no_duplicates g :
  isolated_in gdf0 l s g ->
  dups_of g (l, s) = [].
Proof.
  intros [Hnd [Hrow Hothers]].
  destruct (dups_of g (l, s)) as [|d rest] eqn:E; [reflexivity|].
  assert (In d (dups_of g (l, s))) as Hd by (rewrite E; left; reflexivity).
  apply In_determine_duplicates in Hd. destruct Hd as [c [Hc _]].
  apply In_candidates in Hc. destruct Hc as [s0 [Hs0 [Hk [_ [Hd [Hlt _]]]]]].
  simpl in Hk.
  assert (cand_name c <> l) as Hne.
  { intros E'. rewrite E' in Hk. exact (knn_irreflexive l Hk). }
  destruct (Hothers _ _ Hs0 Hne) as [l1 [s1 [H1 [Hne1 Eg]]]].
  destruct (out_of_reach l1 s1 H1 Hne1) as [Hfar _].
  exfalso. apply Hfar. rewrite <- Eg. apply ltb_lt. rewrite Hd in Hlt. exact Hlt.
Qed.

Lemma iteration_keeps_isolated g idx g' :
  isolated_in gdf0 l s g ->
  iteration g idx = Py.Ok g' ->
  isolated_in gdf0 l s g'.
Proof.
  intros Hiso H.
  pose proof Hiso as [Hnd [Hrow Hothers]].
  pose proof (iteration_index _ _ _ _ _ _ _ H) as Eidx.
  destruct (merge_iteration_inv _ _ _ _ _ _ _ H) as [cur [Hi [[_ ->] | [Hflag E]]]];
    [exact Hiso|].
  pose proof (iloc_In _ _ _ Hi) as Hcur.
  destruct (Nat.eq_dec (name cur) l) as [El | Hne].
  - assert (cur = (l, s)) as ->.
    { destruct cur as [lc sc]. simpl in El. subst lc. f_equal.
      eapply NoDup_index_functional; eauto. }
    rewrite (isolated_has_no_duplicates g Hiso) in E. simpl in E.
    rewrite mark_duplicates_nil, _merge_duplicates_nil in E. subst g'. exact Hiso.
  - pose proof (isolated_not_flagged g cur Hiso Hcur) as Hnot.
    set (ds := dups_of g cur) in *.
    set (g1 := mark_duplicates g (map sc_name ds)) in *.
    assert (In (l, s) g1) as Hrow1.
    { unfold g1. apply In_mark_duplicates. exists s. split; [exact Hrow|].
      rewrite (isin_false _ _ Hnot). reflexivity. }
    assert (forall l0 s0, In (l0, s0) g1 -> l0 <> l ->
                          exists l1 s1, In (l1, s1) gdf0 /\ l1 <> l
                                        /\ geometry s0 = geometry s1) as Hothers1.
    { intros l0 s0 H0 Hl0. unfold g1 in H0. apply In_mark_duplicates in H0.
      destruct H0 as [s0' [H0 ->]].
      destruct (Hothers l0 s0' H0 Hl0) as [l1 [s1 [H1 [Hne1 Eg]]]].
      exists l1, s1. split; [exact H1|]. split; [exact Hne1|].
      destruct (isin _ l0); exact Eg. }
    split; [rewrite Eidx; exact Hnd|].
    destruct (_merge_duplicates_cases g1 cur ds) as [Em | [d [Hd [_ Em]]]];
      rewrite Em in E; subst g'.
    + split; [exact Hrow1 | exact Hothers1].
    + split.
      * apply loc_set_other; [congruence | exact Hrow1].
      * intros l0 s0 H0 Hl0. apply In_loc_set in H0.
        destruct H0 as [[_ ->] | [_ H0]]; [|exact (Hothers1 l0 s0 H0 Hl0)].
        destruct (duplicates_from_frame g knn cur score_threshold max_distance
                                        (Some score_weights) d Hnd Hd)
          as [sd [Hsd [_ [_ Esd]]]].
        assert (sc_name d <> l) as Hdl.
        { intros Edl. apply Hnot. rewrite <- Edl. apply in_map. exact Hd. }
        destruct (Hothers _ _ Hsd Hdl) as [l1 [s1 [H1 [Hne1 Eg]]]].
        exists l1, s1. split; [exact H1|]. split; [exact Hne1|].
        rewrite Esd. exact Eg.
Qed.

Lemma loop_keeps_isolated g idxs g' :
  isolated_in gdf0 l s g ->
  loop g idxs = Py.Ok g' ->
  isolated_in gdf0 l s g'.
Proof.
  revert g. induction idxs as [|idx rest IH]; simpl; intros g Hiso H.
  - injection H as <-. exact Hiso.
  - destruct (iteration g idx) as [g1|e] eqn:E; simpl in H; [|discriminate].
    apply (IH g1); [|exact H]. eapply iteration_keeps_isolated; eauto.
Qed.

End Isolated.

(** X12: a station whose point is not within [max_distance] of the point of
    any other row of the table, in either direction, goes through the loop
    unchanged: its row is in the final table with all its fields and both
    flags as they were (labels unique, the k-neighbour table listing no
    station among its own neighbours). *)
Theorem isolated_station_is_left_alone {L : Libs} (knn : nat -> list nat)
        (score_threshold max_distance : Q) (score_weights : ScoreWeights)
        (gdf : GeoDataFrame) (l : nat) (s : Station)
        (idxs : list nat) (gdf' : GeoDataFrame) :
  (forall i, ~ In i (knn i)) ->
  NoDup (index gdf) ->
  In (l, s) gdf ->
  (forall l0 s0, In (l0, s0) gdf -> l0 <> l ->
                 ~ (point_distance (geometry s0) (geometry s) < max_distance)%Q
                 /\ ~ (point_distance (geometry s) (geometry s0) < max_distance)%Q) ->
  merge_loop knn score_threshold max_distance score_weights gdf idxs = Py.Ok gdf' ->
  In (l, s) gdf'
  /\ forall s', In (l, s') gdf' -> s' = s.
Proof.
  intros Hknn Hnd Hrow Hfar H.
  assert (isolated_in gdf l s gdf) as Hiso.
  { split; [exact Hnd|]. split; [exact Hrow|].
    intros l0 s0 H0 Hl0. exists l0, s0. auto. }
  destruct (loop_keeps_isolated knn score_threshold max_distance score_weights Hknn
                                gdf l s Hfar gdf idxs gdf' Hiso H) as [Hnd' [Hrow' _]].
  split; [exact Hrow'|].
  intros s' Hs'. eapply NoDup_index_functional; eauto.
Qed.

Lemma isolated_station_is_left_alone_witness :
  let b := Run.row Run.bna Run.p_berlin false false in
  let o := Run.row Run.ocm Run.p_berlin false false in
  let f := Run.row Run.far_ocm Run.p_south false false in
  In (2%nat, f) [(0%nat, b); (1%nat, set_is_duplicate o true); (2%nat, f)].
Proof.
  intros b o f.
  apply (isolated_station_is_left_alone (L:=Run.in_order)
           (Run.knn [(0, b); (1, o); (2, f)]%nat 40) (49 # 100) 100 default_score_weights
           [(0, b); (1, o); (2, f)]%nat 2 f [0; 1; 2]%nat).
  - intros i. apply knn_table_irreflexive.
  - repeat constructor; simpl; intuition discriminate.
  - right. right. left. reflexivity.
  - intros l0 s0 [E | [E | [E | []]]] Hne; injection E as <- <-;
      try congruence; split; vm_compute; intros Habs; discriminate Habs.
  - vm_compute. reflexivity.
Defined.

(** ** Loading the processed files *)

Section Loading.

Variable fs : FileSystem.
Variable base : string.
Variable is_test : bool.

Local Abbreviation reads :=
  (fun file content => json_load fs (base ++ "/" ++ file)%string = Py.Ok content).

Lemma load_files_ok files acc ds :
  load_files fs base is_test files acc = (ds, Py.Ok tt) ->
  exists contents,
    Forall2 reads (filter (is_loaded is_test) files) contents
    /\ ds = acc ++ List.concat contents.
Proof.
  revert acc. induction files as [|file rest IH]; intros acc H.
  - simpl in H. injection H as <-. exists []. split; [constructor|].
    simpl. rewrite app_nil_r. reflexivity.
  - cbn [load_files] in H. cbv zeta in H. cbn [filter]. unfold is_loaded at 1.
    destruct (Py.startswith file "test_"), (Py.endswith file "__processed.json"),
      is_test; cbn [negb orb andb] in *;
      try (apply IH; exact H);
      (destruct (json_load fs (base ++ "/" ++ file)%string) as [content|e] eqn:Er;
       [|discriminate];
       destruct (IH _ H) as [contents [Hread ->]];
       exists (content :: contents); split;
       [constructor; assumption | simpl; rewrite app_assoc; reflexivity]).
Qed.

Lemma load_files_raise files acc ds e :
  load_files fs base is_test files acc = (ds, Py.Raise e) ->
  exists pre file post contents,
    filter (is_loaded is_test) files = pre ++ file :: post
    /\ Forall2 reads pre contents
    /\ json_load fs (base ++ "/" ++ file)%string = Py.Raise e
    /\ ds = acc ++ List.concat contents.
Proof.
  revert acc. induction files as [|file rest IH]; intros acc H.
  - simpl in H. discriminate.
  - cbn [load_files] in H. cbv zeta in H. cbn [filter]. unfold is_loaded at 1.
    destruct (Py.startswith file "test_"), (Py.endswith file "__processed.json"),
      is_test; cbn [negb orb andb] in *;
      try (apply IH; exact H);
      (destruct (json_load fs (base ++ "/" ++ file)%string) as [content|e'] eqn:Er;
       [ destruct (IH _ H) as [pre [f [post [contents [Ef [Hread [Hf ->]]]]]]];
         exists (file :: pre), f, post, (content :: contents);
         split; [rewrite Ef; reflexivity|];
         split; [constructor; assumption|];
         split; [exact Hf | simpl; rewrite app_assoc; reflexivity]
       | injection H as <- <-;
         exists [], file; eexists; exists [];
         split; [reflexivity|]; split; [constructor|];
         split; [exact Er | simpl; rewrite app_nil_r; reflexivity] ]).
Qed.

End Loading.

(** X13: when [_load_data] returns, the object holds the records it held
    before followed by the contents of the files it read, in listing order;
    the files read are those whose name ends in ["__processed.json"] and, for
    a test load, starts with ["test_"], for a normal load does not; and the
    object holds at least one record. *)
Theorem _load_data_appends_the_selected_files (fs : FileSystem) (self : Merger)
        (is_test : bool) (self' : Merger) :
  _load_data fs self is_test = (self', Py.Ok tt) ->
  exists files contents,
    listdir fs (base_path self) = Py.Ok files
    /\ Forall2 (fun file content =>
                  json_load fs (base_path self ++ "/" ++ file)%string = Py.Ok content)
               (filter (is_loaded is_test) files) contents
    /\ data_sources self' = data_sources self ++ List.concat contents
    /\ data_sources self' <> []
    /\ base_path self' = base_path self.
Proof.
  unfold _load_data. intros H.
  destruct (listdir fs (base_path self)) as [files|e]; [|discriminate].
  destruct (load_files fs (base_path self) is_test files (data_sources self))
    as [ds [[]|e]] eqn:El.
  - destruct (List.length ds <? 1)%nat eqn:Elen; [discriminate|].
    injection H as <-.
    destruct (load_files_ok _ _ _ _ _ _ El) as [contents [Hread ->]].
    exists files, contents. split; [reflexivity|]. split; [exact Hread|].
    split; [reflexivity|]. split; [|reflexivity].
    simpl. intros Habs. rewrite Habs in Elen. discriminate.
  - discriminate.
Qed.

(** X14: when [_load_data] raises, no record is lost: the object holds what
    it held before followed by what was read until then. The exception is the
    one of the directory listing (nothing read), or the one of the first
    selected file that could not be read (the files before it were read), or,
    every selected file having been read, the [RuntimeError] for an object
    without any record. *)
Theorem _load_data_failure_keeps_records (fs : FileSystem) (self : Merger)
        (is_test : bool) (self' : Merger) (e : Py.exn) :
  _load_data fs self is_test = (self', Py.Raise e) ->
  (exists read, data_sources self' = data_sources self ++ read)
  /\ (listdir fs (base_path self) = Py.Raise e /\ self' = self
      \/ (exists files pre file post contents,
             listdir fs (base_path self) = Py.Ok files
             /\ filter (is_loaded is_test) files = pre ++ file :: post
             /\ Forall2 (fun f content =>
                           json_load fs (base_path self ++ "/" ++ f)%string
                           = Py.Ok content) pre contents
             /\ json_load fs (base_path self ++ "/" ++ file)%string = Py.Raise e
             /\ data_sources self' = data_sources self ++ List.concat contents)
      \/ (e = Py.RuntimeError "Could not read any json files!"
          /\ data_sources self' = []
          /\ exists files contents,
              listdir fs (base_path self) = Py.Ok files
              /\ Forall2 (fun f content =>
                            json_load fs (base_path self ++ "/" ++ f)%string
                            = Py.Ok content)
                         (filter (is_loaded is_test) files) contents)).
Proof.
  unfold _load_data. intros H.
  destruct (listdir fs (base_path self)) as [files|e0].
  - destruct (load_files fs (base_path self) is_test files (data_sources self))
      as [ds [[]|e1]] eqn:El.
    + destruct (load_files_ok _ _ _ _ _ _ El) as [contents [Hread Eds]].
      destruct (List.length ds <? 1)%nat eqn:Elen; [|discriminate].
      injection H as <- <-. simpl. split.
      * exists (List.concat contents). exact Eds.
      * right. right. split; [reflexivity|]. split.
        -- destruct ds; [reflexivity | discriminate].
        -- exists files, contents. auto.
    + injection H as <- <-. simpl.
      destruct (load_files_raise _ _ _ _ _ _ _ El)
        as [pre [file [post [contents [Ef [Hread [Hf Eds]]]]]]].
      split.
      * exists (List.concat contents). exact Eds.
      * right. left. exists files, pre, file, post, contents. auto 6.
  - injection H as <- <-. split.
    + exists []. rewrite app_nil_r. reflexivity.
    + left. auto.
Qed.

Lemma _load_data_appends_the_selected_files_witness :
  exists self',
    _load_data (mkFileSystem
                  (fun _ => Py.Ok ["BNA__processed.json"; "test_OCM__processed.json";
                                   "BNA__raw.json"])
                  (fun path => if String.eqb path "data/BNA__processed.json"
                               then Py.Ok [Run.bna]
                               else Py.Ok [Run.ocm]))
               Run.fresh false
    = (self', Py.Ok tt)
    /\ data_sources self' = [Run.bna].
Proof.
  eexists. split; [vm_compute; reflexivity|].
  destruct (_load_data_appends_the_selected_files
              (mkFileSystem
                 (fun _ => Py.Ok ["BNA__processed.json"; "test_OCM__processed.json";
                                  "BNA__raw.json"])
                 (fun path => if String.eqb path "data/BNA__processed.json"
                              then Py.Ok [Run.bna]
                              else Py.Ok [Run.ocm]))
              Run.fresh false (mkMerger "data" [Run.bna] None None None) eq_refl)
    as [files [contents [_ [_ [E _]]]]].
  reflexivity.
Defined.

Lemma _load_data_failure_keeps_records_witness :
  exists read,
    data_sources (fst (_load_data Run.half_readable
                                  (mkMerger "data" [Run.ocm] None None None) false))
    = [Run.ocm] ++ read.
Proof.
  apply (_load_data_failure_keeps_records
           Run.half_readable (mkMerger "data" [Run.ocm] None None None) false
           (mkMerger "data" [Run.ocm; Run.bna; Run.far_ocm] None None None)
           (Py.JSONDecodeError "Expecting value")).
  vm_compute. reflexivity.
Defined.

(** ** Which records reach the working table *)

Lemma drop_duplicates_first (seen : list string) (rows : list Station) (s : Station) :
  In s (drop_duplicates seen rows) <->
  exists pre post,
    rows = pre ++ s :: post /\ ~ In (id s) (map id pre) /\ ~ In (id s) seen.
Proof.
  revert seen. induction rows as [|r rows IH]; intros seen; simpl.
  - split; [contradiction|]. intros [pre [post [E _]]]. destruct pre; discriminate.
  - destruct (existsb (String.eqb (id r)) seen) eqn:Eseen.
    + apply existsb_exists in Eseen. destruct Eseen as [i [Hi Ei]].
      apply String.eqb_eq in Ei. subst i.
      rewrite IH. split.
      * intros [pre [post [E [Hpre Hseen]]]].
        exists (r :: pre), post. rewrite E. split; [reflexivity|].
        split; [|exact Hseen]. simpl. intros [H | H]; [|contradiction].
        apply Hseen. rewrite <- H. exact Hi.
      * intros [pre [post [E [Hpre Hseen]]]].
        destruct pre as [|r0 pre]; simpl in E; injection E as E0 E.
        -- subst r. contradiction.
        -- exists pre, post. split; [exact E|]. split; [|exact Hseen].
           intros H. apply Hpre. right. exact H.
    + assert (~ In (id r) seen) as Hr.
      { intros Hin.
        assert (existsb (String.eqb (id r)) seen = true) as Habs; [|congruence].
        apply existsb_exists. exists (id r). split; [exact Hin | apply String.eqb_refl]. }
      simpl. rewrite IH. split.
      * intros [E | [pre [post [E [Hpre Hseen]]]]].
        -- subst r. exists [], rows. simpl. auto.
        -- exists (r :: pre), post. rewrite E. split; [reflexivity|]. split.
           ++ simpl. intros [H | H]; [|contradiction]. apply Hseen. left. exact H.
           ++ intros H. apply Hseen. right. exact H.
      * intros [pre [post [E [Hpre Hseen]]]].
        destruct pre as [|r0 pre]; simpl in E; injection E as E0 E.
        -- left. exact E0.
        -- right. subst r0. exists pre, post. split; [exact E|]. split.
           ++ intros H. apply Hpre. right. exact H.
           ++ intros [H | H]; [|contradiction]. apply Hpre. left. exact H.
Qed.

Lemma map_snd_reset_index (rows : list Station) : map snd (reset_index rows) = rows.
Proof.
  unfold reset_index. generalize 0%nat.
  induction rows as [|r rs IH]; simpl; intros n; [reflexivity|].
  apply f_equal. apply IH.
Qed.

(** X15: the working table built by [_prepare_geodataframe] holds a record
    exactly when its coordinates parse, it is the first record with its
    identifier among those whose coordinates parse, and it has an operator
    and a socket-type list; it enters unflagged. So when the first record of
    an identifier is incomplete, no record with that identifier is in the
    table, even if a later one is complete ([sample] permuting the rows). *)
Theorem _prepare_geodataframe_keeps_first_complete {L : Libs} (self : Merger)
        (gdf : GeoDataFrame) :
  (forall g, Permutation (sample g) g) ->
  _prepare_geodataframe self = Py.Ok gdf ->
  let parsed := flat_map normalize_row (data_sources self) in
  (forall s, In s (map snd gdf) <->
             is_complete s = true
             /\ exists pre post, parsed = pre ++ s :: post /\ ~ In (id s) (map id pre))
  /\ (forall l s, In (l, s) gdf -> is_duplicate s = false /\ merged_attributes s = false)
  /\ (forall pre s0 post,
         parsed = pre ++ s0 :: post ->
         ~ In (id s0) (map id pre) ->
         is_complete s0 = false ->
         ~ In (id s0) (ids gdf)).
Proof.
  intros Hsample Hp parsed.
  set (rows := filter is_complete (drop_duplicates [] parsed)).
  assert (gdf = sample (reset_index rows)) as Eg.
  { unfold _prepare_geodataframe in Hp. unfold rows, parsed.
    destruct (data_sources self) as [|sd0 ds]; [discriminate|].
    injection Hp as <-. reflexivity. }
  assert (forall s, In s (map snd gdf) <-> In s rows) as Hrows.
  { intros s. rewrite Eg.
    assert (Permutation (map snd (sample (reset_index rows))) rows) as Hperm.
    { eapply Permutation_trans; [apply Permutation_map; apply Hsample|].
      rewrite map_snd_reset_index. apply Permutation_refl. }
    split; intros H.
    - eapply Permutation_in; [exact Hperm | exact H].
    - eapply Permutation_in; [apply Permutation_sym; exact Hperm | exact H]. }
  assert (forall s, In s rows <->
                    is_complete s = true
                    /\ exists pre post, parsed = pre ++ s :: post
                                        /\ ~ In (id s) (map id pre)) as Hchar.
  { intros s. unfold rows. rewrite filter_In, drop_duplicates_first. split.
    - intros [[pre [post [E [Hpre _]]]] Hc]. split; [exact Hc|]. exists pre, post. auto.
    - intros [Hc [pre [post [E Hpre]]]]. split; [|exact Hc].
      exists pre, post. split; [exact E|]. split; [exact Hpre|]. intros []. }
  split; [|split].
  - intros s. rewrite Hrows. apply Hchar.
  - intros l s Hs.
    assert (In s rows) as Hin.
    { apply Hrows. change s with (snd (l, s)). apply in_map. exact Hs. }
    unfold rows in Hin. apply filter_In in Hin. destruct Hin as [Hin _].
    apply drop_duplicates_incl in Hin. destruct Hin as [Hin _].
    unfold parsed in Hin. apply in_flat_map in Hin. destruct Hin as [sd [_ Hs0]].
    unfold normalize_row in Hs0. destruct (get_wkt (sd_coordinates sd)); [|contradiction].
    destruct Hs0 as [<- | []]. split; reflexivity.
  - intros pre s0 post E Hpre Hinc Hin.
    apply In_ids in Hin. destruct Hin as [l [s [Hs Eid]]].
    assert (In s rows) as Hrow.
    { apply Hrows. change s with (snd (l, s)). apply in_map. exact Hs. }
    apply Hchar in Hrow. destruct Hrow as [Hc [pre' [post' [E' Hpre']]]].
    assert (pre' = pre /\ s = s0) as [_ ->].
    { clear - E E' Hpre Hpre' Eid. rewrite E in E'. clear E.
      revert pre' E' Hpre'. induction pre as [|a pre IH]; intros pre' E' Hpre'.
      - destruct pre' as [|a' pre']; simpl in E'; injection E' as E0 E'.
        + auto.
        + exfalso. apply Hpre'. left. rewrite <- E0. symmetry. exact Eid.
      - destruct pre' as [|a' pre']; simpl in E'; injection E' as E0 E'.
        + exfalso. apply Hpre. left. rewrite E0. exact Eid.
        + subst a'. destruct (IH (fun H => Hpre (or_intror H)) pre' E'
                                 (fun H => Hpre' (or_intror H))) as [-> ->].
          auto. }
    congruence.
Qed.

Lemma _prepare_geodataframe_keeps_first_complete_witness :
  ~ In (sd_id Run.no_operator)
       (ids [(0%nat, Run.row Run.far_ocm Run.p_south false false)]).
Proof.
  pose (later := mkStationDict "id-noop" "OCM" Run.no_address Run.sockets (Some "EnBW")
                               None None "POINT(9 48)" "{}").
  destruct (_prepare_geodataframe_keeps_first_complete
              (L:=Run.in_order)
              (mkMerger "data" [Run.far_ocm; Run.no_operator; later] None None None)
              [(0%nat, Run.row Run.far_ocm Run.p_south false false)])
    as [_ [_ H]].
  - intros g. apply Permutation_refl.
  - vm_compute. reflexivity.
  - apply (H [Run.row Run.far_ocm Run.p_south false false]
             (Run.row Run.no_operator Run.p_south false false)
             [Run.row later Run.p_south false false]).
    + reflexivity.
    + simpl. intros [Habs | []]. discriminate.
    + reflexivity.
Defined.



(** * The connectors *)

(** ** Lemmas on texts *)

Lemma any_ext (p q : ascii -> bool) (s : string) :
  (forall c, p c = q c) -> Text.any p s = Text.any q s.
Proof.
  intros E. induction s as [|c s IH]; simpl; [reflexivity|].
  rewrite E, IH. reflexivity.
Qed.

Lemma all_keep (p : ascii -> bool) (s : string) :
  Text.all p (Text.keep p s) = true.
Proof.
  unfold Text.all. apply negb_true_iff.
  induction s as [|c s IH]; simpl; [reflexivity|].
  destruct (p c) eqn:E; simpl; [rewrite E; simpl|]; exact IH.
Qed.

Lemma all_negb_any (p : ascii -> bool) (s : string) :
  Text.all (fun c => negb (p c)) s = negb (Text.any p s).
Proof.
  unfold Text.all. f_equal. apply any_ext. intros c. apply negb_involutive.
Qed.

Lemma any_keep_false (p q : ascii -> bool) (s : string) :
  (forall c, q c = true -> p c = false) -> Text.any p (Text.keep q s) = false.
Proof.
  intros E. induction s as [|c s IH]; simpl; [reflexivity|].
  destruct (q c) eqn:Q; simpl; [rewrite (E _ Q); simpl|]; exact IH.
Qed.

Lemma length_keep_le (p : ascii -> bool) (s : string) :
  (String.length (Text.keep p s) <= String.length s)%nat.
Proof.
  induction s as [|c s IH]; simpl; [lia|].
  destruct (p c); simpl; lia.
Qed.

(** What the validation shared by the OCM and OSM connectors lets through. *)
Lemma validated_postcode {B : Builtins} (text : string) :
  postcode_ok (if negb (String.length (Text.keep isdigit text) =? 5)%nat
               then None else Some (Text.keep isdigit text)).
Proof.
  destruct (String.length (Text.keep isdigit text) =? 5)%nat eqn:E; simpl; [|exact I].
  split; [apply Nat.eqb_eq; exact E | apply all_keep].
Qed.

Lemma validated_town {B : Builtins} (town : string) :
  place_ok (if (String.length town <? 2)%nat
               || negb (Text.all (fun s => negb (isdigit s)) town)
            then None else Some town).
Proof.
  destruct (String.length town <? 2)%nat eqn:E; simpl; [exact I|].
  rewrite all_negb_any, negb_involutive.
  destruct (Text.any isdigit town) eqn:D; simpl; [exact I|].
  apply Nat.ltb_ge in E. split; [exact E | exact D].
Qed.

Lemma validated_state {B : Builtins} (state : string) :
  place_ok (if negb (Text.all (fun s => negb (isdigit s)) state)
               || (String.length state <? 2)%nat
            then None else Some state).
Proof.
  rewrite orb_comm. apply validated_town.
Qed.

Lemma if_some_inv {A : Type} (c : bool) (x y : A) :
  (if c then None else Some x) = Some y -> x = y.
Proof.
  destruct c; congruence.
Qed.

(** ** Addresses *)

(** X16: [OCMConnector._create_address] returns for every [AddressInfo] that
    is present, and the address it builds is validated: the postcode is
    absent or the five digits left of the raw postcode, town and state are
    absent or the raw text, two characters at least and free of digits, the
    district is always absent and the street is copied. *)
Theorem ocm_address_is_validated {B : Builtins}
        (info : OCMConnector.AddressInfoDict) (identifier : string)
        (station_raw : OCMConnector.StationRaw) :
  exists a,
    OCMConnector._create_address (Some info) identifier station_raw = Exc.Return a
    /\ address_ok a
    /\ (forall p, postcode a = Some p ->
                  exists text, OCMConnector.Postcode info = Some text
                               /\ p = Text.keep isdigit text)
    /\ (forall t, town a = Some t -> OCMConnector.Town info = Some t)
    /\ (forall t, state a = Some t -> OCMConnector.StateOrProvince info = Some t)
    /\ street a = OCMConnector.street_ info.
Proof.
  unfold OCMConnector._create_address. eexists. split; [reflexivity|].
  unfold address_ok. simpl.
  split; [|split; [|split; [|split]]].
  - split; [|split; [|split; [|reflexivity]]].
    + destruct (OCMConnector.Postcode info) as [text|]; [apply validated_postcode|exact I].
    + apply validated_town.
    + apply validated_state.
  - intros p H. destruct (OCMConnector.Postcode info) as [text|].
    + exists text. split; [reflexivity|]. symmetry. exact (if_some_inv _ _ _ H).
    + discriminate H.
  - intros t H. destruct (OCMConnector.Town info) as [town|].
    + apply if_some_inv in H. congruence.
    + discriminate H.
  - intros t H. destruct (OCMConnector.StateOrProvince info) as [state|].
    + apply if_some_inv in H. congruence.
    + discriminate H.
  - reflexivity.
Qed.

(** X17: [OSMConnector._create_address] validates the tags the same way; the
    house number, when both are tagged, is appended to the street after one
    blank, and the country is [DE] unless the element is tagged otherwise. *)
Theorem osm_address_is_validated {B : Builtins}
        (identifier : string) (station_raw : OSMConnector.StationRaw) :
  let a := OSMConnector._create_address identifier station_raw in
  address_ok a
  /\ (forall p, postcode a = Some p ->
                exists tags text,
                  OSMConnector.tags station_raw = Some tags
                  /\ lookup tags "addr:postcode" = Some text
                  /\ p = Text.keep isdigit text)
  /\ (forall t, town a = Some t ->
                exists tags, OSMConnector.tags station_raw = Some tags
                             /\ lookup tags "addr:city" = Some t)
  /\ (forall tags, OSMConnector.tags station_raw = Some tags ->
                   street a
                   = match lookup tags "addr:street", lookup tags "addr:housenumber" with
                     | Some street, Some house_number =>
                         Some (street ++ " " ++ house_number)%string
                     | street, _ => street
                     end
                   /\ country a
                      = Some (match lookup tags "addr:country" with
                              | Some c => c
                              | None => "DE"
                              end))
  /\ (OSMConnector.tags station_raw = None ->
      a = mkAddress None None None None None None).
Proof.
  unfold OSMConnector._create_address.
  destruct (OSMConnector.tags station_raw) as [tags|]; simpl.
  - unfold address_ok, get_default. simpl.
    split; [|split; [|split; [|split]]].
    + split; [|split; [|split; [|reflexivity]]].
      * destruct (lookup tags "addr:postcode") as [text|];
          [apply validated_postcode|exact I].
      * apply validated_town.
      * apply validated_state.
    + intros p H. destruct (lookup tags "addr:postcode") as [text|] eqn:E.
      * exists tags, text. split; [reflexivity|]. split; [exact E|].
        symmetry. exact (if_some_inv _ _ _ H).
      * discriminate H.
    + intros t H. exists tags. split; [reflexivity|].
      destruct (lookup tags "addr:city") as [town|] eqn:E.
      * apply if_some_inv in H. congruence.
      * discriminate H.
    + intros tags' E. injection E as <-. split.
      * destruct (lookup tags "addr:street"), (lookup tags "addr:housenumber");
          reflexivity.
      * reflexivity.
    + discriminate.
  - unfold address_ok. simpl.
    split; [repeat split|].
    split; [discriminate|]. split; [discriminate|]. split; [discriminate|].
    reflexivity.
Qed.

Lemma append_one (p : string) (c : ascii) (r : string) :
  ((p ++ String c EmptyString) ++ r)%string = (p ++ String c r)%string.
Proof.
  induction p as [|d p IH]; simpl; [reflexivity|]. rewrite IH. reflexivity.
Qed.

Lemma append_empty (p : string) : (p ++ EmptyString)%string = p.
Proof.
  induction p as [|d p IH]; simpl; [reflexivity|]. rewrite IH. reflexivity.
Qed.

Lemma postcode_town_loop_keeps {B : Builtins} (chars postcode town : string) :
  BNAConnector.postcode_town_loop chars postcode town
  = ((postcode ++ Text.keep (fun s => negb (isspace s) && isdigit s) chars)%string,
     (town ++ Text.keep (fun s => negb (isspace s) && negb (isdigit s)) chars)%string).
Proof.
  revert postcode town.
  induction chars as [|s rest IH]; intros postcode town; simpl.
  - rewrite !append_empty. reflexivity.
  - destruct (isspace s); simpl; [apply IH|].
    destruct (isdigit s); simpl; rewrite IH, append_one; reflexivity.
Qed.

(** X18: [BNAConnector._create_address] needs a text in the column
    [Postleitzahl Ort] and raises [TypeError] without one.  From the text it
    takes the digits as postcode and every other character that is no white
    space as town, in their order: the postcode is kept when these are five
    digits, the town when it has two characters, so a town never holds a
    blank or a digit.  The country is always [DE]. *)
Theorem bna_address_splits_postcode_and_town {B : Builtins}
        (identifier : string) (station_raw : BNAConnector.StationRaw) :
  match BNAConnector.get station_raw "Postleitzahl Ort" with
  | OStr text =>
      exists a,
        BNAConnector._create_address identifier station_raw = Exc.Return a
        /\ postcode_ok (BNAConnector.a_postcode a)
        /\ (forall p, BNAConnector.a_postcode a = Some p ->
                      p = Text.keep (fun s => negb (isspace s) && isdigit s) text)
        /\ (forall t, BNAConnector.a_town a = Some t ->
                      t = Text.keep (fun s => negb (isspace s) && negb (isdigit s)) text
                      /\ (2 <= String.length t)%nat
                      /\ Text.any isspace t = false
                      /\ Text.any isdigit t = false)
        /\ BNAConnector.a_country a = "DE"
        /\ BNAConnector.a_district a = None
        /\ BNAConnector.a_street a = BNAConnector.get station_raw "Adresse"
        /\ BNAConnector.a_state a = BNAConnector.get station_raw "Bundesland"
  | _ =>
      BNAConnector._create_address identifier station_raw
      = Exc.Raise (Exc.TypeError "'NoneType' object is not iterable")
  end.
Proof.
  unfold BNAConnector._create_address.
  destruct (BNAConnector.get station_raw "Postleitzahl Ort") as [|x|text|];
    try reflexivity.
  rewrite postcode_town_loop_keeps. simpl.
  eexists. split; [reflexivity|]. simpl.
  set (digits := Text.keep (fun s => negb (isspace s) && isdigit s) text).
  set (letters := Text.keep (fun s => negb (isspace s) && negb (isdigit s)) text).
  split; [|split; [|split; [|repeat split]]].
  - destruct (String.length digits =? 5)%nat eqn:E; simpl; [|exact I].
    split; [apply Nat.eqb_eq; exact E|].
    unfold Text.all. apply negb_true_iff. apply any_keep_false.
    intros c H. apply andb_true_iff in H. destruct H as [_ H]. rewrite H. reflexivity.
  - intros p H. apply if_some_inv in H. symmetry. exact H.
  - intros t H. destruct (String.length letters <? 2)%nat eqn:E; [discriminate H|].
    injection H as <-. apply Nat.ltb_ge in E.
    split; [reflexivity|]. split; [exact E|]. split.
    + apply any_keep_false. intros c H. apply andb_true_iff in H.
      destruct H as [H _]. apply negb_true_iff. exact H.
    + apply any_keep_false. intros c H. apply andb_true_iff in H.
      destruct H as [_ H]. apply negb_true_iff. exact H.
Qed.

(** ** Coordinates *)

Lemma prefix_one (a c : ascii) (rest : string) :
  String.prefix (String a EmptyString) (String c rest) = Ascii.eqb a c.
Proof.
  simpl. destruct (ascii_dec a c) as [->|N].
  - rewrite Ascii.eqb_refl. destruct rest; reflexivity.
  - symmetry. apply Ascii.eqb_neq. exact N.
Qed.

(** Replacing a one-character pattern by one character, position by position. *)
Lemma replace_scan_one (a b c : ascii) (rest : string) :
  Text.replace_scan (String a EmptyString) (String b EmptyString) 0 (String c rest)
  = String (if Ascii.eqb a c then b else c)
           (Text.replace_scan (String a EmptyString) (String b EmptyString) 0 rest).
Proof.
  cbn [Text.replace_scan]. rewrite prefix_one.
  destruct (Ascii.eqb a c); reflexivity.
Qed.

Lemma keep_replace_comma {B : Builtins} (s : string) :
  Text.keep (fun c => isdigit c || Ascii.eqb c ".") (Text.replace "," "." s)
  = Text.replace "," "." (Text.keep coordinate_char s).
Proof.
  unfold Text.replace, coordinate_char.
  induction s as [|c s IH]; [reflexivity|].
  rewrite replace_scan_one. cbn [Text.keep].
  destruct (Ascii.eqb_spec "," c) as [<-|N].
  - rewrite !orb_true_r. rewrite replace_scan_one. simpl. rewrite IH. reflexivity.
  - assert (F : Ascii.eqb c "," = false) by (apply Ascii.eqb_neq; congruence).
    rewrite F, orb_false_r.
    destruct (isdigit c || Ascii.eqb c ".")%bool.
    + rewrite replace_scan_one.
      destruct (Ascii.eqb_spec "," c) as [E|_]; [contradiction|].
      rewrite IH. reflexivity.
    + exact IH.
Qed.

(** X19: [check_coordinates] reads, in a text, only the digits, the points
    and the commas (a comma counting as a point): two texts that agree on
    these characters give the same outcome, so a sign is lost. *)
Theorem check_coordinates_reads_digits_and_points {B : Builtins} (s t : string) :
  Text.keep coordinate_char s = Text.keep coordinate_char t ->
  OCMConnector.check_coordinates (OStr s) = OCMConnector.check_coordinates (OStr t).
Proof.
  intros E. unfold OCMConnector.check_coordinates.
  rewrite !keep_replace_comma, E. reflexivity.
Qed.

Lemma check_coordinates_reads_digits_and_points_witness :
  OCMConnector.check_coordinates (B := Sample.builtins) (OStr "-13,45")
  = OCMConnector.check_coordinates (B := Sample.builtins) (OStr "13,45")
  /\ OCMConnector.check_coordinates (B := Sample.builtins) (OStr "13,45")
     = Exc.Return (Finite (1345 # 100)).
Proof.
  split.
  - apply (check_coordinates_reads_digits_and_points (B := Sample.builtins)).
    reflexivity.
  - reflexivity.
Defined.

(** ** Charging *)

Lemma split_scan_pieces (sep : ascii) (s cur : string) :
  Text.has_char sep cur = false ->
  Forall (fun piece => Text.has_char sep piece = false) (Text.split_scan sep cur s).
Proof.
  revert cur. induction s as [|c s IH]; intros cur H; simpl.
  - constructor; [exact H|constructor].
  - destruct (Ascii.eqb c sep) eqn:E.
    + constructor; [exact H|]. apply IH. reflexivity.
    + apply IH. clear IH. induction cur as [|d cur IHc]; simpl.
      * rewrite E. reflexivity.
      * simpl in H. apply orb_false_iff in H. destruct H as [H1 H2].
        rewrite H1. simpl. apply IHc. exact H2.
Qed.

Lemma socket_steps (infos : list string) (socket_type_list : list string) (dc : bool) :
  fold_left BNAConnector.socket_step infos (socket_type_list, dc)
  = (socket_type_list ++ flat_map (Text.split ",") infos,
     dc || existsb (Text.contains "DC") (flat_map (Text.split ",") infos)).
Proof.
  revert socket_type_list dc.
  induction infos as [|info infos IH]; intros l dc; simpl.
  - rewrite app_nil_r, orb_false_r. reflexivity.
  - rewrite IH, existsb_app, <- app_assoc. f_equal.
    destruct dc; simpl; [reflexivity|].
    destruct (existsb (Text.contains "DC") (Text.split "," info)); reflexivity.
Qed.

(** X20: in [BNAConnector._create_charging], [dc_support] is set exactly when
    one of the collected socket types contains [DC], and no socket type
    holds a comma: each is one piece of a [Steckertypen] cell. *)
Theorem bna_dc_support_reflects_socket_types {B : Builtins}
        (identifier : string) (station_raw : BNAConnector.StationRaw) :
  let charging := BNAConnector._create_charging identifier station_raw in
  BNAConnector.c_dc_support charging
  = existsb (Text.contains "DC") (BNAConnector.c_socket_type_list charging)
  /\ Forall (fun socket_type => Text.has_char "," socket_type = false)
            (BNAConnector.c_socket_type_list charging).
Proof.
  unfold BNAConnector._create_charging. rewrite socket_steps. simpl.
  split; [reflexivity|].
  apply Forall_flat_map. apply Forall_forall. intros info _.
  apply split_scan_pieces. reflexivity.
Qed.

(** The largest element, for [max] on exact numbers. *)
Lemma py_max_greatest (rest : list Q) (first : Q) :
  let m := py_max (fun a b => Py.ltb b a) first rest in
  In m (first :: rest) /\ forall x, In x (first :: rest) -> (x <= m)%Q.
Proof.
  unfold py_max. cbv zeta.
  revert first. induction rest as [|y rest IH]; intros first; cbn [fold_left].
  - split; [left; reflexivity|]. intros x [<-|[]]. apply Qle_refl.
  - set (next := if Py.ltb first y then y else first).
    destruct (IH next) as [Hin Hle].
    assert (Hf : (first <= next)%Q /\ (y <= next)%Q /\ (next = first \/ next = y)).
    { unfold next, Py.ltb. destruct (Qle_bool y first) eqn:E; simpl.
      - apply Qle_bool_iff in E. split; [apply Qle_refl|]. split; [exact E|]. left. reflexivity.
      - split; [|split; [apply Qle_refl|right; reflexivity]].
        destruct (Qlt_le_dec first y) as [L|L]; [apply Qlt_le_weak; exact L|].
        apply Qle_bool_iff in L. congruence. }
    destruct Hf as [Hf [Hy Hn]].
    split.
    + destruct Hin as [Hin|Hin].
      * destruct Hn as [Hn|Hn]; [left|right; left]; congruence.
      * right. right. exact Hin.
    + intros x [<-|[<-|Hx]].
      * apply Qle_trans with next; [exact Hf|]. apply Hle. left. reflexivity.
      * apply Qle_trans with next; [exact Hy|]. apply Hle. left. reflexivity.
      * apply Hle. right. exact Hx.
Qed.

Lemma py_max_finite (rest : list Q) (first : Q) :
  py_max float_gt (Finite first) (map Finite rest)
  = Finite (py_max (fun a b => Py.ltb b a) first rest).
Proof.
  revert first. unfold py_max.
  induction rest as [|y rest IH]; intros first; simpl; [reflexivity|].
  destruct (Py.ltb first y); apply IH.
Qed.

Lemma finite_list (l : list Float) :
  Forall (fun x => x <> NaN) l -> exists qs, l = map Finite qs.
Proof.
  induction 1 as [|x l Hx _ [qs ->]].
  - exists []. reflexivity.
  - destruct x as [q|]; [|congruence]. exists (q :: qs). reflexivity.
Qed.

(** X21: [BNAConnector._create_charging] never reports [nan] as [total_kw],
    and [max_kw] is absent exactly when [kw_list] is empty, whatever the
    row; when [kw_list] holds no [nan], [max_kw] is an entry of [kw_list]
    that no entry exceeds. *)
Theorem bna_max_kw_is_the_largest_entry {B : Builtins}
        (identifier : string) (station_raw : BNAConnector.StationRaw) :
  let charging := BNAConnector._create_charging identifier station_raw in
  BNAConnector.c_total_kw charging <> Some NaN
  /\ (BNAConnector.c_max_kw charging = None <-> BNAConnector.c_kw_list charging = [])
  /\ (Forall (fun x => x <> NaN) (BNAConnector.c_kw_list charging) ->
      forall m, BNAConnector.c_max_kw charging = Some m ->
                exists top, m = Finite top
                            /\ In m (BNAConnector.c_kw_list charging)
                            /\ forall q, In (Finite q) (BNAConnector.c_kw_list charging) ->
                                         (q <= top)%Q).
Proof.
  unfold BNAConnector._create_charging.
  destruct (fold_left BNAConnector.socket_step _ _) as [sockets dc]. simpl.
  split; [|split; [|intros Hfin]].
  - destruct (get_default station_raw "Anschlussleistung [kW]" ONone) as [|[q|]|text|];
      try congruence.
    match goal with
    | |- context [float ?t] => destruct (float t) as [[q|]|e]
    end; congruence.
  - destruct (fold_left BNAConnector.kw_step station_raw []); split; congruence.
  - destruct (finite_list _ Hfin) as [qs E]. rewrite E. clear E Hfin.
    destruct qs as [|first rest]; simpl; [discriminate|].
    intros m Hm. injection Hm as <-. rewrite py_max_finite.
    destruct (py_max_greatest rest first) as [Hin Hle].
    eexists. split; [reflexivity|]. split.
    + apply (in_map Finite (first :: rest)). exact Hin.
    + intros q Hq. apply Hle.
      apply (in_map_iff Finite (first :: rest)) in Hq.
      destruct Hq as [q' [E Hq]]. injection E as ->. exact Hq.
Qed.

Lemma connection_steps (connections : list OCMConnector.ConnectionDict)
      (kw ampere volt : list Q) (sockets : list string) :
  fold_left OCMConnector.connection_step connections (kw, ampere, volt, sockets)
  = (kw ++ flat_map (connection_entries OCMConnector.PowerKW) connections,
     ampere ++ flat_map (connection_entries OCMConnector.Amps) connections,
     volt ++ flat_map (connection_entries OCMConnector.Voltage) connections,
     sockets ++ flat_map (fun connection =>
                            match OCMConnector.CurrentType connection with
                            | Some currentType =>
                                match OCMConnector.Title currentType with
                                | Some socket_title => [socket_title]
                                | None => []
                                end
                            | None => []
                            end) connections).
Proof.
  revert kw ampere volt sockets.
  induction connections as [|c connections IH]; intros kw ampere volt sockets.
  - simpl. rewrite !app_nil_r. reflexivity.
  - cbn [fold_left flat_map]. unfold OCMConnector.connection_step at 2.
    rewrite IH. unfold connection_entries, connection_quantity, OCMConnector.extend.
    f_equal; [f_equal; [f_equal|]|].
    + destruct (OCMConnector.PowerKW c); [rewrite <- app_assoc|]; reflexivity.
    + destruct (OCMConnector.Amps c); [rewrite <- app_assoc|]; reflexivity.
    + destruct (OCMConnector.Voltage c); [rewrite <- app_assoc|]; reflexivity.
    + destruct (OCMConnector.CurrentType c) as [t|]; [|reflexivity].
      destruct (OCMConnector.Title t); [rewrite <- app_assoc|]; reflexivity.
Qed.

(** X22: [OCMConnector._create_charging] lists the power of every connection
    as often as its quantity, in the order of the connections; [kw_list] is
    absent when that list is empty, [total_kw] is its sum, and [max_kw] is
    absent with it or else one of its entries that no entry exceeds. *)
Theorem ocm_charging_collects_connection_power
        (identifier : string) (station_raw : OCMConnector.StationRaw) :
  let charging := OCMConnector._create_charging identifier station_raw in
  let entries :=
    flat_map (connection_entries OCMConnector.PowerKW) (connections_of station_raw) in
  kw_list charging = match entries with [] => None | _ => Some entries end
  /\ total_kw charging = Some (fold_left Qplus entries 0%Q)
  /\ (max_kw charging = None <-> entries = [])
  /\ (forall m, max_kw charging = Some m ->
                In m entries /\ forall x, In x entries -> (x <= m)%Q)
  /\ ampere_list charging = None
  /\ volt_list charging = None.
Proof.
  unfold OCMConnector._create_charging, connections_of.
  destruct (OCMConnector.Connections station_raw) as [connections|].
  - rewrite connection_steps. cbn [app].
    set (entries := flat_map (connection_entries OCMConnector.PowerKW) connections).
    cbv zeta. cbn [kw_list total_kw max_kw ampere_list volt_list].
    split; [reflexivity|]. split; [reflexivity|]. split; [|split; [|split; reflexivity]].
    + destruct entries; split; congruence.
    + intros m Hm. destruct entries as [|first rest]; [discriminate|].
      injection Hm as <-. apply py_max_greatest.
  - cbn. split; [reflexivity|]. split; [reflexivity|].
    split; [split; reflexivity|]. split; [discriminate|]. split; reflexivity.
Qed.

(** ** The serializer *)

(** X23: what [default] writes for a [datetime] or a [bytes] identifier,
    [object_hook] reads back as the same object, given that [fromisoformat]
    inverts [isoformat] and that encoding inverts decoding. *)
Theorem object_hook_inverts_default
        (datetime : Type) (isoformat : datetime -> string)
        (fromisoformat : string -> Exc.outcome datetime)
        (decode : list Byte.byte -> Exc.outcome string)
        (encode : string -> list Byte.byte)
        (obj written : Serializer.Obj datetime) :
  (forall d, fromisoformat (isoformat d) = Exc.Return d) ->
  (forall b text, decode b = Exc.Return text -> encode text = b) ->
  Serializer.default datetime isoformat decode obj = Exc.Return written ->
  Serializer.object_hook datetime fromisoformat encode written = Exc.Return obj.
Proof.
  intros Hiso Hutf H. destruct obj as [d|b|s|items| |]; try discriminate H.
  - injection H as <-. unfold Serializer.object_hook. cbn. rewrite Hiso. reflexivity.
  - cbn in H. destruct (decode b) as [text|e] eqn:E; [|discriminate H].
    injection H as <-. unfold Serializer.object_hook. cbn.
    rewrite (Hutf _ _ E). reflexivity.
Qed.

Lemma object_hook_inverts_default_witness :
  let datetime := string in
  let isoformat := fun d : string => d in
  let fromisoformat := fun text : string => Exc.Return text in
  let decode := fun b => Exc.Return (string_of_list_byte b) in
  let encode := list_byte_of_string in
  let obj := Serializer.Bytes (datetime := datetime) (list_byte_of_string "0a1f") in
  Serializer.default datetime isoformat decode obj
  = Exc.Return (Serializer.Dict [("_id", Serializer.Str "0a1f")])
  /\ Serializer.object_hook datetime fromisoformat encode
                            (Serializer.Dict [("_id", Serializer.Str "0a1f")])
     = Exc.Return obj.
Proof.
  intros datetime isoformat fromisoformat decode encode obj.
  split; [reflexivity|].
  apply (object_hook_inverts_default datetime isoformat fromisoformat decode encode obj).
  - reflexivity.
  - intros b text H. injection H as <-. apply list_byte_of_string_of_list_byte.
  - reflexivity.
Defined.

(** ** Lists of numbers in a tag *)

Lemma any_exists (p : ascii -> bool) (s : string) :
  Text.any p s = true <-> exists c, Text.has_char c s = true /\ p c = true.
Proof.
  induction s as [|d s IH]; simpl.
  - split; [discriminate|]. intros [c [H _]]. discriminate H.
  - rewrite orb_true_iff, IH. split.
    + intros [H|[c [H1 H2]]].
      * exists d. rewrite Ascii.eqb_refl. split; [reflexivity|exact H].
      * exists c. rewrite H1, orb_true_r. split; [reflexivity|exact H2].
    + intros [c [H1 H2]]. apply orb_true_iff in H1. destruct H1 as [H1|H1].
      * apply Ascii.eqb_eq in H1. subst c. left. exact H2.
      * right. exists c. split; assumption.
Qed.

Lemma split_scan_not_nil (sep : ascii) (s cur : string) :
  Text.split_scan sep cur s <> [].
Proof.
  revert cur. induction s as [|c s IH]; intros cur; simpl; [discriminate|].
  destruct (Ascii.eqb c sep); [discriminate|apply IH].
Qed.

Lemma existsb_eqb_In (x : string) (l : list string) :
  existsb (String.eqb x) l = true <-> In x l.
Proof.
  rewrite existsb_exists. split.
  - intros [y [H E]]. apply String.eqb_eq in E. subst y. exact H.
  - intros H. exists x. split; [exact H|apply String.eqb_refl].
Qed.

(** X24: given a [transform_fn] that yields numbers, [_string_to_number_list]
    answers [None] for a text exactly when the text holds a punctuation
    character that is neither a separator nor the semicolon; a decimal point
    is such a character under the default separators. *)
Theorem number_list_is_none_for_foreign_punctuation {B : Builtins}
        (list_string : string) (transform_fn : string -> Exc.outcome PyObj)
        (separator_list : list string) (x : Float) :
  transform_fn "12" = Exc.Return (ONumber x) ->
  (OSMConnector._string_to_number_list (OStr list_string) transform_fn separator_list
   = Exc.Return None
   <-> exists c, Text.has_char c list_string = true
                 /\ Text.has_char c Text.punctuation = true
                 /\ ~ In (String c EmptyString) (separator_list ++ [";"])).
Proof.
  intros Hprobe. unfold OSMConnector._string_to_number_list.
  rewrite Hprobe. cbn [Exc.bind is_number negb].
  match goal with
  | |- context [Text.any ?p list_string] =>
      set (foreign := p); destruct (Text.any foreign list_string) eqn:E
  end.
  - split; [intros _|reflexivity].
    apply any_exists in E. destruct E as [c [H1 H2]]. exists c.
    unfold foreign in H2. apply andb_true_iff in H2. destruct H2 as [H2 H3].
    split; [exact H1|]. split; [exact H2|].
    intros Hin. apply existsb_eqb_In in Hin. rewrite Hin in H3. discriminate H3.
  - split.
    + intros H. exfalso.
      match type of H with
      | Exc.bind ?r _ = _ => destruct r as [numbers|e]; [|discriminate H]
      end.
      cbn [Exc.bind] in H.
      match type of H with
      | match map _ ?l with _ => _ end = _ =>
          destruct l as [|piece pieces] eqn:P
      end.
      * exact (split_scan_not_nil _ _ _ P).
      * discriminate H.
    + intros [c [H1 [H2 H3]]]. exfalso.
      assert (T : Text.any foreign list_string = true).
      { apply any_exists. exists c. split; [exact H1|]. unfold foreign.
        rewrite H2. cbn [andb]. apply negb_true_iff.
        destruct (existsb _ _) eqn:X; [|reflexivity].
        apply existsb_eqb_In in X. contradiction. }
      congruence.
Qed.

Lemma has_char_any (c : ascii) (s : string) :
  Text.has_char c s = Text.any (fun d => Ascii.eqb d c) s.
Proof.
  induction s as [|d s IH]; simpl; [reflexivity|]. rewrite IH. reflexivity.
Qed.

Lemma any_append (p : ascii -> bool) (a b : string) :
  Text.any p (a ++ b) = Text.any p a || Text.any p b.
Proof.
  induction a as [|d a IH]; simpl; [reflexivity|]. rewrite IH, orb_assoc. reflexivity.
Qed.

Lemma any_join (p : ascii -> bool) (sep : string) (parts : list string) :
  Text.any p sep = false ->
  Forall (fun part => Text.any p part = false) parts ->
  Text.any p (Text.join sep parts) = false.
Proof.
  intros Hsep H. induction H as [|part parts Hp Hparts IH]; [reflexivity|].
  destruct parts as [|next parts]; [exact Hp|].
  change (Text.join sep (part :: next :: parts))
    with (part ++ sep ++ Text.join sep (next :: parts))%string.
  rewrite !any_append, Hp, Hsep, IH. reflexivity.
Qed.

Lemma any_false_within (p q : ascii -> bool) (s : string) :
  Text.all p s = true -> (forall c, p c = true -> q c = false) -> Text.any q s = false.
Proof.
  unfold Text.all. intros H E. apply negb_true_iff in H.
  induction s as [|c s IH]; simpl in *; [reflexivity|].
  apply orb_false_iff in H. destruct H as [H1 H2].
  apply negb_false_iff in H1. rewrite (E _ H1), (IH H2). reflexivity.
Qed.

Lemma keep_all_same (p : ascii -> bool) (s : string) :
  Text.all p s = true -> Text.keep p s = s.
Proof.
  unfold Text.all. intros H. apply negb_true_iff in H.
  induction s as [|c s IH]; simpl in *; [reflexivity|].
  apply orb_false_iff in H. destruct H as [H1 H2].
  apply negb_false_iff in H1. rewrite H1, (IH H2). reflexivity.
Qed.

Lemma replace_absent (c : ascii) (new s : string) :
  Text.has_char c s = false -> Text.replace (String c EmptyString) new s = s.
Proof.
  unfold Text.replace. induction s as [|d s IH]; intros H; [reflexivity|].
  simpl in H. apply orb_false_iff in H. destruct H as [H1 H2].
  cbn [Text.replace_scan]. rewrite prefix_one, Ascii.eqb_sym, H1, (IH H2).
  reflexivity.
Qed.

Lemma split_scan_past (sep : ascii) (part rest cur : string) :
  Text.has_char sep part = false ->
  Text.split_scan sep cur (part ++ rest) = Text.split_scan sep (cur ++ part) rest.
Proof.
  revert cur. induction part as [|d part IH]; intros cur H.
  - rewrite append_empty. reflexivity.
  - simpl in H. apply orb_false_iff in H. destruct H as [H1 H2].
    simpl. rewrite H1, (IH _ H2), append_one. reflexivity.
Qed.

Lemma split_scan_join (sep : ascii) (parts : list string) (part cur : string) :
  Forall (fun p => Text.has_char sep p = false) (part :: parts) ->
  Text.split_scan sep cur (Text.join (String sep EmptyString) (part :: parts))
  = (cur ++ part)%string :: parts.
Proof.
  revert part cur. induction parts as [|next parts IH]; intros part cur H.
  - simpl. inversion H as [|? ? Hp _]; subst.
    rewrite <- (append_empty part) at 1.
    rewrite (split_scan_past _ _ _ _ Hp). reflexivity.
  - inversion H as [|? ? Hp Hrest]; subst.
    change (Text.join (String sep EmptyString) (part :: next :: parts))
      with (part ++ String sep (Text.join (String sep EmptyString) (next :: parts)))%string.
    rewrite (split_scan_past _ _ _ _ Hp). simpl. rewrite Ascii.eqb_refl.
    rewrite (IH _ _ Hrest). reflexivity.
Qed.

Lemma map_same {A : Type} (f : A -> A) (l : list A) :
  Forall (fun a => f a = a) l -> map f l = l.
Proof.
  induction 1 as [|a l Ha _ IH]; simpl; [reflexivity|]. rewrite Ha, IH. reflexivity.
Qed.

Lemma filter_same {A : Type} (f : A -> bool) (l : list A) :
  Forall (fun a => f a = true) l -> filter f l = l.
Proof.
  induction 1 as [|a l Ha _ IH]; simpl; [reflexivity|]. rewrite Ha, IH. reflexivity.
Qed.

(** X25: a list of non-empty digit texts joined by semicolons is read back
    by [_string_to_number_list] as [transform_fn] of each text, in order
    (with the first exception of [transform_fn], if it raises), whatever
    one-character separators that are no digits are configured. *)
Theorem number_list_reads_back_joined_digits {B : Builtins}
        (parts : list string) (transform_fn : string -> Exc.outcome PyObj)
        (separator_list : list string) (x : Float) :
  transform_fn "12" = Exc.Return (ONumber x) ->
  Forall (fun part => part <> EmptyString /\ Text.all isdigit part = true) parts ->
  (forall c, isdigit c = true -> Text.has_char c Text.punctuation = false) ->
  Forall (fun sep => exists c, sep = String c EmptyString /\ isdigit c = false)
         separator_list ->
  OSMConnector._string_to_number_list (OStr (Text.join ";" parts)) transform_fn
                                      separator_list
  = (numbers <~ for_each transform_fn parts ;; Exc.Return (Some numbers)).
Proof.
  intros Hprobe Hparts Hdigit Hseps.
  assert (Hsemi : isdigit ";" = false).
  { destruct (isdigit ";") eqn:E; [|reflexivity].
    apply Hdigit in E. discriminate E. }
  assert (Hchars : forall q : ascii -> bool,
             q ";"%char = false -> (forall c, isdigit c = true -> q c = false) ->
             Text.any q (Text.join ";" parts) = false).
  { intros q Hq1 Hq2. apply any_join.
    - simpl. rewrite Hq1. reflexivity.
    - eapply Forall_impl; [|exact Hparts]. intros part [_ Hp].
      exact (any_false_within _ _ _ Hp Hq2). }
  unfold OSMConnector._string_to_number_list.
  rewrite Hprobe. cbn [Exc.bind is_number negb].
  rewrite Hchars.
  2:{ rewrite andb_false_iff. right. apply negb_false_iff.
      apply existsb_eqb_In. apply in_or_app. right. left. reflexivity. }
  2:{ intros c Hc. rewrite (Hdigit _ Hc). reflexivity. }
  assert (Hfold : fold_left
                    (fun acc sep =>
                       if negb (String.eqb sep ";") then Text.replace sep ";" acc else acc)
                    separator_list (Text.join ";" parts)
                  = Text.join ";" parts).
  { clear Hprobe. induction Hseps as [|sep seps [c [-> Hc]] _ IH]; [reflexivity|].
    cbn [fold_left].
    destruct (String.eqb (String c EmptyString) ";") eqn:E; cbn [negb]; [exact IH|].
    rewrite replace_absent; [exact IH|].
    rewrite has_char_any. apply Hchars.
    - destruct (Ascii.eqb_spec ";" c) as [<-|N]; [|reflexivity].
      rewrite String.eqb_refl in E. discriminate E.
    - intros d Hd. destruct (Ascii.eqb_spec d c) as [->|N]; [congruence|reflexivity]. }
  rewrite Hfold. clear Hfold.
  destruct parts as [|part parts]; [reflexivity|].
  unfold Text.split. rewrite split_scan_join.
  2:{ eapply Forall_impl; [|exact Hparts]. intros p [_ Hp].
      rewrite has_char_any. apply (any_false_within _ _ _ Hp).
      intros d Hd. destruct (Ascii.eqb_spec d ";") as [->|N]; [congruence|reflexivity]. }
  cbn [append].
  rewrite (map_same (Text.keep isdigit) (part :: parts)).
  2:{ eapply Forall_impl; [|exact Hparts]. intros p [_ Hp]. apply keep_all_same. exact Hp. }
  rewrite filter_same.
  2:{ eapply Forall_impl; [|exact Hparts]. intros p [Hp _].
      destruct p; [congruence|reflexivity]. }
  reflexivity.
Qed.

(** ** [process] *)

Section OCMProcess.

Context {B : Builtins}.
Variable json_dumps : OCMConnector.StationRaw -> string.
Variable _save : string -> list StationDict -> Exc.outcome unit.

Local Abbreviation ocm_loop := (OCMConnector.process_loop json_dumps).
Local Abbreviation ocm_process := (OCMConnector.process json_dumps _save).

Lemma ocm_address_ok (addressInfo : option OCMConnector.AddressInfoDict)
      (identifier : string) (station_raw : OCMConnector.StationRaw) (a : Address) :
  OCMConnector._create_address addressInfo identifier station_raw = Exc.Return a ->
  address_ok a.
Proof.
  unfold OCMConnector._create_address.
  destruct addressInfo as [info|]; [|discriminate].
  intros H. injection H as <-. unfold address_ok. simpl.
  split; [|split; [|split; [|reflexivity]]].
  - destruct (OCMConnector.Postcode info) as [text|]; [apply validated_postcode|exact I].
  - apply validated_town.
  - apply validated_state.
Qed.

Lemma ocm_station_fields (a : Address) (c : Charging) (identifier raw_data : string)
      (station_raw : OCMConnector.StationRaw) (station : StationDict) :
  OCMConnector._create_station a c identifier raw_data station_raw = Exc.Return station ->
  sd_id station = identifier
  /\ sd_data_source station = "OCM"
  /\ sd_address station = a
  /\ sd_charging station = c
  /\ sd_raw_data station = raw_data
  /\ sd_payment station = OCMConnector.UsageCost station_raw.
Proof.
  unfold OCMConnector._create_station. intros H.
  repeat match type of H with
         | Exc.bind ?r _ = _ => destruct r; cbn [Exc.bind] in H; [|discriminate H]
         end.
  injection H as <-. repeat split.
Qed.

Lemma ocm_loop_grows (raw : list OCMConnector.StationRaw) (processed : list StationDict) :
  exists new,
    fst (ocm_loop raw processed) = processed ++ new
    /\ (List.length new <= List.length raw)%nat
    /\ Forall (appended_from json_dumps raw) new.
Proof.
  revert processed. induction raw as [|station_raw rest IH]; intros processed.
  - exists []. simpl. rewrite app_nil_r. repeat split; constructor.
  - assert (Skip : exists new,
               fst (ocm_loop rest processed) = processed ++ new
               /\ (List.length new <= List.length (station_raw :: rest))%nat
               /\ Forall (appended_from json_dumps (station_raw :: rest)) new).
    { destruct (IH processed) as [new [H1 [H2 H3]]]. exists new.
      split; [exact H1|]. split; [simpl; lia|].
      eapply Forall_impl; [|exact H3].
      intros st [Ha [Hb [r [Hr Hc]]]]. split; [exact Ha|]. split; [exact Hb|].
      exists r. split; [right; exact Hr|exact Hc]. }
    assert (Stop : exists new,
               processed = processed ++ new
               /\ (List.length new <= List.length (station_raw :: rest))%nat
               /\ Forall (appended_from json_dumps (station_raw :: rest)) new).
    { exists []. rewrite app_nil_r. split; [reflexivity|].
      split; [simpl; lia|constructor]. }
    cbn [OCMConnector.process_loop].
    destruct (slot_get (OCMConnector.AddressInfo station_raw)) as [info|] eqn:Ei;
      [|exact Stop].
    match goal with
    | |- context [match ?t with Exc.Return _ => _ | Exc.Raise _ => _ end] =>
        destruct t as [text|e]; [|exact Stop]
    end.
    destruct (OCMConnector._create_address _ _ _) as [a|e] eqn:Ea; [|exact Skip].
    destruct (OCMConnector._create_station _ _ _ _ _) as [station|e] eqn:Es;
      [|exact Skip].
    destruct (IH (processed ++ [station])) as [new [H1 [H2 H3]]].
    exists (station :: new). split; [|split].
    + rewrite H1, <- app_assoc. reflexivity.
    + simpl. lia.
    + apply ocm_station_fields in Es.
      destruct Es as [Hid [Hsrc [Haddr [Hch [Hraw Hpay]]]]].
      constructor.
      * split; [exact Hsrc|]. split.
        { rewrite Haddr. exact (ocm_address_ok _ _ _ _ Ea). }
        exists station_raw. split; [left; reflexivity|].
        split; [exact Hraw|]. split; [|exact Hpay]. rewrite Hch, Hid. reflexivity.
      * eapply Forall_impl; [|exact H3].
        intros st [Ha' [Hb [r [Hr Hc]]]]. split; [exact Ha'|]. split; [exact Hb|].
        exists r. split; [right; exact Hr|exact Hc].
Qed.

Lemma ocm_loop_app (before rest : list OCMConnector.StationRaw)
      (processed : list StationDict) :
  ocm_loop (before ++ rest) processed
  = match ocm_loop before processed with
    | (done, Exc.Return _) => ocm_loop rest done
    | (done, Exc.Raise e) => (done, Exc.Raise e)
    end.
Proof.
  revert processed. induction before as [|station_raw before IH]; intros processed.
  - reflexivity.
  - cbn [app OCMConnector.process_loop].
    destruct (slot_get (OCMConnector.AddressInfo station_raw)) as [info|];
      [|reflexivity].
    match goal with
    | |- context [match ?t with Exc.Return _ => _ | Exc.Raise _ => _ end] =>
        destruct t as [text|e]; [|reflexivity]
    end.
    destruct (OCMConnector._create_address _ _ _) as [a|e]; [|apply IH].
    destruct (OCMConnector._create_station _ _ _ _ _) as [station|e]; apply IH.
Qed.

(** X26: whatever its outcome, [OCMConnector.process] leaves [raw_data] as
    it is and only appends to [processed_data]: at most one station for each
    raw record, each of the source [OCM], with a validated address, and
    carrying the serialised raw record it was built from.  Without raw data
    it raises [RuntimeError] and appends nothing. *)
Theorem ocm_process_only_appends_validated_stations
        (self : OCMConnector.Connector) (to_disk : bool) :
  let after := fst (ocm_process self to_disk) in
  OCMConnector.raw_data after = OCMConnector.raw_data self
  /\ OCMConnector.base_path after = OCMConnector.base_path self
  /\ (exists new,
        OCMConnector.processed_data after = OCMConnector.processed_data self ++ new
        /\ (List.length new <= List.length (OCMConnector.raw_data self))%nat
        /\ Forall (appended_from json_dumps (OCMConnector.raw_data self)) new)
  /\ (OCMConnector.raw_data self = [] ->
      ocm_process self to_disk
      = (self, Exc.Raise (Exc.RuntimeError "Load or get raw data first!"))).
Proof.
  unfold OCMConnector.process.
  destruct (OCMConnector.raw_data self) as [|station_raw rest] eqn:Eraw.
  - cbn. rewrite Eraw. split; [reflexivity|]. split; [reflexivity|].
    split; [|reflexivity]. exists []. rewrite app_nil_r.
    repeat split; constructor.
  - destruct (ocm_loop_grows (station_raw :: rest) (OCMConnector.processed_data self))
      as [new [H1 [H2 H3]]].
    destruct (ocm_loop (station_raw :: rest) (OCMConnector.processed_data self))
      as [processed r].
    cbn [fst] in H1. subst processed.
    assert (G : forall o : Exc.outcome unit,
               let after :=
                 fst (OCMConnector.mkConnector (OCMConnector.base_path self)
                                               (station_raw :: rest)
                                               (OCMConnector.processed_data self ++ new),
                      o) in
               OCMConnector.raw_data after = station_raw :: rest
               /\ OCMConnector.base_path after = OCMConnector.base_path self
               /\ (exists new0,
                     OCMConnector.processed_data after
                     = OCMConnector.processed_data self ++ new0
                     /\ (List.length new0 <= List.length (station_raw :: rest))%nat
                     /\ Forall (appended_from json_dumps (station_raw :: rest)) new0)
               /\ (station_raw :: rest = [] ->
                   (OCMConnector.mkConnector (OCMConnector.base_path self)
                                             (station_raw :: rest)
                                             (OCMConnector.processed_data self ++ new),
                    o)
                   = (self, Exc.Raise (Exc.RuntimeError "Load or get raw data first!")))).
    { intros o. cbn. split; [reflexivity|]. split; [reflexivity|].
      split; [|discriminate]. exists new. split; [reflexivity|]. split; assumption. }
    destruct r as [[]|e]; [destruct to_disk|]; apply G.
Qed.

(** X27: a raw record without [AddressInfo] stops [OCMConnector.process]
    with [AttributeError]: the records after it are not looked at, and what
    the records before it contributed stays in [processed_data]. *)
Theorem ocm_process_stops_at_record_without_address_info
        (base : string) (before after : list OCMConnector.StationRaw)
        (station_raw : OCMConnector.StationRaw)
        (processed done : list StationDict) (to_disk : bool) :
  slot_get (OCMConnector.AddressInfo station_raw) = None ->
  (before = [] /\ done = processed
   \/ ocm_process (OCMConnector.mkConnector base before processed) false
      = (OCMConnector.mkConnector base before done, Exc.Return tt)) ->
  ocm_process (OCMConnector.mkConnector base (before ++ station_raw :: after) processed)
              to_disk
  = (OCMConnector.mkConnector base (before ++ station_raw :: after) done,
     Exc.Raise (Exc.AttributeError "'NoneType' object has no attribute 'get'")).
Proof.
  intros Hnone Hbefore.
  assert (Hloop : ocm_loop before processed = (done, Exc.Return tt)).
  { destruct Hbefore as [[-> ->]|H]; [reflexivity|].
    unfold OCMConnector.process in H. cbn [OCMConnector.raw_data] in H.
    destruct before as [|b before]; [discriminate H|].
    cbn [OCMConnector.processed_data OCMConnector.base_path] in H.
    destruct (ocm_loop (b :: before) processed) as [d [[]|e]].
    - injection H as <-. reflexivity.
    - discriminate H. }
  unfold OCMConnector.process.
  cbn [OCMConnector.raw_data OCMConnector.processed_data OCMConnector.base_path].
  rewrite ocm_loop_app, Hloop.
  cbn [OCMConnector.process_loop]. rewrite Hnone.
  destruct (before ++ station_raw :: after) eqn:E; [|reflexivity].
  destruct before; discriminate E.
Qed.

End OCMProcess.

Lemma ocm_process_stops_at_record_without_address_info_witness :
  let raw := [Sample.ocm_station; Sample.ocm_station_without_address; Sample.ocm_station] in
  exists station,
    OCMConnector.process (B := Sample.builtins) Sample.json_dumps Sample._save
                         (OCMConnector.mkConnector "data" raw []) true
    = (OCMConnector.mkConnector "data" raw [station],
       Exc.Raise (Exc.AttributeError "'NoneType' object has no attribute 'get'"))
    /\ sd_id station = "sha256:4711"
    /\ postcode (sd_address station) = Some "10115".
Proof.
  intros raw. eexists. split; [|split].
  - apply (ocm_process_stops_at_record_without_address_info
             (B := Sample.builtins) Sample.json_dumps Sample._save
             "data" [Sample.ocm_station] [Sample.ocm_station]
             Sample.ocm_station_without_address []).
    + reflexivity.
    + right. reflexivity.
  - reflexivity.
  - reflexivity.
Defined.

(** ** Payment and authentication of an OpenStreetMap element *)

Lemma flat_map_if_nil {A C : Type} (c : A -> bool) (f : A -> C) (l : list A) :
  flat_map (fun a => if c a then [f a] else []) l = [] <->
  forall a, In a l -> c a = false.
Proof.
  induction l as [|a l IH]; simpl.
  - split; [intros _ x []|reflexivity].
  - destruct (c a) eqn:E; simpl.
    + split; [discriminate|]. intros H. specialize (H a (or_introl eq_refl)). congruence.
    + rewrite IH. split.
      * intros H x [<-|Hx]; [exact E|apply H; exact Hx].
      * intros H x Hx. apply H. right. exact Hx.
Qed.

(** X28: a station built by [OSMConnector._create_station] has a [payment]
    exactly when it has an [authentication], and it has one exactly when a
    tag key contains [auth]: payment tags alone are not reported. *)
Theorem osm_payment_follows_authentication {B : Builtins}
        (a : Address) (c : Charging) (identifier raw_data : string)
        (station_raw : OSMConnector.StationRaw) (station : StationDict) :
  OSMConnector._create_station a c identifier raw_data station_raw = Exc.Return station ->
  (sd_payment station = None <-> sd_authentication station = None)
  /\ (sd_authentication station = None <->
      forall tags item, OSMConnector.tags station_raw = Some tags ->
                        In item tags -> Text.contains "auth" (fst item) = false).
Proof.
  unfold OSMConnector._create_station. intros H.
  repeat match type of H with
         | Exc.bind ?r _ = _ => destruct r; cbn [Exc.bind] in H; [|discriminate H]
         end.
  destruct (OSMConnector.tags station_raw) as [tags|].
  - cbv zeta in H.
    pose proof (flat_map_if_nil (fun kv : string * string => Text.contains "auth" (fst kv))
                                (fun kv : string * string =>
                                   (Text.replace "authentication:" "" (fst kv)
                                    ++ ":" ++ snd kv)%string) tags) as N.
    cbv beta in N.
    match type of N with
    | ?l = [] <-> _ => destruct l as [|first rest]
    end.
    + injection H as <-. cbn. split; [split; reflexivity|].
      split; [intros _ tags' item E; injection E as <-; apply N; reflexivity|reflexivity].
    + injection H as <-. cbn. split; [split; discriminate|].
      split; [discriminate|]. intros F. exfalso.
      assert (X : first :: rest = []) by (apply N; intros item; apply (F tags item eq_refl)).
      discriminate X.
  - injection H as <-. cbn. split; [split; reflexivity|].
    split; [discriminate|reflexivity].
Qed.

(** ** The statements on a concrete interpreter *)

Lemma sample_digits_are_no_punctuation (c : ascii) :
  Sample.isdigit c = true -> Text.has_char c Text.punctuation = false.
Proof.
  destruct c as [[] [] [] [] [] [] [] []]; vm_compute; intros H;
    first [reflexivity | discriminate H].
Qed.

Lemma bna_max_kw_is_the_largest_entry_witness :
  let charging := BNAConnector._create_charging (B := Sample.builtins) "id" Sample.bna_row in
  Forall (fun x => x <> NaN) (BNAConnector.c_kw_list charging)
  /\ BNAConnector.c_kw_list charging = [Finite (225 # 10); Finite 50]
  /\ forall m, BNAConnector.c_max_kw charging = Some m ->
               exists top, m = Finite top
                           /\ In m (BNAConnector.c_kw_list charging)
                           /\ forall q, In (Finite q) (BNAConnector.c_kw_list charging) ->
                                        (q <= top)%Q.
Proof.
  intros charging.
  assert (H : Forall (fun x => x <> NaN) (BNAConnector.c_kw_list charging)).
  { repeat constructor; discriminate. }
  split; [exact H|]. split; [reflexivity|].
  exact (proj2 (proj2 (bna_max_kw_is_the_largest_entry
                         (B := Sample.builtins) "id" Sample.bna_row)) H).
Defined.

Lemma number_list_is_none_for_foreign_punctuation_witness :
  OSMConnector._string_to_number_list (B := Sample.builtins) (OStr "16.5")
                                      Sample.to_float [":"; ","; "/"]
  = Exc.Return None.
Proof.
  apply (proj2 (number_list_is_none_for_foreign_punctuation
                  (B := Sample.builtins) "16.5" Sample.to_float [":"; ","; "/"]
                  (Finite 12) eq_refl)).
  exists "."%char. split; [reflexivity|]. split; [reflexivity|].
  intros [H|[H|[H|[H|[]]]]]; discriminate H.
Defined.

Lemma number_list_reads_back_joined_digits_witness :
  OSMConnector._string_to_number_list (B := Sample.builtins) (OStr "16;32")
                                      Sample.to_float [":"; ","; "/"]
  = Exc.Return (Some [ONumber (Finite 16); ONumber (Finite 32)]).
Proof.
  apply (number_list_reads_back_joined_digits
           (B := Sample.builtins) ["16"; "32"] Sample.to_float [":"; ","; "/"] (Finite 12)).
  - reflexivity.
  - repeat constructor; discriminate.
  - exact sample_digits_are_no_punctuation.
  - repeat constructor; eexists; split; reflexivity.
Defined.

Lemma osm_payment_follows_authentication_witness :
  let address := OSMConnector._create_address (B := Sample.builtins) "id" Sample.osm_element in
  exists station,
    OSMConnector._create_station (B := Sample.builtins) address Run.sockets "id" "{}"
                                 Sample.osm_element
    = Exc.Return station
    /\ sd_authentication station = None
    /\ (sd_payment station = None <-> sd_authentication station = None).
Proof.
  intros address. eexists. split; [reflexivity|]. split; [reflexivity|].
  apply (osm_payment_follows_authentication
           (B := Sample.builtins) address Run.sockets "id" "{}" Sample.osm_element).
  reflexivity.
Defined.
